(** * AKS AI Agent: a shallow embedding of [app.py], [utilities.py],
      [app_ui.py], [test/test_main_app.py] and [test/test_all.py]

    The repository wires a Semantic Kernel chat agent to an MCP subprocess
    and a Chainlit session host.  The Python code is embedded as functions
    in a state-and-exception monad over an explicit [World]: the process
    environment, the file system, standard output, the module global
    [kube_discovery_plugin], the Chainlit session store and outbox, and a
    ghost trace of the calls made on MCP plugin objects.

    What the two SDKs do behind their interface is not in the repository.
    It enters as a record [SDK] of oracles: which calls into Semantic
    Kernel raise, and what one [agent.invoke] call yields.

    Conventions of the model:
    - an exception is a value of [Py.exc], an instance of [Exception];
      conditions that are only a [BaseException], such as the cancellation
      of a task, are not among the outcomes considered;
    - every call into Semantic Kernel may raise; sending a Chainlit message
      does not;
    - the file system is a tree of directories and regular files without
      symbolic links; paths are resolved component by component from the
      root or from the working directory;
    - [app_ui.run_host] handles the events of the host one after another,
      each handler to its end.  [app_ui.run_steps] is the event loop in
      which the start of a chat is suspended at its [await] on
      [__aenter__] while other handlers run; a message handler is taken
      as one step, since it reads and writes no state shared between
      sessions but the file system and standard output.  The outbox holds
      the messages the handlers of the repository send; an exception that
      leaves a handler ends that handler, not the process. *)

From stdpp Require Import gmap strings list fin_maps pretty.

(** ** Python values and exceptions *)

Module Py.

(** The exception classes the code can meet.  [str(e)] is the message. *)
Inductive exc : Type :=
| ValueError (msg : string)
| OSError (msg : string)
| SdkError (msg : string).

Definition str_exc (e : exc) : string :=
  match e with
  | ValueError m | OSError m | SdkError m => m
  end.

#[global] Instance exc_eq_dec : EqDecision exc.
Proof. solve_decision. Defined.

(** Objects as far as [hasattr], attribute access and [str] see them. *)
Inductive val : Type :=
| None_
| Str (s : string)
| Obj (repr : string) (attrs : attrs)
with attrs : Type :=
| NoAttr
| Attr (name : string) (v : val) (rest : attrs).

Definition str (v : val) : string :=
  match v with
  | None_ => "None"
  | Str s => s
  | Obj r _ => r
  end.

Fixpoint assoc (name : string) (l : attrs) : option val :=
  match l with
  | NoAttr => None
  | Attr k v l' => if decide (k = name) then Some v else assoc name l'
  end.

(** [getattr v name] is [Some] exactly when [hasattr(v, name)]. *)
Definition getattr (v : val) (name : string) : option val :=
  match v with
  | Obj _ attrs => assoc name attrs
  | _ => None
  end.

(** Truth value of a [str]: only the empty string is falsy. *)
Definition truthy_str (s : string) : bool := negb (bool_decide (s = EmptyString)).

(** Truth value of an [Optional[str]]: [None] is falsy too. *)
Definition truthy (x : option string) : bool :=
  match x with
  | Some s => truthy_str s
  | None => false
  end.

(** [s[:n]], counting code points of the UTF-8 text [s]: a byte in
    [128, 192) continues the code point before it. *)
Definition is_continuation (c : Ascii.ascii) : bool :=
  let n := Ascii.nat_of_ascii c in (128 <=? n) && (n <? 192).

Fixpoint slice_to (n : nat) (s : string) : string :=
  match s with
  | EmptyString => EmptyString
  | String c s' =>
      if is_continuation c then String c (slice_to n s')
      else match n with
           | 0 => EmptyString
           | S n' => String c (slice_to n' s')
           end
  end.

(** [x or y] *)
Definition or_ (x y : option string) : option string :=
  if truthy x then x else y.

(** [os.getenv(key)] and [os.getenv(key, default)] *)
Definition getenv (env : gmap string string) (key : string) : option string :=
  env !! key.

Definition getenv_default (env : gmap string string) (key dflt : string)
  : option string :=
  Some (default dflt (env !! key)).

End Py.

(** ** The SDK objects the code builds *)

(** [AzureChatCompletion(service_id=..., deployment_name=..., ...)] *)
Record AzureChatCompletion := {
  service_id : string;
  svc_deployment_name : option string;
  svc_endpoint : option string;
  svc_api_key : option string;
  svc_api_version : option string;
}.

(** [MCPStdioPlugin(name=..., description=..., command=..., args=...)].
    [mcp_id] is the identity of the Python object. *)
Record MCPStdioPlugin := {
  mcp_id : nat;
  mcp_name : string;
  mcp_description : string;
  mcp_command : string;
  mcp_args : list string;
}.

Inductive Plugin : Type :=
| KubePlugin (p : MCPStdioPlugin)
| ClusterReportPlugin.

(** [sk.Kernel()] with the services and the named plugins added to it. *)
Record Kernel := {
  services : list AzureChatCompletion;
  plugins : list (string * Plugin);
}.

Record ChatCompletionAgent := {
  agent_kernel : Kernel;
  agent_name : string;
  agent_description : string;
  agent_instructions : option string;
}.

#[global] Instance AzureChatCompletion_eq_dec : EqDecision AzureChatCompletion.
Proof. solve_decision. Defined.
#[global] Instance MCPStdioPlugin_eq_dec : EqDecision MCPStdioPlugin.
Proof. solve_decision. Defined.
#[global] Instance Plugin_eq_dec : EqDecision Plugin.
Proof. solve_decision. Defined.
#[global] Instance Kernel_eq_dec : EqDecision Kernel.
Proof. solve_decision. Defined.
#[global] Instance ChatCompletionAgent_eq_dec : EqDecision ChatCompletionAgent.
Proof. solve_decision. Defined.

(** ** The world the program runs in *)

(** What makes a file operation fail: permissions, a full disk, a bad path.
    An [OpenFault] strikes in [open(path, 'w')], before the file is touched;
    a [WriteFault] strikes in [f.write], after [open] has truncated it. *)
Inductive Fault : Type :=
| OpenFault (e : Py.exc)
| WriteFault (e : Py.exc).

(** What a location of the file system holds *)
Inductive Node : Type :=
| Dir
| File (content : string).

#[global] Instance Node_eq_dec : EqDecision Node.
Proof. solve_decision. Defined.

(** Locations are absolute: the names from the root down.  The working
    directory and the directories above it exist; everything else that
    exists is in [fs_nodes].  The fault maps say where the medium refuses
    to make a missing directory or to take a file (no permission, no space
    left), and with which error; they stay as they are. *)
Record FileSystem := {
  fs_nodes : gmap (list string) Node;
  fs_cwd : list string;
  fs_mkdir_faults : gmap (list string) Py.exc;
  fs_file_faults : gmap (list string) Fault;
}.

(** Ghost record of the calls made on MCP plugin objects and on agents. *)
Inductive Event : Type :=
| EvInit (h : nat)        (* MCPStdioPlugin(...) built object [h] *)
| EvEnter (h : nat)       (* [__aenter__] called on [h] *)
| EvStarted (h : nat)     (* ... and the subprocess is running *)
| EvExit (h : nat)        (* [__aexit__] called on [h] *)
| EvInvoke (msg : string) (* [agent.invoke(msg)] called *).

#[global] Instance Event_eq_dec : EqDecision Event.
Proof. solve_decision. Defined.

Record World := {
  environ : gmap string string;                (* os.environ, after load_dotenv() *)
  fs : FileSystem;
  stdout : list string;                        (* lines printed, oldest first *)
  kube_discovery_plugin : option MCPStdioPlugin; (* the module global of app.py *)
  next_id : nat;                               (* identity of the next object *)
  trace : list Event;                          (* oldest first *)
  user_session : gmap nat ChatCompletionAgent; (* cl.user_session "agent", per session *)
  outbox : list (nat * string);                (* cl.Message(...).send(), oldest first *)
}.

Definition set_fs (f : FileSystem) (w : World) : World :=
  {| environ := environ w; fs := f; stdout := stdout w;
     kube_discovery_plugin := kube_discovery_plugin w; next_id := next_id w;
     trace := trace w; user_session := user_session w; outbox := outbox w |}.

Definition print (line : string) (w : World) : World :=
  {| environ := environ w; fs := fs w; stdout := stdout w ++ [line];
     kube_discovery_plugin := kube_discovery_plugin w; next_id := next_id w;
     trace := trace w; user_session := user_session w; outbox := outbox w |}.

Definition set_global (p : option MCPStdioPlugin) (w : World) : World :=
  {| environ := environ w; fs := fs w; stdout := stdout w;
     kube_discovery_plugin := p; next_id := next_id w;
     trace := trace w; user_session := user_session w; outbox := outbox w |}.

Definition bump_id (w : World) : World :=
  {| environ := environ w; fs := fs w; stdout := stdout w;
     kube_discovery_plugin := kube_discovery_plugin w; next_id := S (next_id w);
     trace := trace w; user_session := user_session w; outbox := outbox w |}.

Definition log (ev : Event) (w : World) : World :=
  {| environ := environ w; fs := fs w; stdout := stdout w;
     kube_discovery_plugin := kube_discovery_plugin w; next_id := next_id w;
     trace := trace w ++ [ev]; user_session := user_session w; outbox := outbox w |}.

Definition session_set (sid : nat) (a : ChatCompletionAgent) (w : World) : World :=
  {| environ := environ w; fs := fs w; stdout := stdout w;
     kube_discovery_plugin := kube_discovery_plugin w; next_id := next_id w;
     trace := trace w; user_session := <[sid := a]> (user_session w);
     outbox := outbox w |}.

(** [await cl.Message(content=...).send()] in session [sid] *)
Definition send (sid : nat) (content : string) (w : World) : World :=
  {| environ := environ w; fs := fs w; stdout := stdout w;
     kube_discovery_plugin := kube_discovery_plugin w; next_id := next_id w;
     trace := trace w; user_session := user_session w;
     outbox := outbox w ++ [(sid, content)] |}.

(** ** Running Python: state and exceptions *)

Inductive Outcome (A : Type) : Type :=
| Returned (a : A)
| Raised (e : Py.exc).
Arguments Returned {A} a.
Arguments Raised {A} e.

Definition M (A : Type) : Type := World -> Outcome A * World.

Definition ret {A} (a : A) : M A := fun w => (Returned a, w).
Definition raise {A} (e : Py.exc) : M A := fun w => (Raised e, w).
Definition bind {A B} (m : M A) (k : A -> M B) : M B :=
  fun w => match m w with
           | (Returned a, w') => k a w'
           | (Raised e, w') => (Raised e, w')
           end.
Definition modify (f : World -> World) : M unit := fun w => (Returned tt, f w).
Definition gets {A} (f : World -> A) : M A := fun w => (Returned (f w), w).

(** [try: m except Exception as e: h e] *)
Definition try_except {A} (m : M A) (h : Py.exc -> M A) : M A :=
  fun w => match m w with
           | (Returned a, w') => (Returned a, w')
           | (Raised e, w') => h e w'
           end.

(** [try: m finally: c], where [c] swallows its own exceptions *)
Definition try_finally {A} (m : M A) (c : World -> World) : M A :=
  fun w => let (r, w') := m w in (r, c w').

Notation "'let*' x ':=' m 'in' k" := (bind m (fun x => k))
  (at level 10, x name, m at level 100, k at level 200).

(** ** Built-ins: [os.path.join], [os.makedirs], [open]/[write] *)

Module Os.

Definition sep : Ascii.ascii := Ascii.ascii_of_nat 47.   (* '/' *)

Definition is_sep (c : Ascii.ascii) : bool := bool_decide (c = sep).

Fixpoint ends_with_sep (s : string) : bool :=
  match s with
  | EmptyString => false
  | String c EmptyString => is_sep c
  | String _ s' => ends_with_sep s'
  end.

Definition starts_with_sep (s : string) : bool :=
  match s with
  | String c _ => is_sep c
  | EmptyString => false
  end.

(** [os.path.join(a, b)] (posixpath) *)
Definition path_join (a b : string) : string :=
  if starts_with_sep b then b
  else if bool_decide (a = "") || ends_with_sep a then a +:+ b
  else a +:+ "/" +:+ b.

(** *** Paths *)

(** What stands between the separators of a path: for "a//b/" the fields
    "a", "", "b" and "". *)
Fixpoint fields (s : string) : list string :=
  match s with
  | EmptyString => [EmptyString]
  | String c s' =>
      if is_sep c then EmptyString :: fields s'
      else match fields s' with
           | f :: rest => String c f :: rest
           | [] => [String c EmptyString]
           end
  end.

Definition nonempty (s : string) : bool := negb (bool_decide (s = EmptyString)).

(** The names a path goes through: its non-empty fields *)
Definition components (path : string) : list string :=
  List.filter nonempty (fields path).

(** Each name of a path with the path up to that name, as [os.path.split]
    cuts it: for "a//b/" the pairs ("a", "a") and ("b", "a//b"). *)
Fixpoint steps_of (seen todo : list string) : list (string * string) :=
  match todo with
  | [] => []
  | field :: rest =>
      if nonempty field
      then (field, String.concat "/" (seen ++ [field])) :: steps_of (seen ++ [field]) rest
      else steps_of (seen ++ [field]) rest
  end.

Definition steps (path : string) : list (string * string) :=
  steps_of [] (fields path).

(** Where the resolution of a path starts *)
Definition start (f : FileSystem) (path : string) : list string :=
  if starts_with_sep path then [] else fs_cwd f.

(** *** The tree *)

Definition node_at (f : FileSystem) (t : list string) : option Node :=
  if bool_decide (t `prefix_of` fs_cwd f) then Some Dir else fs_nodes f !! t.

Inductive Found : Type :=
| At (t : list string)
| Missing
| NotDir.

(** Going down the names [names] from the directory [cur]; every name has
    to be a directory. *)
Fixpoint walk (f : FileSystem) (cur : list string) (names : list string) : Found :=
  match names with
  | [] => At cur
  | name :: rest =>
      if bool_decide (name = ".") then walk f cur rest
      else if bool_decide (name = "..") then walk f (removelast cur) rest
      else match node_at f (cur ++ [name]) with
           | Some Dir => walk f (cur ++ [name]) rest
           | Some (File _) => NotDir
           | None => Missing
           end
  end.

(** The path names a directory by its form alone: it has no name, or ends
    in "." or "..". *)
Definition dir_form (path : string) : bool :=
  match last (components path) with
  | Some name => bool_decide (name = ".") || bool_decide (name = "..")
  | None => true
  end.

(** Where the last name of [path] is, or would be: the names before it
    have to be directories. *)
Definition locate (f : FileSystem) (path : string) : Found :=
  match walk f (start f path) (removelast (components path)) with
  | At d =>
      match last (components path) with
      | Some name => At (d ++ [name])
      | None => At d
      end
  | Missing => Missing
  | NotDir => NotDir
  end.

Definition mkdir (t : list string) (f : FileSystem) : FileSystem :=
  {| fs_nodes := <[t := Dir]> (fs_nodes f); fs_cwd := fs_cwd f;
     fs_mkdir_faults := fs_mkdir_faults f; fs_file_faults := fs_file_faults f |}.

Definition store (t : list string) (content : string) (f : FileSystem) : FileSystem :=
  {| fs_nodes := <[t := File content]> (fs_nodes f); fs_cwd := fs_cwd f;
     fs_mkdir_faults := fs_mkdir_faults f; fs_file_faults := fs_file_faults f |}.

Definition ENOENT (path : string) : Py.exc :=
  Py.OSError ("[Errno 2] No such file or directory: '" +:+ path +:+ "'").
Definition EEXIST (path : string) : Py.exc :=
  Py.OSError ("[Errno 17] File exists: '" +:+ path +:+ "'").
Definition ENOTDIR (path : string) : Py.exc :=
  Py.OSError ("[Errno 20] Not a directory: '" +:+ path +:+ "'").
Definition EISDIR (path : string) : Py.exc :=
  Py.OSError ("[Errno 21] Is a directory: '" +:+ path +:+ "'").

(** *** [os.makedirs(path, exist_ok=True)] *)

(** The directories of [todo] that are missing are made one after the
    other, from [cur] down.  A directory that exists is passed through; a
    regular file in the way, or a fault of the medium, raises, and what was
    made before stays.  The exception names the path [mkdir] was called
    with: [path] itself for the last name, else the path up to the name. *)
Fixpoint makedirs_from (path : string) (cur : list string)
    (todo : list (string * string)) : M unit := fun w =>
  match todo with
  | [] => (Returned tt, w)
  | (name, _) :: rest =>
      if bool_decide (name = ".") then makedirs_from path cur rest w
      else if bool_decide (name = "..") then makedirs_from path (removelast cur) rest w
      else
        match node_at (fs w) (cur ++ [name]) with
        | Some Dir => makedirs_from path (cur ++ [name]) rest w
        | Some (File _) =>
            match rest with
            | [] => (Raised (EEXIST path), w)
            | [_] => (Raised (ENOTDIR path), w)
            | (_, upto) :: _ => (Raised (ENOTDIR upto), w)
            end
        | None =>
            match fs_mkdir_faults (fs w) !! (cur ++ [name]) with
            | Some e => (Raised e, w)
            | None =>
                makedirs_from path (cur ++ [name]) rest
                              (set_fs (mkdir (cur ++ [name]) (fs w)) w)
            end
        end
  end.

(** [os.makedirs] makes the parents first, by recursion on the head of
    the path; on a tree that is making what is missing from the top
    down. *)
Definition makedirs (path : string) : M unit := fun w =>
  if nonempty path then makedirs_from path (start (fs w) path) (steps path) w
  else (Raised (ENOENT path), w).

(** *** [with open(path, 'w', encoding='utf-8') as f: f.write(content)] *)

(** [open] resolves the directories of the path, refuses a directory,
    and truncates the file or creates it; [write] then puts the text
    there. *)
Definition write_text (path content : string) : M unit := fun w =>
  let f := fs w in
  if negb (nonempty path) then (Raised (ENOENT path), w)
  else if dir_form path then
    match walk f (start f path) (components path) with
    | At _ => (Raised (EISDIR path), w)
    | Missing => (Raised (ENOENT path), w)
    | NotDir => (Raised (ENOTDIR path), w)
    end
  else
    match locate f path with
    | Missing => (Raised (ENOENT path), w)
    | NotDir => (Raised (ENOTDIR path), w)
    | At t =>
        match node_at f t, ends_with_sep path with
        | Some Dir, _ => (Raised (EISDIR path), w)
        | Some (File _), true => (Raised (ENOTDIR path), w)
        | None, true => (Raised (EISDIR path), w)
        | _, false =>
            match fs_file_faults f !! t with
            | Some (OpenFault e) => (Raised e, w)
            | Some (WriteFault e) => (Raised e, set_fs (store t "" f) w)
            | None => (Returned tt, set_fs (store t content f) w)
            end
        end
    end.

End Os.

(** ** utilities.py *)

Module util.

Definition write_to_file_md (file_path content : string) : M unit :=
  try_except
    (let* _ := Os.write_text file_path content in
     modify (print ("Successfully wrote content to " +:+ file_path)))
    (fun e =>
       let* _ := modify (print ("Error writing to file " +:+ file_path +:+ ": "
                                +:+ Py.str_exc e)) in
       raise e).

End util.

(** ** What the SDKs do behind their interface *)

(** One [agent.invoke(msg)] call, seen from the caller: the fragments the
    async generator yields, the exception that ends it (if any), and what
    the capabilities it ran left on disk and on standard output. *)
Record InvokeRun := {
  fragments : list Py.val;
  raised : option Py.exc;
  fs_after : FileSystem;
  printed : list string;
}.

(** The calls [app.py] makes into Semantic Kernel, each with its
    arguments. *)
Inductive SdkCall : Type :=
| NewKernel                                       (* sk.Kernel() *)
| NewAzureChatCompletion (svc : AzureChatCompletion) (* AzureChatCompletion(...) *)
| AddService (svc : AzureChatCompletion)          (* kernel.add_service(svc) *)
| NewMCPStdioPlugin (p : MCPStdioPlugin)          (* MCPStdioPlugin(...) *)
| AEnter (p : MCPStdioPlugin)                     (* await p.__aenter__() *)
| AddPlugin (p : Plugin) (plugin_name : string)   (* kernel.add_plugin(p, plugin_name=...) *)
| NewChatCompletionAgent (a : ChatCompletionAgent) (* ChatCompletionAgent(...) *).

Record SDK := {
  (** [None] when the call goes through, [Some e] when it raises [e]: a
      constructor that rejects its arguments, a subprocess that does not
      start. *)
  sdk_raises : SdkCall -> option Py.exc;
  agent_invoke : ChatCompletionAgent -> string -> FileSystem -> InvokeRun;
}.

(** ** app.py *)

Module app.

(** [REPORT_DIR = os.getenv("REPORT_DIR", "./ClusterReports/")] *)
Definition REPORT_DIR (env : gmap string string) : string :=
  default "./ClusterReports/" (env !! "REPORT_DIR").

Definition generate_cluster_summary (summary_markdown : string) (save_file : bool)
  : M string :=
  if save_file then
    let* dir := gets (fun w => REPORT_DIR (environ w)) in
    let* _ := Os.makedirs dir in
    let file_path := Os.path_join dir "cluster_summary.md" in
    let* _ := util.write_to_file_md file_path summary_markdown in
    ret ("Cluster summary document generated: `" +:+ file_path +:+ "`")
  else ret summary_markdown.

Definition config_error : Py.exc :=
  Py.ValueError "Azure OpenAI endpoint and API key must be provided either as parameters or environment variables".

Definition default_instructions : string :=
  "You are a Kubernetes discovery assistant that helps users explore and assess their Kubernetes clusters. You can discover namespaces, pods, services, deployments, and generate detailed cluster reports.".

(** What the call holds while it waits for [__aenter__] at line 81: its
    local variables, and the plugin object [__aenter__] was called on. *)
Record Frame := {
  fr_instructions : option string;
  fr_kernel : Kernel;
  fr_entered : MCPStdioPlugin;
}.

Section WithSDK.
Context (sdk : SDK).

(** A call into Semantic Kernel raises when the SDK says so. *)
Definition sdk_call (c : SdkCall) : M unit := fun w =>
  match sdk_raises sdk c with
  | Some e => (Raised e, w)
  | None => (Returned tt, w)
  end.

(** [sk.Kernel()] *)
Definition new_Kernel : M Kernel :=
  let* _ := sdk_call NewKernel in
  ret {| services := []; plugins := [] |}.

(** [AzureChatCompletion(service_id=..., ...)] *)
Definition new_AzureChatCompletion (svc : AzureChatCompletion) : M AzureChatCompletion :=
  let* _ := sdk_call (NewAzureChatCompletion svc) in
  ret svc.

(** [kernel.add_service(s)] *)
Definition add_service (k : Kernel) (s : AzureChatCompletion) : M Kernel :=
  let* _ := sdk_call (AddService s) in
  ret {| services := services k ++ [s]; plugins := plugins k |}.

(** [kernel.add_plugin(p, plugin_name=...)] *)
Definition add_plugin (k : Kernel) (p : Plugin) (plugin_name : string) : M Kernel :=
  let* _ := sdk_call (AddPlugin p plugin_name) in
  ret {| services := services k; plugins := plugins k ++ [(plugin_name, p)] |}.

(** [MCPStdioPlugin(...)]: a fresh object *)
Definition new_MCPStdioPlugin (name description command : string) (args : list string)
  : M MCPStdioPlugin := fun w =>
  let p := {| mcp_id := next_id w; mcp_name := name; mcp_description := description;
              mcp_command := command; mcp_args := args |} in
  match sdk_raises sdk (NewMCPStdioPlugin p) with
  | Some e => (Raised e, w)
  | None => (Returned p, log (EvInit (next_id w)) (bump_id w))
  end.

(** [p.__aenter__()] is called ... *)
Definition aenter_called (p : MCPStdioPlugin) : M unit :=
  modify (log (EvEnter (mcp_id p))).

(** ... and the [await] on it ends: the subprocess runs, or launching it
    raised. *)
Definition aenter_awaited (p : MCPStdioPlugin) : M unit := fun w =>
  match sdk_raises sdk (AEnter p) with
  | Some e => (Raised e, w)
  | None => (Returned tt, log (EvStarted (mcp_id p)) w)
  end.

(** [ChatCompletionAgent(kernel=..., name=..., ...)] *)
Definition new_ChatCompletionAgent (a : ChatCompletionAgent) : M ChatCompletionAgent :=
  let* _ := sdk_call (NewChatCompletionAgent a) in
  ret a.

(** Lines 48 to 81, as far as the [await]: the call runs without
    interruption up to the point where [__aenter__] has been called on the
    plugin just stored in the module global. *)
Definition create_until_await
    (instructions deployment_name endpoint api_key : option string)
  : M Frame :=
  let* env := gets environ in
  let deployment_name :=
    Py.or_ deployment_name
           (Py.getenv_default env "AZURE_OPENAI_DEPLOYMENT_NAME" "gpt-4o-standard") in
  let endpoint := Py.or_ endpoint (Py.getenv env "AZURE_OPENAI_ENDPOINT") in
  let api_key := Py.or_ api_key (Py.getenv env "AZURE_OPENAI_API_KEY") in
  let api_version := Py.getenv_default env "AZURE_OPENAI_API_VERSION" "2024-02-01" in
  if negb (Py.truthy endpoint) || negb (Py.truthy api_key) then raise config_error
  else
    let instructions := Py.or_ instructions (Some default_instructions) in
    let* kernel := new_Kernel in
    let* service :=
      new_AzureChatCompletion
        {| service_id := "default"; svc_deployment_name := deployment_name;
           svc_endpoint := endpoint; svc_api_key := api_key;
           svc_api_version := api_version |} in
    let* kernel := add_service kernel service in
    let* plugin :=
      new_MCPStdioPlugin "kubernetes" "Kubernetes discovery plugin" "npx"
                         ["mcp-server-kubernetes"] in
    let* _ := modify (set_global (Some plugin)) in
    let* _ := aenter_called plugin in
    ret {| fr_instructions := instructions; fr_kernel := kernel;
           fr_entered := plugin |}.

(** Lines 81 to 92, from the end of the [await].  Line 84 reads the module
    global again: the plugin registered is the one the global refers to at
    that moment.  (The global was set before the [await] and nothing in
    the repository clears it; [add_plugin] rejects a missing plugin.) *)
Definition create_after_await (fr : Frame) : M ChatCompletionAgent :=
  let* _ := aenter_awaited (fr_entered fr) in
  let* plugin := gets kube_discovery_plugin in
  match plugin with
  | None => raise (Py.ValueError "plugin or parent_directory must be provided.")
  | Some plugin =>
      let* kernel := add_plugin (fr_kernel fr) (KubePlugin plugin)
                                "kubernetes_discovery_plugin" in
      let* kernel := add_plugin kernel ClusterReportPlugin "cluster_report_plugin" in
      new_ChatCompletionAgent
        {| agent_kernel := kernel;
           agent_name := "KubernetesDiscoveryAgent";
           agent_description :=
             "Discovers Kubernetes namespaces, pods, services, images, and generates cluster summary document.";
           agent_instructions := fr_instructions fr |}
  end.

(** The call run from its start to its end, nothing else running in
    between *)
Definition create_kubernetes_discovery_agent
    (instructions deployment_name endpoint api_key : option string)
  : M ChatCompletionAgent :=
  let* fr := create_until_await instructions deployment_name endpoint api_key in
  create_after_await fr.

End WithSDK.

End app.

(** ** app_ui.py *)

Module app_ui.

(** The double-quote character *)
Definition dq : string := String (Ascii.ascii_of_nat 34) EmptyString.

Definition welcome_msg : string :=
  "
    🎯 **AKS AI Agent** - Kubernetes Discovery Assistant
    
    I can help you explore and analyze your AKS cluster! Here's what I can do:
    
    🔍 **Cluster Discovery:**
    - List namespaces, nodes, pods, services
    - Show deployments and workloads
    - Analyze resource usage
    
    📊 **Reports & Analysis:**
    - Generate cluster summary reports
    - Identify potential issues
    - Provide optimization recommendations
    
    **Try asking me:**
    - " +:+ dq +:+
  "Show me all namespaces in the cluster" +:+ dq +:+
  "
    - " +:+ dq +:+
  "List all pods in the kube-system namespace" +:+ dq +:+
  "
    - " +:+ dq +:+
  "Generate a cluster summary report" +:+ dq +:+
  "
    - " +:+ dq +:+
  "What nodes are running in the cluster?" +:+ dq +:+
  "
    
    How can I help you explore your Kubernetes cluster today?
    ".

(** The text one streamed [response] adds to [response_content] *)
Definition fragment_text (response : Py.val) : string :=
  match Py.getattr response "content" with
  | Some content =>
      match Py.getattr content "content" with
      | Some inner => Py.str inner
      | None => Py.str content
      end
  | None => Py.str response
  end.

(** [response_content] after the [async for] over the given fragments *)
Definition accumulate (responses : list Py.val) : string :=
  fold_left (fun response_content response =>
               response_content +:+ fragment_text response) responses "".

Section WithSDK.
Context (sdk : SDK).

(** Running the async generator [agent.invoke(msg)] to its end: the
    fragments it yielded, or the exception that broke it off. *)
Definition invoke (agent : ChatCompletionAgent) (msg : string) : M (list Py.val) :=
  fun w =>
  let w := log (EvInvoke msg) w in
  let run := agent_invoke sdk agent msg (fs w) in
  let w' := fold_left (fun w line => print line w) (printed run)
                      (set_fs (fs_after run) w) in
  match raised run with
  | Some e => (Raised e, w')
  | None => (Returned (fragments run), w')
  end.

(** [@cl.on_chat_start] handler, run in session [sid] *)
Definition start (sid : nat) : M unit :=
  let* agent := app.create_kubernetes_discovery_agent sdk None None None None in
  let* _ := modify (session_set sid agent) in
  modify (send sid welcome_msg).

(** The same handler in two parts: up to the [await] inside the creation
    call, and from there on. *)
Definition start_until_await : M app.Frame :=
  app.create_until_await sdk None None None None.

Definition start_after_await (sid : nat) (fr : app.Frame) : M unit :=
  let* agent := app.create_after_await sdk fr in
  let* _ := modify (session_set sid agent) in
  modify (send sid welcome_msg).

(** [@cl.on_message] handler, run in session [sid] *)
Definition on_message (sid : nat) (message_content : string) : M unit :=
  let* agent := gets (fun w => user_session w !! sid) in
  match agent with
  | None => modify (send sid "❌ Agent not initialized. Please refresh the page.")
  | Some agent =>
      try_except
        (let* responses := invoke agent message_content in
         let response_content := accumulate responses in
         if Py.truthy_str response_content then
           modify (send sid response_content)
         else modify (send sid "❌ No response received from the agent."))
        (fun e =>
           let error_msg := "❌ Error processing your request: " +:+ Py.str_exc e in
           modify (send sid error_msg))
  end.

(** What reaches the handlers of a running Chainlit process.  The module
    registers handlers for the start of a chat and for a message, and none
    for the end of a chat. *)
Inductive HostEvent : Type :=
| ChatStart (sid : nat)
| UserMessage (sid : nat) (content : string)
| ChatEnd (sid : nat).

Definition dispatch (ev : HostEvent) (w : World) : World :=
  match ev with
  | ChatStart sid => snd (start sid w)
  | UserMessage sid content => snd (on_message sid content w)
  | ChatEnd _ => w
  end.

Definition run_host (evs : list HostEvent) (w : World) : World :=
  fold_left (fun w ev => dispatch ev w) evs w.

(** Handlers run as tasks of one event loop: while the start of a chat
    waits for its adapter subprocess, other handlers run.  A step of the
    loop begins the start of a chat as task [task], resumes a waiting
    task, or handles a message. *)
Inductive Step : Type :=
| StartBegins (task sid : nat)
| StartResumes (task : nat)
| MessageHandled (sid : nat) (content : string).

(** The process and its waiting tasks: for each, the session it belongs
    to and what the creation call holds. *)
Record Loop := {
  waiting : gmap nat (nat * app.Frame);
  world : World;
}.

Definition step (st : Step) (l : Loop) : Loop :=
  match st with
  | StartBegins task sid =>
      match waiting l !! task with
      | Some _ => l
      | None =>
          match start_until_await (world l) with
          | (Returned fr, w') =>
              {| waiting := <[task := (sid, fr)]> (waiting l); world := w' |}
          | (Raised _, w') => {| waiting := waiting l; world := w' |}
          end
      end
  | StartResumes task =>
      match waiting l !! task with
      | Some (sid, fr) =>
          {| waiting := delete task (waiting l);
             world := snd (start_after_await sid fr (world l)) |}
      | None => l
      end
  | MessageHandled sid content =>
      {| waiting := waiting l; world := snd (on_message sid content (world l)) |}
  end.

Definition run_steps (sts : list Step) (l : Loop) : Loop :=
  fold_left (fun l st => step st l) sts l.

(** The steps of a host that takes the next event only when the handler
    of the last one is through *)
Definition one_by_one (evs : list HostEvent) : list Step :=
  evs ≫= fun ev =>
    match ev with
    | ChatStart sid => [StartBegins 0 sid; StartResumes 0]
    | UserMessage sid content => [MessageHandled sid content]
    | ChatEnd _ => []
    end.

End WithSDK.

End app_ui.

(** ** test/test_main_app.py *)

Module test_main_app.

Section WithSDK.
Context (sdk : SDK).

(** The [finally] block: [__aexit__] on the module global, if it is set;
    whatever that raises is swallowed. *)
Definition cleanup (w : World) : World :=
  match kube_discovery_plugin w with
  | Some p => log (EvExit (mcp_id p)) w
  | None => w
  end.

(** [traceback.print_exc()] writes to standard error, which is not part of
    the world. *)
Definition test_main_app : M bool :=
  let* _ := modify (print "🚀 Starting Main App Test") in
  let* _ := modify (print "🔍 Testing Kubernetes Discovery Agent Creation...") in
  try_finally
    (try_except
       (let* agent := app.create_kubernetes_discovery_agent sdk None None None None in
        let* _ := modify (print "✅ Kubernetes Discovery Agent created successfully!") in
        let* _ := modify (print "🚀 Testing agent interaction...") in
        let test_message :=
          "Hello, can you help me understand what you can do with Kubernetes clusters?" in
        let* responses := app_ui.invoke sdk agent test_message in
        let response_content := app_ui.accumulate responses in
        if Py.truthy_str response_content then
          let* _ := modify (print ("✅ Agent Response: "
                                   +:+ Py.slice_to 200 response_content +:+ "...")) in
          let* _ := modify (print "🎉 Main application is working correctly!") in
          ret true
        else
          let* _ := modify (print "❌ No response content received") in
          ret false)
       (fun e =>
          let* _ := modify (print ("❌ Error: " +:+ Py.str_exc e)) in
          ret false))
    cleanup.

End WithSDK.

End test_main_app.

(** ** Concrete worlds and SDK behaviours *)

Module examples.

(** The working directory [/app], with nothing in it *)
Definition fs_empty : FileSystem :=
  {| fs_nodes := ∅; fs_cwd := ["app"]; fs_mkdir_faults := ∅; fs_file_faults := ∅ |}.

(** A freshly started process with the given environment *)
Definition boot (env : gmap string string) (f : FileSystem) : World :=
  {| environ := env; fs := f; stdout := []; kube_discovery_plugin := None;
     next_id := 0; trace := []; user_session := ∅; outbox := [] |}.

Definition env_configured : gmap string string :=
  <["AZURE_OPENAI_ENDPOINT" := "https://aks-agent.openai.azure.com/"]>
    (<["AZURE_OPENAI_API_KEY" := "0123456789abcdef"]> ∅).

Definition world_configured : World := boot env_configured fs_empty.
Definition world_unconfigured : World := boot ∅ fs_empty.

(** A streamed item whose [content] is a message whose [content] is [s] *)
Definition item (s : string) : Py.val :=
  Py.Obj "<AgentResponseItem>"
         (Py.Attr "content"
            (Py.Obj s (Py.Attr "content" (Py.Str s) Py.NoAttr)) Py.NoAttr).

Definition yields (frags : list Py.val)
  : ChatCompletionAgent -> string -> FileSystem -> InvokeRun :=
  fun _ _ f => {| fragments := frags; raised := None; fs_after := f; printed := [] |}.

(** No call into the SDK raises; the model answers in two fragments. *)
Definition sdk_ok : SDK :=
  {| sdk_raises := fun _ => None;
     agent_invoke := yields [item "Hello, "; item "world!"] |}.

(** No call into the SDK raises; the model streams nothing. *)
Definition sdk_silent : SDK :=
  {| sdk_raises := fun _ => None; agent_invoke := yields [] |}.

(** [npx] is not installed: launching the subprocess raises. *)
Definition sdk_no_npx : SDK :=
  {| sdk_raises := fun c =>
       match c with
       | AEnter _ => Some (Py.SdkError "Failed to connect to MCP server")
       | _ => None
       end;
     agent_invoke := yields [] |}.

(** The constructor of the completion service checks its arguments: it
    wants a deployment name, and an endpoint that is an https URL. *)
Definition sdk_strict : SDK :=
  {| sdk_raises := fun c =>
       match c with
       | NewAzureChatCompletion svc =>
           if negb (Py.truthy (svc_deployment_name svc))
           then Some (Py.SdkError "chat_deployment_name is required.")
           else if negb (String.prefix "https://" (default "" (svc_endpoint svc)))
           then Some (Py.SdkError "Failed to validate Azure OpenAI settings.")
           else None
       | _ => None
       end;
     agent_invoke := yields [item "Hello, "; item "world!"] |}.

(** The report directory is there, and the report file in it cannot be
    opened for writing. *)
Definition fs_read_only : FileSystem :=
  {| fs_nodes := {[ ["app"; "ClusterReports"] := Dir ]}; fs_cwd := ["app"];
     fs_mkdir_faults := ∅;
     fs_file_faults :=
       {[ ["app"; "ClusterReports"; "cluster_summary.md"] :=
           OpenFault (Py.OSError "[Errno 13] Permission denied: './ClusterReports/cluster_summary.md'") ]} |}.

(** A regular file stands where the default report directory should be. *)
Definition fs_file_in_the_way : FileSystem :=
  {| fs_nodes := {[ ["app"; "ClusterReports"] := File "notes" ]}; fs_cwd := ["app"];
     fs_mkdir_faults := ∅; fs_file_faults := ∅ |}.

End examples.

(** ** Vocabulary of the statements *)

Module props.

(** The endpoint and the key the creation call ends up with *)
Definition endpoint_of (endpoint : option string) (w : World) : option string :=
  Py.or_ endpoint (Py.getenv (environ w) "AZURE_OPENAI_ENDPOINT").

Definition api_key_of (api_key : option string) (w : World) : option string :=
  Py.or_ api_key (Py.getenv (environ w) "AZURE_OPENAI_API_KEY").

(** Both are non-empty. *)
Definition configured (endpoint api_key : option string) (w : World) : bool :=
  Py.truthy (endpoint_of endpoint w) && Py.truthy (api_key_of api_key w).

(** The plugin object a creation call in world [w] builds *)
Definition new_plugin (w : World) : MCPStdioPlugin :=
  {| mcp_id := next_id w; mcp_name := "kubernetes";
     mcp_description := "Kubernetes discovery plugin";
     mcp_command := "npx"; mcp_args := ["mcp-server-kubernetes"] |}.

(** The world once that plugin is built, stored in the module global and
    [__aenter__] has been called on it *)
Definition entered (w : World) : World :=
  log (EvEnter (next_id w))
      (set_global (Some (new_plugin w)) (log (EvInit (next_id w)) (bump_id w))).

(** The world once its subprocess runs *)
Definition started (w : World) : World :=
  log (EvStarted (next_id w)) (entered w).

(** The completion service a creation call in world [w] asks for *)
Definition service_of (deployment_name endpoint api_key : option string) (w : World)
  : AzureChatCompletion :=
  {| service_id := "default";
     svc_deployment_name :=
       Py.or_ deployment_name
         (Py.getenv_default (environ w) "AZURE_OPENAI_DEPLOYMENT_NAME" "gpt-4o-standard");
     svc_endpoint := endpoint_of endpoint w;
     svc_api_key := api_key_of api_key w;
     svc_api_version :=
       Py.getenv_default (environ w) "AZURE_OPENAI_API_VERSION" "2024-02-01" |}.

(** The agent it asks for, nothing else running in between *)
Definition agent_of (instructions deployment_name endpoint api_key : option string)
    (w : World) : ChatCompletionAgent :=
  {| agent_kernel :=
       {| services := [service_of deployment_name endpoint api_key w];
          plugins := [("kubernetes_discovery_plugin", KubePlugin (new_plugin w));
                      ("cluster_report_plugin", ClusterReportPlugin)] |};
     agent_name := "KubernetesDiscoveryAgent";
     agent_description :=
       "Discovers Kubernetes namespaces, pods, services, images, and generates cluster summary document.";
     agent_instructions := Py.or_ instructions (Some app.default_instructions) |}.

(** What the call holds while it waits for the adapter to start *)
Definition frame_of (instructions deployment_name endpoint api_key : option string)
    (w : World) : app.Frame :=
  {| app.fr_instructions := Py.or_ instructions (Some app.default_instructions);
     app.fr_kernel :=
       {| services := [service_of deployment_name endpoint api_key w]; plugins := [] |};
     app.fr_entered := new_plugin w |}.

(** The agent a call holding [fr] asks for when it finds [p] in the module
    global, and the calls into the SDK it makes after the start *)
Definition agent_from (fr : app.Frame) (p : MCPStdioPlugin) : ChatCompletionAgent :=
  {| agent_kernel :=
       {| services := services (app.fr_kernel fr);
          plugins := (plugins (app.fr_kernel fr)
                      ++ [("kubernetes_discovery_plugin", KubePlugin p)])
                     ++ [("cluster_report_plugin", ClusterReportPlugin)] |};
     agent_name := "KubernetesDiscoveryAgent";
     agent_description :=
       "Discovers Kubernetes namespaces, pods, services, images, and generates cluster summary document.";
     agent_instructions := app.fr_instructions fr |}.

Definition calls_after (fr : app.Frame) (p : MCPStdioPlugin) : list SdkCall :=
  [AddPlugin (KubePlugin p) "kubernetes_discovery_plugin";
   AddPlugin ClusterReportPlugin "cluster_report_plugin";
   NewChatCompletionAgent (agent_from fr p)].

(** The calls into the SDK such a creation call makes once the
    configuration check is passed, in their order: those before the
    adapter is started, the start, and those after it. *)
Definition calls_before_start (deployment_name endpoint api_key : option string)
    (w : World) : list SdkCall :=
  [NewKernel;
   NewAzureChatCompletion (service_of deployment_name endpoint api_key w);
   AddService (service_of deployment_name endpoint api_key w);
   NewMCPStdioPlugin (new_plugin w)].

Definition calls_after_start (instructions deployment_name endpoint api_key : option string)
    (w : World) : list SdkCall :=
  [AddPlugin (KubePlugin (new_plugin w)) "kubernetes_discovery_plugin";
   AddPlugin ClusterReportPlugin "cluster_report_plugin";
   NewChatCompletionAgent (agent_of instructions deployment_name endpoint api_key w)].

Definition sdk_calls (instructions deployment_name endpoint api_key : option string)
    (w : World) : list SdkCall :=
  calls_before_start deployment_name endpoint api_key w
  ++ [AEnter (new_plugin w)]
  ++ calls_after_start instructions deployment_name endpoint api_key w.

(** The exception of the first call of the list that raises *)
Definition first_raise (sdk : SDK) (calls : list SdkCall) : option Py.exc :=
  head (omap (sdk_raises sdk) calls).

(** The adapter handles an agent holds: the MCP plugins of its kernel *)
Definition adapters (a : ChatCompletionAgent) : list MCPStdioPlugin :=
  omap (fun np => match np.2 with KubePlugin p => Some p | ClusterReportPlugin => None end)
       (plugins (agent_kernel a)).

(** The event is a call of [__aexit__]. *)
Definition is_exit (ev : Event) : bool :=
  match ev with EvExit _ => true | _ => false end.

(** Fragments' text, joined in arrival order *)
Definition joined (responses : list Py.val) : string :=
  foldr String.append "" (app_ui.fragment_text <$> responses).

(** The text [on_message] sends once the agent has been invoked *)
Definition reply_of (run : InvokeRun) : string :=
  match raised run with
  | Some e => "❌ Error processing your request: " +:+ Py.str_exc e
  | None =>
      if Py.truthy_str (app_ui.accumulate (fragments run))
      then app_ui.accumulate (fragments run)
      else "❌ No response received from the agent."
  end.

(** Adapter handles stored in sessions are older than [next_id], and two
    sessions never store the same one. *)
Definition owned (w : World) : Prop :=
  (∀ sid a p, user_session w !! sid = Some a → p ∈ adapters a →
              mcp_id p < next_id w)
  ∧ (∀ s1 s2 a1 a2 p1 p2,
       s1 ≠ s2 → user_session w !! s1 = Some a1 → user_session w !! s2 = Some a2 →
       p1 ∈ adapters a1 → p2 ∈ adapters a2 → mcp_id p1 ≠ mcp_id p2).

(** A loop in which at most the task [busy] waits.  While it waits, the
    module global refers to the plugin it entered, the newest object there
    is, held by no session yet. *)
Definition at_most_waiting (busy : option nat) (l : app_ui.Loop) : Prop :=
  owned (app_ui.world l)
  ∧ (app_ui.waiting l = ∅
     ∨ ∃ task sid fr,
         busy = Some task
         ∧ app_ui.waiting l = {[task := (sid, fr)]}
         ∧ plugins (app.fr_kernel fr) = []
         ∧ kube_discovery_plugin (app_ui.world l) = Some (app.fr_entered fr)
         ∧ next_id (app_ui.world l) = S (mcp_id (app.fr_entered fr))
         ∧ ∀ s a p, user_session (app_ui.world l) !! s = Some a → p ∈ adapters a →
                    mcp_id p < mcp_id (app.fr_entered fr)).

(** The directory [dir] exists, at the location [d]. *)
Definition dir_at (f : FileSystem) (dir : string) (d : list string) : Prop :=
  dir ≠ "" ∧ Os.walk f (Os.start f dir) (Os.components dir) = Os.At d.

(** What [f'] has that [f] has not are directories: nothing that was
    there is gone or changed, and the medium is the same. *)
Definition grown (f f' : FileSystem) : Prop :=
  fs_cwd f' = fs_cwd f
  ∧ fs_mkdir_faults f' = fs_mkdir_faults f
  ∧ fs_file_faults f' = fs_file_faults f
  ∧ ∀ t, Os.node_at f' t = Os.node_at f t
         ∨ (Os.node_at f t = None ∧ Os.node_at f' t = Some Dir).

End props.

(** ** More built-ins: string methods, reading a file, [exec] and [import] *)

Module builtins.

Definition starts_with_continuation (s : string) : bool :=
  match s with
  | String c _ => Py.is_continuation c
  | EmptyString => false
  end.

(** The code points of the UTF-8 text [s], each with its bytes *)
Fixpoint chars (s : string) : list string :=
  match s with
  | EmptyString => []
  | String c s' =>
      match chars s' with
      | ch :: rest =>
          if starts_with_continuation ch then String c ch :: rest
          else String c EmptyString :: ch :: rest
      | [] => [String c EmptyString]
      end
  end.

Definition join (l : list string) : string := foldr String.append "" l.

(** [len(s)] *)
Definition len (s : string) : nat := length (chars s).

(** [s[-n:]] for [n > 0] *)
Definition slice_last (n : nat) (s : string) : string :=
  join (drop (len s - n) (chars s)).

(** [s * n] *)
Fixpoint repeat (s : string) (n : nat) : string :=
  match n with
  | 0 => ""
  | S n' => s +:+ repeat s n'
  end.

(** [s.replace(old, new)] for a non-empty [old]: occurrences are replaced
    from left to right, without overlap.  [skip] counts the bytes of the
    occurrence just replaced that are still to be passed over. *)
Fixpoint replace_from (old new : string) (skip : nat) (s : string) : string :=
  match s with
  | EmptyString => EmptyString
  | String c s' =>
      match skip with
      | S k => replace_from old new k s'
      | 0 =>
          if String.prefix old s
          then new +:+ replace_from old new (String.length old - 1) s'
          else String c (replace_from old new 0 s')
      end
  end.

(** [s.replace(old, new)]; an empty [old] matches before every code point
    and at the end. *)
Definition replace (old new s : string) : string :=
  if bool_decide (old = "") then new +:+ join ((fun ch => ch +:+ new) <$> chars s)
  else replace_from old new 0 s.

(** [open(path).read()] *)
Definition read_text (path : string) : M string := fun w =>
  let f := fs w in
  if negb (Os.nonempty path) then (Raised (Os.ENOENT path), w)
  else if Os.dir_form path then
    match Os.walk f (Os.start f path) (Os.components path) with
    | Os.At _ => (Raised (Os.EISDIR path), w)
    | Os.Missing => (Raised (Os.ENOENT path), w)
    | Os.NotDir => (Raised (Os.ENOTDIR path), w)
    end
  else
    match Os.locate f path with
    | Os.Missing => (Raised (Os.ENOENT path), w)
    | Os.NotDir => (Raised (Os.ENOTDIR path), w)
    | Os.At t =>
        match Os.node_at f t with
        | Some Dir => (Raised (Os.EISDIR path), w)
        | Some (File content) =>
            if Os.ends_with_sep path then (Raised (Os.ENOTDIR path), w)
            else (Returned content, w)
        | None => (Raised (Os.ENOENT path), w)
        end
    end.

End builtins.

(** What running a piece of Python code amounts to for its caller: the
    lines it prints and the exception it ends with, if any. *)
Record ExecRun := {
  exec_printed : list string;
  exec_raised : option Py.exc;
}.

(** The interpreter behind [exec(source)] and [exec("import " + module)] *)
Record Interp := {
  exec_source : string -> ExecRun;
  import_module : string -> ExecRun;
}.

(** ** test/test_all.py *)

Module test_all.

Definition prints (lines : list string) (w : World) : World :=
  fold_left (fun w line => print line w) lines w.

Section WithInterp.
Context (py : Interp).

(** [exec(...)], given what running the code amounts to *)
Definition exec (r : ExecRun) : M unit := fun w =>
  match exec_raised r with
  | Some e => (Raised e, prints (exec_printed r) w)
  | None => (Returned tt, prints (exec_printed r) w)
  end.

Definition run_test_file (test_file : string) : M bool :=
  try_except
    (let test_module :=
       builtins.replace ".py" ""
         (builtins.replace "\" "." (builtins.replace "/" "." test_file)) in
     let* _ := exec (import_module py test_module) in
     ret true)
    (fun e =>
       let* _ := modify (print ("Error running " +:+ test_file +:+ ": "
                                +:+ Py.str_exc e)) in
       ret false).

Definition run_all_tests : M bool :=
  let* _ := modify (print "🧪 Running Comprehensive Test Suite") in
  let* _ := modify (print (builtins.repeat "=" 60)) in
  let tests_passed := 0 in
  let total_tests := 0 in
  let* _ := modify (print "
1️⃣ Testing REST API Connection...") in
  let total_tests := total_tests + 1 in
  let* tests_passed :=
    try_except
      (let* source := builtins.read_text "test/test_rest_api.py" in
       let* _ := exec (exec_source py source) in
       let tests_passed := tests_passed + 1 in
       let* _ := modify (print "✅ REST API test PASSED") in
       ret tests_passed)
      (fun e =>
         let* _ := modify (print ("❌ REST API test FAILED: " +:+ Py.str_exc e)) in
         ret tests_passed) in
  let* _ := modify (print "
2️⃣ Testing Semantic Kernel with Explicit Settings...") in
  let total_tests := total_tests + 1 in
  let* tests_passed :=
    try_except
      (let* result := run_test_file "test/test_sk_explicit_settings.py" in
       if result then
         let tests_passed := tests_passed + 1 in
         let* _ := modify (print "✅ Semantic Kernel test PASSED") in
         ret tests_passed
       else
         let* _ := modify (print "❌ Semantic Kernel test FAILED") in
         ret tests_passed)
      (fun e =>
         let* _ := modify (print ("❌ Semantic Kernel test FAILED: "
                                  +:+ Py.str_exc e)) in
         ret tests_passed) in
  let* _ := modify (print "
3️⃣ Testing Main Application...") in
  let total_tests := total_tests + 1 in
  let* tests_passed :=
    try_except
      (let* result := run_test_file "test/test_main_app.py" in
       if result then
         let tests_passed := tests_passed + 1 in
         let* _ := modify (print "✅ Main Application test PASSED") in
         ret tests_passed
       else
         let* _ := modify (print "❌ Main Application test FAILED") in
         ret tests_passed)
      (fun e =>
         let* _ := modify (print ("❌ Main Application test FAILED: "
                                  +:+ Py.str_exc e)) in
         ret tests_passed) in
  let* _ := modify (print "
4️⃣ Testing Azure OpenAI Connection...") in
  let total_tests := total_tests + 1 in
  let* tests_passed :=
    try_except
      (let* result := run_test_file "test/test_openai_connection.py" in
       if result then
         let tests_passed := tests_passed + 1 in
         let* _ := modify (print "✅ Azure OpenAI Connection test PASSED") in
         ret tests_passed
       else
         let* _ := modify (print "❌ Azure OpenAI Connection test FAILED") in
         ret tests_passed)
      (fun e =>
         let* _ := modify (print ("❌ Azure OpenAI Connection test FAILED: "
                                  +:+ Py.str_exc e)) in
         ret tests_passed) in
  let* _ := modify (print ("
" +:+ builtins.repeat "=" 60)) in
  let* _ := modify (print "📊 TEST SUMMARY") in
  let* _ := modify (print (builtins.repeat "=" 60)) in
  let* _ := modify (print ("✅ Tests Passed: " +:+ pretty tests_passed +:+ "/"
                           +:+ pretty total_tests)) in
  if bool_decide (tests_passed = total_tests) then
    let* _ := modify (print "🎉 ALL TESTS PASSED! System is ready for deployment.") in
    let* _ := modify (print "
🚀 NEXT STEPS:") in
    let* _ := modify (print "1. Deploy the application to AKS") in
    let* _ := modify (print "2. Test Kubernetes discovery functionality") in
    let* _ := modify (print "3. Generate cluster reports") in
    ret true
  else
    let* _ := modify (print ("⚠️  " +:+ pretty (total_tests - tests_passed)
                             +:+ " test(s) failed. Please fix before proceeding.")) in
    ret false.

End WithInterp.

Definition print_environment_status : M unit :=
  let* env := gets environ in
  let* _ := modify (print "
🔧 ENVIRONMENT CONFIGURATION") in
  let* _ := modify (print (builtins.repeat "=" 60)) in
  let* _ := modify (print ("Endpoint: "
                           +:+ default "Not set" (env !! "AZURE_OPENAI_ENDPOINT"))) in
  let* _ := modify (print ("Deployment: "
                           +:+ default "Not set" (env !! "AZURE_OPENAI_DEPLOYMENT_NAME"))) in
  let* _ := modify (print ("API Version: "
                           +:+ default "Not set" (env !! "AZURE_OPENAI_API_VERSION"))) in
  let api_key := default "Not set" (env !! "AZURE_OPENAI_API_KEY") in
  if Py.truthy_str api_key && negb (bool_decide (api_key = "Not set")) then
    modify (print ("API Key: " +:+ builtins.repeat "*" 10 +:+ "..."
                   +:+ builtins.slice_last 4 api_key))
  else modify (print "API Key: Not set").

Section WithInterp.
Context (py : Interp).

(** The script run as a program; the result is the exit status passed to
    [sys.exit]. *)
Definition main : M nat :=
  let* _ := print_environment_status in
  let* result := run_all_tests py in
  if result then
    let* _ := modify (print "
🎯 SYSTEM STATUS: READY FOR PRODUCTION") in
    ret 0
  else
    let* _ := modify (print "
❌ SYSTEM STATUS: NEEDS ATTENTION") in
    ret 1.

End WithInterp.

End test_all.

(** ** More concrete worlds and interpreter behaviours *)

Module scenarios.

Definition quiet : ExecRun := {| exec_printed := []; exec_raised := None |}.

Definition fails (msg : string) : ExecRun :=
  {| exec_printed := []; exec_raised := Some (Py.SdkError msg) |}.

(** Every script runs and every module imports. *)
Definition py_ok : Interp :=
  {| exec_source := fun _ => quiet; import_module := fun _ => quiet |}.

(** The module [test.test_main_app] fails to import; all else works. *)
Definition py_broken_import : Interp :=
  {| exec_source := fun _ => quiet;
     import_module := fun m =>
       if bool_decide (m = "test.test_main_app")
       then fails "No module named 'app'" else quiet |}.

(** The repository checked out in the working directory, as far as
    [test_all.py] reads it *)
Definition fs_checkout : FileSystem :=
  {| fs_nodes := {[ ["app"; "test"] := Dir;
                    ["app"; "test"; "test_rest_api.py"] := File "print('ok')" ]};
     fs_cwd := ["app"]; fs_mkdir_faults := ∅; fs_file_faults := ∅ |}.

Definition world_checkout : World :=
  examples.boot examples.env_configured fs_checkout.

(** [REPORT_DIR=] in the environment *)
Definition world_empty_report_dir : World :=
  examples.boot (<["REPORT_DIR" := ""]> examples.env_configured) examples.fs_empty.

(** [REPORT_DIR=out/reports]: two directories to make, and the medium
    refuses the second. *)
Definition world_half_made : World :=
  examples.boot (<["REPORT_DIR" := "out/reports"]> ∅)
    {| fs_nodes := ∅; fs_cwd := ["app"];
       fs_mkdir_faults :=
         {[ ["app"; "out"; "reports"] :=
              Py.OSError "[Errno 28] No space left on device: 'out/reports'" ]};
       fs_file_faults := ∅ |}.

(** A regular file [ClusterReports] in the working directory *)
Definition world_file_in_the_way : World :=
  examples.boot ∅ examples.fs_file_in_the_way.

(** No call into the SDK raises; the model streams two items without
    text. *)
Definition sdk_textless : SDK :=
  {| sdk_raises := fun _ => None;
     agent_invoke := examples.yields [examples.item ""; examples.item ""] |}.

(** No call into the SDK raises; the stream breaks after two fragments. *)
Definition sdk_breaks : SDK :=
  {| sdk_raises := fun _ => None;
     agent_invoke := fun _ _ f =>
       {| fragments := [examples.item "Hello, "; examples.item "world!"];
          raised := Some (Py.SdkError "connection reset");
          fs_after := f; printed := [] |} |}.

(** Two chats start at the same time: the second begins while the first
    waits for its subprocess. *)
Definition overlapping_starts : list app_ui.Step :=
  [app_ui.StartBegins 1 1; app_ui.StartBegins 2 2;
   app_ui.StartResumes 1; app_ui.StartResumes 2].

(** A chat starts, a message of another session is handled while it
    waits, and a second chat starts once the first has resumed. *)
Definition starts_in_turn : list app_ui.Step :=
  [app_ui.StartBegins 1 1; app_ui.MessageHandled 2 "hi"; app_ui.StartResumes 1;
   app_ui.StartBegins 2 2; app_ui.StartResumes 2].

Definition loop_configured : app_ui.Loop :=
  {| app_ui.waiting := ∅; app_ui.world := examples.world_configured |}.

End scenarios.

(** ** More vocabulary *)

Module vocab.

(** The session an event of the host belongs to *)
Definition session_of (ev : app_ui.HostEvent) : nat :=
  match ev with
  | app_ui.ChatStart sid | app_ui.UserMessage sid _ | app_ui.ChatEnd sid => sid
  end.

Definition is_chat_start (ev : app_ui.HostEvent) : bool :=
  match ev with app_ui.ChatStart _ => true | _ => false end.

(** No chat start begins while another one waits for its subprocess;
    [busy] is the task that may be waiting. *)
Fixpoint serial (busy : option nat) (sts : list app_ui.Step) : bool :=
  match sts with
  | [] => true
  | app_ui.StartBegins task _ :: rest =>
      match busy with
      | None => serial (Some task) rest
      | Some _ => false
      end
  | app_ui.StartResumes task :: rest =>
      if bool_decide (busy = Some task) then serial None rest else serial busy rest
  | app_ui.MessageHandled _ _ :: rest => serial busy rest
  end.

(** The event records that an adapter subprocess is running. *)
Definition is_started (ev : Event) : bool :=
  match ev with EvStarted _ => true | _ => false end.

(** The path of the report file *)
Definition report_path (w : World) : string :=
  Os.path_join (app.REPORT_DIR (environ w)) "cluster_summary.md".

(** The message [test_main_app] sends to the agent *)
Definition test_message : string :=
  "Hello, can you help me understand what you can do with Kubernetes clusters?".

(** Reading and running [test/test_rest_api.py] raises nothing. *)
Definition rest_api_ok (py : Interp) (w : World) : bool :=
  match fst (builtins.read_text "test/test_rest_api.py" w) with
  | Returned source => bool_decide (exec_raised (exec_source py source) = None)
  | Raised _ => false
  end.

(** Importing [module] raises nothing. *)
Definition import_ok (py : Interp) (module : string) : bool :=
  bool_decide (exec_raised (import_module py module) = None).

(** How many of the four checks of [run_all_tests] pass *)
Definition checks_passed (py : Interp) (w : World) : nat :=
  length (List.filter id
            [rest_api_ok py w;
             import_ok py "test.test_sk_explicit_settings";
             import_ok py "test.test_main_app";
             import_ok py "test.test_openai_connection"]).

End vocab.

(** * Lemmas on strings and on the file system *)

Lemma set_fs_id (w : World) : set_fs (fs w) w = w.
Proof. by destruct w. Qed.

Lemma set_fs_set_fs (f f' : FileSystem) (w : World) :
  set_fs f' (set_fs f w) = set_fs f' w.
Proof. reflexivity. Qed.

Lemma append_cons (c : Ascii.ascii) (s t : string) :
  String c s +:+ t = String c (s +:+ t).
Proof. reflexivity. Qed.

Lemma append_assoc (s t u : string) : (s +:+ t) +:+ u = s +:+ (t +:+ u).
Proof.
  induction s as [|c s IH]; [done|].
  rewrite !append_cons. by rewrite IH.
Qed.

(** ** Paths *)

Lemma fields_cons (s : string) : ∃ f rest, Os.fields s = f :: rest.
Proof.
  induction s as [|c s (f & rest & IH)]; [by eexists _, _|].
  cbn [Os.fields]. rewrite IH. destruct (Os.is_sep c); by eexists _, _.
Qed.

(** A separator ends a field and begins the next one. *)
Lemma fields_app_sep (s t : string) :
  Os.fields (s +:+ String Os.sep t) = Os.fields s ++ Os.fields t.
Proof.
  induction s as [|c s IH].
  - change ("" +:+ String Os.sep t) with (String Os.sep t).
    cbn [Os.fields]. by change (Os.is_sep Os.sep) with true.
  - rewrite append_cons. cbn [Os.fields]. rewrite IH.
    destruct (Os.is_sep c); [done|].
    by destruct (fields_cons s) as (f & rest & ->).
Qed.

Lemma ends_with_sep_inv (s : string) :
  Os.ends_with_sep s = true → ∃ s', s = s' +:+ String Os.sep "".
Proof.
  induction s as [|c s IH]; [done|]. cbn [Os.ends_with_sep].
  destruct s as [|c' s].
  - unfold Os.is_sep. intros ->%bool_decide_eq_true. by exists "".
  - intros [s' ->]%IH. by exists (String c s').
Qed.

Lemma starts_with_sep_append (s t : string) :
  s ≠ "" → Os.starts_with_sep (s +:+ t) = Os.starts_with_sep s.
Proof. by destruct s. Qed.

Lemma components_app_sep (s t : string) :
  Os.components (s +:+ String Os.sep t) = Os.components s ++ Os.components t.
Proof. unfold Os.components. by rewrite fields_app_sep, List.filter_app. Qed.

(** The report file is the entry [cluster_summary.md] of the report
    directory, whether or not the directory is written with a trailing
    separator. *)
Lemma components_report (dir : string) :
  dir ≠ "" →
  Os.components (Os.path_join dir "cluster_summary.md")
  = Os.components dir ++ ["cluster_summary.md"]
  ∧ Os.starts_with_sep (Os.path_join dir "cluster_summary.md")
    = Os.starts_with_sep dir.
Proof.
  intros Hne. unfold Os.path_join. cbn [Os.starts_with_sep].
  change (Os.is_sep _) with false. cbn match.
  rewrite bool_decide_eq_false_2 by done. cbn [orb].
  destruct (Os.ends_with_sep dir) eqn:Hsep.
  - split; [|by apply starts_with_sep_append].
    destruct (ends_with_sep_inv dir Hsep) as [d ->].
    rewrite append_assoc. change (String Os.sep "" +:+ ?t) with (String Os.sep t).
    rewrite !components_app_sep. change (Os.components "") with (@nil string).
    by rewrite app_nil_r.
  - split.
    + change ("/" +:+ ?t) with (String Os.sep t). by rewrite components_app_sep.
    + by apply starts_with_sep_append.
Qed.

Lemma steps_of_names (seen todo : list string) :
  (Os.steps_of seen todo).*1 = List.filter Os.nonempty todo.
Proof.
  revert seen. induction todo as [|field todo IH]; intros seen; [done|].
  cbn [Os.steps_of List.filter]. destruct (Os.nonempty field); cbn; by rewrite IH.
Qed.

Lemma steps_names (path : string) : (Os.steps path).*1 = Os.components path.
Proof. apply steps_of_names. Qed.

(** ** The tree *)

Lemma grown_refl (f : FileSystem) : props.grown f f.
Proof. split_and!; try done. by left. Qed.

Lemma grown_trans (f1 f2 f3 : FileSystem) :
  props.grown f1 f2 → props.grown f2 f3 → props.grown f1 f3.
Proof.
  intros (Hc1 & Hm1 & Hf1 & H1) (Hc2 & Hm2 & Hf2 & H2).
  split_and!; [congruence..|].
  intros t. destruct (H1 t) as [E1|[N1 D1]], (H2 t) as [E2|[N2 D2]].
  - left. congruence.
  - right. split; congruence.
  - right. split; congruence.
  - congruence.
Qed.

Lemma node_at_mkdir (f : FileSystem) (t t' : list string) :
  Os.node_at (Os.mkdir t f) t'
  = if decide (t' = t) then Some Dir else Os.node_at f t'.
Proof.
  unfold Os.node_at, Os.mkdir. cbn.
  destruct (decide (t' = t)) as [->|Hne].
  - rewrite lookup_insert_eq. by destruct (bool_decide _).
  - by rewrite lookup_insert_ne.
Qed.

Lemma grown_mkdir (f : FileSystem) (t : list string) :
  Os.node_at f t = None → props.grown f (Os.mkdir t f).
Proof.
  intros Hnone. split_and!; try done.
  intros t'. rewrite node_at_mkdir. destruct (decide (t' = t)) as [->|]; auto.
Qed.

Lemma node_at_store (f : FileSystem) (t t' : list string) (content : string) :
  Os.node_at f t ≠ Some Dir →
  Os.node_at (Os.store t content f) t'
  = if decide (t' = t) then Some (File content) else Os.node_at f t'.
Proof.
  unfold Os.node_at, Os.store. cbn. intros Hnd.
  destruct (decide (t' = t)) as [->|Hne].
  - rewrite lookup_insert_eq. by destruct (bool_decide _).
  - by rewrite lookup_insert_ne.
Qed.

(** A way through directories stays when directories are added ... *)
Lemma walk_grown (f f' : FileSystem) (cur names d : list string) :
  props.grown f f' → Os.walk f cur names = Os.At d → Os.walk f' cur names = Os.At d.
Proof.
  intros (_ & _ & _ & Hg). revert cur.
  induction names as [|name names IH]; intros cur; [done|].
  cbn [Os.walk]. repeat case_bool_decide; [by apply IH..|].
  destruct (Hg (cur ++ [name])) as [->|[-> _]]; [|done].
  destruct (Os.node_at f (cur ++ [name])) as [[|c]|]; [by apply IH|done..].
Qed.

(** ... and when a file is written where no directory was. *)
Lemma walk_store (f : FileSystem) (t cur names d : list string) (content : string) :
  Os.node_at f t ≠ Some Dir →
  Os.walk f cur names = Os.At d →
  Os.walk (Os.store t content f) cur names = Os.At d.
Proof.
  intros Hnd. revert cur.
  induction names as [|name names IH]; intros cur; [done|].
  cbn [Os.walk]. repeat case_bool_decide; [by apply IH..|].
  rewrite node_at_store by done.
  destruct (decide (cur ++ [name] = t)) as [->|_].
  - by destruct (Os.node_at f t) as [[|c]|].
  - destruct (Os.node_at f (cur ++ [name])) as [[|c]|]; [by apply IH|done..].
Qed.

Lemma locate_store (f : FileSystem) (t t' : list string) (path content : string) :
  Os.node_at f t ≠ Some Dir →
  Os.locate f path = Os.At t' →
  Os.locate (Os.store t content f) path = Os.At t'.
Proof.
  intros Hnd. unfold Os.locate. change (Os.start (Os.store t content f) path)
    with (Os.start f path).
  destruct (Os.walk f _ _) as [d| |] eqn:Hw; [|done..].
  by rewrite (walk_store f t _ _ d content Hnd Hw).
Qed.

(** ** [os.makedirs] *)

(** Whatever its outcome, [os.makedirs] only adds directories; when it
    returns, the way it was asked to make is there. *)
Lemma makedirs_from_spec (path : string) (todo : list (string * string))
    (cur : list string) (w : World) :
  ∃ f', snd (Os.makedirs_from path cur todo w) = set_fs f' w
        ∧ props.grown (fs w) f'
        ∧ (fst (Os.makedirs_from path cur todo w) = Returned tt →
           ∃ d, Os.walk f' cur (todo.*1) = Os.At d).
Proof.
  revert cur w. induction todo as [|[name upto] todo IH]; intros cur w.
  { exists (fs w). rewrite set_fs_id. split_and!; [done|apply grown_refl|by eexists]. }
  cbn [Os.makedirs_from fmap list_fmap fst Os.walk].
  repeat case_bool_decide; [apply IH..|].
  destruct (Os.node_at (fs w) (cur ++ [name])) as [[|c]|] eqn:Hnode.
  - destruct (IH (cur ++ [name]) w) as (f' & Hs & Hg & Hr).
    exists f'. split_and!; [done..|].
    intros Hret. destruct (Hg) as (_ & _ & _ & Hn).
    destruct (Hn (cur ++ [name])) as [->|[? _]]; [|congruence].
    rewrite Hnode. by apply Hr.
  - exists (fs w). rewrite set_fs_id.
    destruct todo as [|? [|? ?]]; try destruct p; cbn [fst snd];
      (split_and!; [done|apply grown_refl|done]).
  - destruct (fs_mkdir_faults (fs w) !! (cur ++ [name])) as [e|].
    + exists (fs w). rewrite set_fs_id. split_and!; [done|apply grown_refl|done].
    + destruct (IH (cur ++ [name]) (set_fs (Os.mkdir (cur ++ [name]) (fs w)) w))
        as (f' & Hs & Hg & Hr).
      exists f'. rewrite Hs. split_and!; [done| |].
      * eapply grown_trans; [by apply grown_mkdir|exact Hg].
      * intros Hret. destruct (Hg) as (_ & _ & _ & Hn).
        destruct (Hn (cur ++ [name])) as [->|[_ ->]]; [|by apply Hr].
        cbn [fs set_fs]. rewrite node_at_mkdir, decide_True by done. by apply Hr.
Qed.

(** Directories that are there are passed without a change. *)
Lemma makedirs_from_walk (path : string) (done_ todo : list (string * string))
    (cur d : list string) (w : World) :
  Os.walk (fs w) cur (done_.*1) = Os.At d →
  Os.makedirs_from path cur (done_ ++ todo) w = Os.makedirs_from path d todo w.
Proof.
  revert cur. induction done_ as [|[name upto] done_ IH]; intros cur.
  { by intros [= ->]. }
  cbn [fmap list_fmap fst Os.walk app Os.makedirs_from].
  repeat case_bool_decide; [apply IH..|].
  destruct (Os.node_at (fs w) (cur ++ [name])) as [[|c]|]; [apply IH|done..].
Qed.

Lemma makedirs_spec (dir : string) (w : World) :
  ∃ f', snd (Os.makedirs dir w) = set_fs f' w
        ∧ props.grown (fs w) f'
        ∧ (fst (Os.makedirs dir w) = Returned tt → ∃ d, props.dir_at f' dir d).
Proof.
  unfold Os.makedirs, props.dir_at.
  destruct (Os.nonempty dir) eqn:Hne.
  - destruct (makedirs_from_spec dir (Os.steps dir) (Os.start (fs w) dir) w)
      as (f' & Hs & Hg & Hr).
    exists f'. split_and!; [done..|].
    intros Hret. destruct (Hr Hret) as [d Hd]. exists d. split.
    + unfold Os.nonempty in Hne. by case_bool_decide.
    + rewrite steps_names in Hd. unfold Os.start in *.
      destruct Hg as (-> & _). done.
  - exists (fs w). rewrite set_fs_id. split_and!; [done|apply grown_refl|done].
Qed.

(** [exist_ok=True]: a directory that is there is no error, and nothing
    changes. *)
Lemma makedirs_exists (dir : string) (d : list string) (w : World) :
  props.dir_at (fs w) dir d → Os.makedirs dir w = (Returned tt, w).
Proof.
  intros [Hne Hwalk]. unfold Os.makedirs, Os.nonempty.
  rewrite bool_decide_eq_false_2 by done. cbn [negb].
  rewrite <- (app_nil_r (Os.steps dir)).
  rewrite (makedirs_from_walk dir (Os.steps dir) [] _ d w); [done|].
  by rewrite steps_names.
Qed.

(** ** Writing and reading a file *)

Lemma write_text_cases (path content : string) (w : World) :
  (∃ e, Os.write_text path content w = (Raised e, w))
  ∨ (∃ t, Os.locate (fs w) path = Os.At t
          ∧ Os.node_at (fs w) t ≠ Some Dir
          ∧ Os.nonempty path = true ∧ Os.dir_form path = false
          ∧ Os.ends_with_sep path = false
          ∧ ((∃ e, Os.write_text path content w
                   = (Raised e, set_fs (Os.store t "" (fs w)) w))
             ∨ (fs_file_faults (fs w) !! t = None
                ∧ Os.write_text path content w
                  = (Returned tt, set_fs (Os.store t content (fs w)) w)))).
Proof.
  unfold Os.write_text. cbn zeta.
  destruct (Os.nonempty path); cbn [negb]; [|left; eauto].
  destruct (Os.dir_form path);
    [left; destruct (Os.walk (fs w) _ _); eauto|].
  destruct (Os.locate (fs w) path) as [t| |]; [|left; eauto..].
  assert (Hopen :
    Os.node_at (fs w) t ≠ Some Dir → Os.ends_with_sep path = false →
    ∀ r, r = match fs_file_faults (fs w) !! t with
             | Some (OpenFault e) => (Raised e, w)
             | Some (WriteFault e) => (Raised e, set_fs (Os.store t "" (fs w)) w)
             | None => (Returned tt, set_fs (Os.store t content (fs w)) w)
             end →
    (∃ e, r = (Raised e, w))
    ∨ (∃ t0, Os.At t = Os.At t0 ∧ Os.node_at (fs w) t0 ≠ Some Dir
             ∧ true = true ∧ false = false ∧ Os.ends_with_sep path = false
             ∧ ((∃ e, r = (Raised e, set_fs (Os.store t0 "" (fs w)) w))
                ∨ (fs_file_faults (fs w) !! t0 = None
                   ∧ r = (Returned tt, set_fs (Os.store t0 content (fs w)) w))))).
  { intros Hnd Hsep r ->.
    destruct (fs_file_faults (fs w) !! t) as [[e|e]|] eqn:Hfault.
    - left. eauto.
    - right. exists t. split_and!; try done. left. eauto.
    - right. exists t. split_and!; try done. right. eauto. }
  destruct (Os.node_at (fs w) t) as [[|c]|] eqn:Hnode; [left; eauto|..];
    (destruct (Os.ends_with_sep path) eqn:Hsep; [left; eauto|]);
    by apply Hopen.
Qed.

Lemma write_text_returns (path content : string) (w w' : World) :
  Os.write_text path content w = (Returned tt, w') →
  ∃ t, Os.locate (fs w) path = Os.At t
       ∧ Os.node_at (fs w) t ≠ Some Dir
       ∧ Os.nonempty path = true ∧ Os.dir_form path = false
       ∧ Os.ends_with_sep path = false
       ∧ fs_file_faults (fs w) !! t = None
       ∧ w' = set_fs (Os.store t content (fs w)) w.
Proof.
  intros H. destruct (write_text_cases path content w)
    as [[e He]|(t & ? & ? & ? & ? & ? & [[e He]|[? He]])]; [congruence..|].
  exists t. split_and!; try done. congruence.
Qed.

Lemma write_to_file_md_returns (path content : string) (w w' : World) :
  Os.write_text path content w = (Returned tt, w') →
  util.write_to_file_md path content w
  = (Returned tt, print ("Successfully wrote content to " +:+ path) w').
Proof.
  intros H. unfold util.write_to_file_md, try_except, bind. by rewrite H.
Qed.

Lemma write_to_file_md_raises (path content : string) (w w' : World) (e : Py.exc) :
  Os.write_text path content w = (Raised e, w') →
  util.write_to_file_md path content w
  = (Raised e,
     print ("Error writing to file " +:+ path +:+ ": " +:+ Py.str_exc e) w').
Proof.
  intros H. unfold util.write_to_file_md, try_except, bind. by rewrite H.
Qed.

(** ** The creation call, case by case *)

Section create.
Context (sdk : SDK).
Implicit Types (instructions deployment_name endpoint api_key : option string).
Implicit Types (w : World).

Lemma first_raise_cons (c : SdkCall) (calls : list SdkCall) :
  props.first_raise sdk (c :: calls)
  = match sdk_raises sdk c with
    | Some e => Some e
    | None => props.first_raise sdk calls
    end.
Proof. unfold props.first_raise. cbn. by destruct (sdk_raises sdk c). Qed.

Lemma first_raise_app (l1 l2 : list SdkCall) :
  props.first_raise sdk (l1 ++ l2)
  = match props.first_raise sdk l1 with
    | Some e => Some e
    | None => props.first_raise sdk l2
    end.
Proof.
  induction l1 as [|c l1 IH]; [done|].
  cbn [app]. rewrite !first_raise_cons. by destruct (sdk_raises sdk c).
Qed.

Lemma first_raise_None (calls : list SdkCall) :
  props.first_raise sdk calls = None
  ↔ Forall (fun c => sdk_raises sdk c = None) calls.
Proof.
  induction calls as [|c calls IH]; [by split|].
  rewrite first_raise_cons, Forall_cons.
  destruct (sdk_raises sdk c); [|by rewrite IH; intuition].
  split; [done|]. by intros [? _].
Qed.

Lemma first_raise_Some (calls : list SdkCall) (e : Py.exc) :
  props.first_raise sdk calls = Some e →
  ∃ c, c ∈ calls ∧ sdk_raises sdk c = Some e.
Proof.
  induction calls as [|c calls IH]; [done|].
  rewrite first_raise_cons. destruct (sdk_raises sdk c) as [e'|] eqn:Hc.
  - intros [= ->]. exists c. split; [apply list_elem_of_here|done].
  - intros (c' & Hin & Hc')%IH. exists c'. split; [by apply list_elem_of_further|done].
Qed.

Lemma until_await_cases instructions deployment_name endpoint api_key w :
  props.configured endpoint api_key w = true →
  app.create_until_await sdk instructions deployment_name endpoint api_key w
  = match props.first_raise sdk
            (props.calls_before_start deployment_name endpoint api_key w) with
    | Some e => (Raised e, w)
    | None =>
        (Returned (props.frame_of instructions deployment_name endpoint api_key w),
         props.entered w)
    end.
Proof.
  unfold props.configured, props.endpoint_of, props.api_key_of.
  intros H. unfold app.create_until_await, bind, gets. cbn beta iota.
  rewrite <- negb_andb, H. cbn [negb].
  unfold props.calls_before_start. rewrite !first_raise_cons.
  unfold app.new_Kernel, app.new_AzureChatCompletion, app.add_service,
    app.new_MCPStdioPlugin, app.aenter_called, app.sdk_call, bind, modify, ret.
  fold (props.service_of deployment_name endpoint api_key w).
  destruct (sdk_raises sdk NewKernel); [done|].
  destruct (sdk_raises sdk (NewAzureChatCompletion _)); [done|].
  destruct (sdk_raises sdk (AddService _)); [done|].
  fold (props.new_plugin w).
  by destruct (sdk_raises sdk (NewMCPStdioPlugin _)).
Qed.

Lemma until_await_unconfigured instructions deployment_name endpoint api_key w :
  props.configured endpoint api_key w = false →
  app.create_until_await sdk instructions deployment_name endpoint api_key w
  = (Raised app.config_error, w).
Proof.
  unfold props.configured, props.endpoint_of, props.api_key_of.
  intros H. unfold app.create_until_await, bind, gets. cbn beta iota.
  by rewrite <- negb_andb, H.
Qed.

Lemma after_await_cases (fr : app.Frame) (p : MCPStdioPlugin) w :
  kube_discovery_plugin w = Some p →
  app.create_after_await sdk fr w
  = match sdk_raises sdk (AEnter (app.fr_entered fr)) with
    | Some e => (Raised e, w)
    | None =>
        match props.first_raise sdk (props.calls_after fr p) with
        | Some e => (Raised e, log (EvStarted (mcp_id (app.fr_entered fr))) w)
        | None => (Returned (props.agent_from fr p),
                   log (EvStarted (mcp_id (app.fr_entered fr))) w)
        end
    end.
Proof.
  intros Hg. unfold app.create_after_await, app.aenter_awaited, bind, gets.
  destruct (sdk_raises sdk (AEnter _)); [done|].
  cbn [log kube_discovery_plugin]. rewrite Hg.
  unfold props.calls_after. rewrite !first_raise_cons.
  unfold app.add_plugin, app.new_ChatCompletionAgent, app.sdk_call, bind, ret.
  destruct (sdk_raises sdk (AddPlugin (KubePlugin p) _)); [done|].
  destruct (sdk_raises sdk (AddPlugin ClusterReportPlugin _)); [done|].
  fold (props.agent_from fr p).
  by destruct (sdk_raises sdk (NewChatCompletionAgent _)).
Qed.

Lemma create_cases instructions deployment_name endpoint api_key w :
  props.configured endpoint api_key w = true →
  app.create_kubernetes_discovery_agent sdk instructions deployment_name endpoint api_key w
  = match props.first_raise sdk
            (props.calls_before_start deployment_name endpoint api_key w) with
    | Some e => (Raised e, w)
    | None =>
        match sdk_raises sdk (AEnter (props.new_plugin w)) with
        | Some e => (Raised e, props.entered w)
        | None =>
            match props.first_raise sdk
                    (props.calls_after_start instructions deployment_name
                                             endpoint api_key w) with
            | Some e => (Raised e, props.started w)
            | None =>
                (Returned (props.agent_of instructions deployment_name
                                          endpoint api_key w),
                 props.started w)
            end
        end
    end.
Proof.
  intros Hc. unfold app.create_kubernetes_discovery_agent, bind.
  rewrite (until_await_cases _ _ _ _ w Hc).
  destruct (props.first_raise sdk (props.calls_before_start _ _ _ w)); [done|].
  by rewrite (after_await_cases _ (props.new_plugin w) (props.entered w)).
Qed.

Lemma create_unconfigured instructions deployment_name endpoint api_key w :
  props.configured endpoint api_key w = false →
  app.create_kubernetes_discovery_agent sdk instructions deployment_name endpoint api_key w
  = (Raised app.config_error, w).
Proof.
  intros Hc. unfold app.create_kubernetes_discovery_agent, bind.
  by rewrite (until_await_unconfigured _ _ _ _ w Hc).
Qed.

Lemma first_raise_sdk_calls instructions deployment_name endpoint api_key w :
  props.first_raise sdk
    (props.sdk_calls instructions deployment_name endpoint api_key w)
  = match props.first_raise sdk
            (props.calls_before_start deployment_name endpoint api_key w) with
    | Some e => Some e
    | None =>
        match sdk_raises sdk (AEnter (props.new_plugin w)) with
        | Some e => Some e
        | None =>
            props.first_raise sdk
              (props.calls_after_start instructions deployment_name endpoint api_key w)
        end
    end.
Proof.
  unfold props.sdk_calls. rewrite first_raise_app.
  destruct (props.first_raise sdk (props.calls_before_start _ _ _ w)); [done|].
  cbn [app]. by rewrite first_raise_cons.
Qed.

(** What decides the outcome of a call that passed the configuration
    check is the first call into the SDK that raises. *)
Lemma create_outcome instructions deployment_name endpoint api_key w :
  props.configured endpoint api_key w = true →
  fst (app.create_kubernetes_discovery_agent sdk instructions deployment_name
                                             endpoint api_key w)
  = match props.first_raise sdk
            (props.sdk_calls instructions deployment_name endpoint api_key w) with
    | Some e => Raised e
    | None => Returned (props.agent_of instructions deployment_name endpoint api_key w)
    end.
Proof.
  intros Hc. rewrite (create_cases _ _ _ _ w Hc), first_raise_sdk_calls.
  destruct (props.first_raise sdk (props.calls_before_start _ _ _ w)); [done|].
  destruct (sdk_raises sdk (AEnter _)); [done|].
  by destruct (props.first_raise sdk (props.calls_after_start _ _ _ _ w)).
Qed.

Lemma create_started instructions deployment_name endpoint api_key w :
  props.configured endpoint api_key w = true →
  props.first_raise sdk
    (props.sdk_calls instructions deployment_name endpoint api_key w) = None →
  app.create_kubernetes_discovery_agent sdk instructions deployment_name endpoint api_key w
  = (Returned (props.agent_of instructions deployment_name endpoint api_key w),
     props.started w).
Proof.
  intros Hc. rewrite first_raise_sdk_calls, (create_cases _ _ _ _ w Hc).
  destruct (props.first_raise sdk (props.calls_before_start _ _ _ w)); [done|].
  destruct (sdk_raises sdk (AEnter _)); [done|].
  by intros ->.
Qed.

Lemma create_launch_failed instructions deployment_name endpoint api_key w e :
  props.configured endpoint api_key w = true →
  props.first_raise sdk
    (props.calls_before_start deployment_name endpoint api_key w) = None →
  sdk_raises sdk (AEnter (props.new_plugin w)) = Some e →
  app.create_kubernetes_discovery_agent sdk instructions deployment_name endpoint api_key w
  = (Raised e, props.entered w).
Proof. intros Hc Hb Hs. by rewrite (create_cases _ _ _ _ w Hc), Hb, Hs. Qed.

(** Every way the call can end *)
Lemma create_ends instructions deployment_name endpoint api_key w :
  (∃ e w', app.create_kubernetes_discovery_agent sdk instructions deployment_name
                                                 endpoint api_key w = (Raised e, w')
           ∧ (w' = w ∨ w' = props.entered w ∨ w' = props.started w))
  ∨ (props.configured endpoint api_key w = true
     ∧ props.first_raise sdk
         (props.sdk_calls instructions deployment_name endpoint api_key w) = None
     ∧ app.create_kubernetes_discovery_agent sdk instructions deployment_name
                                             endpoint api_key w
       = (Returned (props.agent_of instructions deployment_name endpoint api_key w),
          props.started w)).
Proof.
  destruct (props.configured endpoint api_key w) eqn:Hc.
  - rewrite first_raise_sdk_calls, (create_cases _ _ _ _ w Hc).
    destruct (props.first_raise sdk (props.calls_before_start _ _ _ w));
      [left; eauto 6|].
    destruct (sdk_raises sdk (AEnter _)); [left; eauto 6|].
    destruct (props.first_raise sdk (props.calls_after_start _ _ _ _ w));
      [left; eauto 6|by right].
  - rewrite (create_unconfigured _ _ _ _ w Hc). left; eauto 6.
Qed.

Lemma create_returned_inv instructions deployment_name endpoint api_key w w'
    (a : ChatCompletionAgent) :
  app.create_kubernetes_discovery_agent sdk instructions deployment_name
                                        endpoint api_key w = (Returned a, w') →
  props.configured endpoint api_key w = true
  ∧ props.first_raise sdk
      (props.sdk_calls instructions deployment_name endpoint api_key w) = None
  ∧ a = props.agent_of instructions deployment_name endpoint api_key w
  ∧ w' = props.started w.
Proof.
  intros H.
  destruct (create_ends instructions deployment_name endpoint api_key w)
    as [(e & w1 & He & _)|(Hc & Hn & Ha)]; [congruence|].
  rewrite Ha in H. by simplify_eq.
Qed.

End create.

(** ** The session host's handlers, case by case *)

Section host.
Context (sdk : SDK).
Implicit Types (w : World) (sid : nat).

Lemma prints_frame (lines : list string) w :
  let w' := fold_left (fun w line => print line w) lines w in
  environ w' = environ w ∧ fs w' = fs w ∧ kube_discovery_plugin w' = kube_discovery_plugin w
  ∧ next_id w' = next_id w ∧ trace w' = trace w
  ∧ user_session w' = user_session w ∧ outbox w' = outbox w.
Proof.
  revert w. induction lines as [|line lines IH]; intros w; [done|].
  cbn. destruct (IH (print line w)) as (? & ? & ? & ? & ? & ? & ?).
  by split_and!.
Qed.

Lemma invoke_frame (agent : ChatCompletionAgent) (msg : string) w :
  let w' := snd (app_ui.invoke sdk agent msg w) in
  environ w' = environ w ∧ kube_discovery_plugin w' = kube_discovery_plugin w
  ∧ next_id w' = next_id w ∧ trace w' = trace w ++ [EvInvoke msg]
  ∧ user_session w' = user_session w ∧ outbox w' = outbox w.
Proof.
  unfold app_ui.invoke.
  pose proof (prints_frame (printed (agent_invoke sdk agent msg (fs (log (EvInvoke msg) w))))
                (set_fs (fs_after (agent_invoke sdk agent msg (fs (log (EvInvoke msg) w))))
                        (log (EvInvoke msg) w))) as (? & _ & ? & ? & ? & ? & ?).
  destruct (raised _); cbn [snd]; by split_and!.
Qed.

Lemma invoke_outcome (agent : ChatCompletionAgent) (msg : string) w :
  fst (app_ui.invoke sdk agent msg w)
  = match raised (agent_invoke sdk agent msg (fs w)) with
    | Some e => Raised e
    | None => Returned (fragments (agent_invoke sdk agent msg (fs w)))
    end.
Proof. unfold app_ui.invoke. cbn [log fs]. by destruct (raised _). Qed.

Lemma on_message_no_agent sid (content : string) w :
  user_session w !! sid = None →
  app_ui.on_message sdk sid content w
  = (Returned tt, send sid "❌ Agent not initialized. Please refresh the page." w).
Proof. intros H. unfold app_ui.on_message, bind, gets. by rewrite H. Qed.

Lemma on_message_agent sid (content : string) w (agent : ChatCompletionAgent) :
  user_session w !! sid = Some agent →
  app_ui.on_message sdk sid content w
  = (Returned tt,
     send sid (props.reply_of (agent_invoke sdk agent content (fs w)))
          (snd (app_ui.invoke sdk agent content w))).
Proof.
  intros H. unfold app_ui.on_message, bind, gets. rewrite H.
  unfold try_except, bind, props.reply_of.
  pose proof (invoke_outcome agent content w) as Hout.
  destruct (app_ui.invoke sdk agent content w) as [r w'].
  cbn [fst snd] in *. subst r.
  destruct (raised _); [reflexivity|].
  by destruct (Py.truthy_str _).
Qed.

(** The start of a chat raises, at the configuration check or in a call
    into the SDK, or stores the new agent and greets. *)
Lemma start_cases sid w :
  (∃ e w', app_ui.start sdk sid w = (Raised e, w')
           ∧ (w' = w ∨ w' = props.entered w ∨ w' = props.started w))
  ∨ (props.configured None None w = true
     ∧ props.first_raise sdk (props.sdk_calls None None None None w) = None
     ∧ app_ui.start sdk sid w
       = (Returned tt,
          send sid app_ui.welcome_msg
               (session_set sid (props.agent_of None None None None w)
                            (props.started w)))).
Proof.
  unfold app_ui.start, bind.
  destruct (create_ends sdk None None None None w)
    as [(e & w' & -> & Hw)|(Hc & Hn & ->)]; [left; eauto|by right].
Qed.

(** The handler is its part before the [await] followed by its part after
    it. *)
Lemma start_split sid w :
  app_ui.start sdk sid w
  = match app_ui.start_until_await sdk w with
    | (Returned fr, w') => app_ui.start_after_await sdk sid fr w'
    | (Raised e, w') => (Raised e, w')
    end.
Proof.
  unfold app_ui.start, app_ui.start_after_await, app_ui.start_until_await,
    app.create_kubernetes_discovery_agent, bind.
  by destruct (app.create_until_await sdk None None None None w) as [[fr|e] w'].
Qed.

End host.

(** ** The accumulated reply *)

Lemma append_nil_r (s : string) : s +:+ "" = s.
Proof. induction s as [|c s IH]; [done|]. by rewrite append_cons, IH. Qed.

Lemma accumulate_from (responses : list Py.val) (acc : string) :
  fold_left (fun response_content response =>
               response_content +:+ app_ui.fragment_text response) responses acc
  = acc +:+ props.joined responses.
Proof.
  revert acc. induction responses as [|r rs IH]; intros acc.
  - cbn. by rewrite append_nil_r.
  - cbn [fold_left]. rewrite IH. unfold props.joined. cbn [fmap list_fmap foldr].
    by rewrite append_assoc.
Qed.

Lemma accumulate_joined (responses : list Py.val) :
  app_ui.accumulate responses = props.joined responses.
Proof. unfold app_ui.accumulate. by rewrite accumulate_from. Qed.

(** ** Runs of the session host *)

Section run.
Context (sdk : SDK).
Implicit Types (w : World) (sid : nat).

(** What a handler may do to the process-wide part of the world: it adds
    events that are no [__aexit__] calls, and never lowers [next_id]. *)
Lemma dispatch_frame (ev : app_ui.HostEvent) w :
  let w' := app_ui.dispatch sdk ev w in
  environ w' = environ w
  ∧ next_id w ≤ next_id w'
  ∧ ∃ evs, trace w' = trace w ++ evs ∧ List.filter props.is_exit evs = [].
Proof.
  destruct ev as [sid|sid content|sid]; cbn [app_ui.dispatch].
  - destruct (start_cases sdk sid w)
      as [(e & w' & -> & [->|[->| ->]])|(_ & _ & ->)]; cbn [snd].
    + split_and!; [done|done|]. exists []. by rewrite app_nil_r.
    + split_and!; [done|cbn; lia|].
      exists [EvInit (next_id w); EvEnter (next_id w)]. cbn. by rewrite <- app_assoc.
    + split_and!; [done|cbn; lia|].
      exists [EvInit (next_id w); EvEnter (next_id w); EvStarted (next_id w)].
      cbn. by rewrite <- !app_assoc.
    + split_and!; [done|cbn; lia|].
      exists [EvInit (next_id w); EvEnter (next_id w); EvStarted (next_id w)].
      cbn. by rewrite <- !app_assoc.
  - destruct (user_session w !! sid) as [agent|] eqn:Hagent.
    + rewrite (on_message_agent sdk sid content w agent Hagent). cbn [snd].
      destruct (invoke_frame sdk agent content w) as (He & _ & Hn & Ht & _).
      cbn. rewrite He, Hn, Ht. split_and!; [done|done|]. by exists [EvInvoke content].
    + rewrite (on_message_no_agent sdk sid content w Hagent). cbn.
      split_and!; [done|done|]. exists []. by rewrite app_nil_r.
  - split_and!; [done|done|]. exists []. by rewrite app_nil_r.
Qed.

Lemma run_host_cons (ev : app_ui.HostEvent) (evs : list app_ui.HostEvent) w :
  app_ui.run_host sdk (ev :: evs) w
  = app_ui.run_host sdk evs (app_ui.dispatch sdk ev w).
Proof. reflexivity. Qed.

Lemma run_host_frame (evs : list app_ui.HostEvent) w :
  let w' := app_ui.run_host sdk evs w in
  environ w' = environ w
  ∧ List.filter props.is_exit (trace w') = List.filter props.is_exit (trace w).
Proof.
  revert w. induction evs as [|ev evs IH]; intros w; [done|].
  cbn zeta. rewrite run_host_cons.
  destruct (IH (app_ui.dispatch sdk ev w)) as [-> ->].
  destruct (dispatch_frame ev w) as (-> & _ & tr & -> & Hex).
  split; [done|]. by rewrite List.filter_app, Hex, app_nil_r.
Qed.

Lemma owned_frame w w' :
  user_session w' = user_session w → next_id w ≤ next_id w' → props.owned w → props.owned w'.
Proof.
  intros Hs Hn [Hlt Hne]. split.
  - intros sid a p. rewrite Hs. intros Ha Hp. specialize (Hlt sid a p Ha Hp). lia.
  - intros s1 s2 a1 a2 p1 p2. rewrite Hs. apply Hne.
Qed.

Lemma owned_start sid w (a : ChatCompletionAgent) :
  props.adapters a = [props.new_plugin w] →
  props.owned w →
  props.owned (send sid app_ui.welcome_msg (session_set sid a (props.started w))).
Proof.
  intros Ha [Hlt Hne].
  assert (Hnew : ∀ p, p ∈ props.adapters a → mcp_id p = next_id w).
  { intros p. rewrite Ha. by intros ->%list_elem_of_singleton. }
  split; cbn.
  - intros s a' p. destruct (decide (sid = s)) as [<-|Hs].
    + rewrite lookup_insert_eq. intros [= <-] Hp. rewrite (Hnew p Hp). lia.
    + rewrite lookup_insert_ne by done. intros Ha' Hp.
      specialize (Hlt s a' p Ha' Hp). lia.
  - intros s1 s2 a1 a2 p1 p2 Hs.
    destruct (decide (sid = s1)) as [<-|H1], (decide (sid = s2)) as [<-|H2];
      [done|..].
    + rewrite lookup_insert_eq, lookup_insert_ne by done.
      intros [= <-] H2' Hp1 Hp2. rewrite (Hnew p1 Hp1).
      specialize (Hlt s2 a2 p2 H2' Hp2). lia.
    + rewrite lookup_insert_eq, lookup_insert_ne by done.
      intros H1' [= <-] Hp1 Hp2. rewrite (Hnew p2 Hp2).
      specialize (Hlt s1 a1 p1 H1' Hp1). lia.
    + rewrite !lookup_insert_ne by done. by apply Hne.
Qed.

Lemma owned_dispatch (ev : app_ui.HostEvent) w :
  props.owned w → props.owned (app_ui.dispatch sdk ev w).
Proof.
  intros Hw. destruct ev as [sid|sid content|sid]; cbn [app_ui.dispatch]; [| |done].
  - destruct (start_cases sdk sid w)
      as [(e & w' & -> & [->|[->| ->]])|(_ & _ & ->)]; cbn [snd].
    + done.
    + apply (owned_frame w); [done|cbn; lia|done].
    + apply (owned_frame w); [done|cbn; lia|done].
    + by apply owned_start.
  - destruct (user_session w !! sid) as [agent|] eqn:Hagent.
    + rewrite (on_message_agent sdk sid content w agent Hagent). cbn [snd].
      destruct (invoke_frame sdk agent content w) as (_ & _ & Hn & _ & Hs & _).
      apply (owned_frame w); cbn; [done|lia|done].
    + rewrite (on_message_no_agent sdk sid content w Hagent).
      by apply (owned_frame w).
Qed.

Lemma owned_run_host (evs : list app_ui.HostEvent) w :
  props.owned w → props.owned (app_ui.run_host sdk evs w).
Proof.
  revert w. induction evs as [|ev evs IH]; intros w Hw; [done|].
  rewrite run_host_cons. by apply IH, owned_dispatch.
Qed.

(** A loop that takes its events one by one is the host of [run_host]. *)
Lemma run_steps_one_by_one (evs : list app_ui.HostEvent) w :
  app_ui.run_steps sdk (app_ui.one_by_one evs)
                   {| app_ui.waiting := ∅; app_ui.world := w |}
  = {| app_ui.waiting := ∅; app_ui.world := app_ui.run_host sdk evs w |}.
Proof.
  revert w. induction evs as [|ev evs IH]; intros w; [done|].
  rewrite run_host_cons, <- IH. unfold app_ui.one_by_one, app_ui.run_steps.
  rewrite bind_cons, fold_left_app. f_equal.
  destruct ev as [sid|sid content|sid]; cbn [fold_left app_ui.dispatch]; [|done..].
  unfold app_ui.step at 2. cbn [app_ui.waiting app_ui.world].
  rewrite lookup_empty, (start_split sdk sid w).
  destruct (app_ui.start_until_await sdk w) as [[fr|e] w']; [|done].
  unfold app_ui.step. cbn [app_ui.waiting app_ui.world].
  by rewrite lookup_insert_eq, delete_insert_eq, delete_empty.
Qed.

End run.

(** ** Further facts the claims rest on *)

Lemma or_empty (y : option string) : Py.or_ (Some "") y = Py.or_ None y.
Proof. reflexivity. Qed.

Lemma or_truthy (s : string) (y : option string) :
  s ≠ "" → Py.or_ (Some s) y = Some s.
Proof.
  intros H. unfold Py.or_, Py.truthy, Py.truthy_str.
  by rewrite bool_decide_eq_false_2.
Qed.

(** Whatever [agent.invoke] does -- stream, stream nothing, raise -- the
    message handler returns normally, having sent exactly one message; an
    exception leaving [invoke] is reported to the user by its text. *)
Lemma on_message_never_raises (sdk : SDK) (sid : nat) (content : string) (w : World) :
  fst (app_ui.on_message sdk sid content w) = Returned tt
  ∧ (∃ text, outbox (snd (app_ui.on_message sdk sid content w))
             = outbox w ++ [(sid, text)])
  ∧ ∀ agent e,
      user_session w !! sid = Some agent →
      raised (agent_invoke sdk agent content (fs w)) = Some e →
      outbox (snd (app_ui.on_message sdk sid content w))
      = outbox w ++ [(sid, "❌ Error processing your request: " +:+ Py.str_exc e)].
Proof.
  destruct (user_session w !! sid) as [agent|] eqn:Hagent.
  - rewrite (on_message_agent sdk sid content w agent Hagent).
    cbn [fst snd send outbox].
    destruct (invoke_frame sdk agent content w) as (_ & _ & _ & _ & _ & ->).
    split_and!; [done|by eexists|].
    intros agent' e [= <-] He. unfold props.reply_of. by rewrite He.
  - rewrite (on_message_no_agent sdk sid content w Hagent).
    split_and!; [done|by eexists|]. intros agent e [=].
Qed.

(** The repository's own test does tear the adapter down: once the plugin
    is built, its [finally] block calls [__aexit__] on it, whatever
    happens after. *)
Lemma test_main_app_exits_adapter (sdk : SDK) (w : World) :
  props.configured None None w = true →
  props.first_raise sdk (props.calls_before_start None None None w) = None →
  ∃ evs, trace (snd (test_main_app.test_main_app sdk w))
         = trace w ++ evs ++ [EvExit (next_id w)]
         ∧ List.filter props.is_exit evs = [].
Proof.
  intros Hc Hb.
  unfold test_main_app.test_main_app, bind, modify, try_finally, try_except.
  cbn beta iota.
  set (w0 := print _ (print _ w)).
  assert (Hc0 : props.configured None None w0 = true) by exact Hc.
  rewrite (create_cases sdk None None None None w0 Hc0).
  change (props.calls_before_start None None None w0)
    with (props.calls_before_start None None None w).
  rewrite Hb.
  destruct (sdk_raises sdk (AEnter (props.new_plugin w0))) as [e|].
  { cbn. exists [EvInit (next_id w); EvEnter (next_id w)].
    split; [by rewrite <- !app_assoc|done]. }
  destruct (props.first_raise sdk (props.calls_after_start None None None None w0))
    as [e|].
  { cbn. exists [EvInit (next_id w); EvEnter (next_id w); EvStarted (next_id w)].
    split; [by rewrite <- !app_assoc|done]. }
  cbn beta iota.
  match goal with |- context [app_ui.invoke sdk ?a ?m ?wi] =>
    pose proof (invoke_frame sdk a m wi) as (_ & Hg & _ & Ht & _);
    destruct (app_ui.invoke sdk a m wi) as [[responses|e] w1]
  end; cbn in Hg, Ht.
  - exists [EvInit (next_id w); EvEnter (next_id w); EvStarted (next_id w);
            EvInvoke "Hello, can you help me understand what you can do with Kubernetes clusters?"].
    split; [|done].
    destruct (Py.truthy_str (app_ui.accumulate responses));
      cbn; unfold test_main_app.cleanup; cbn; rewrite Hg; cbn; rewrite Ht;
      by rewrite <- !app_assoc.
  - exists [EvInit (next_id w); EvEnter (next_id w); EvStarted (next_id w);
            EvInvoke "Hello, can you help me understand what you can do with Kubernetes clusters?"].
    split; [|done].
    cbn; unfold test_main_app.cleanup; cbn; rewrite Hg; cbn; rewrite Ht;
      by rewrite <- !app_assoc.
Qed.

(** ** Handlers that overlap *)

(** What handling a message does to the world *)
Lemma on_message_world (sdk : SDK) (sid : nat) (content : string) (w : World) :
  let w' := snd (app_ui.on_message sdk sid content w) in
  user_session w' = user_session w
  ∧ kube_discovery_plugin w' = kube_discovery_plugin w
  ∧ environ w' = environ w
  ∧ next_id w' = next_id w
  ∧ (∃ text, outbox w' = outbox w ++ [(sid, text)])
  ∧ trace w' = trace w ++ match user_session w !! sid with
                          | Some _ => [EvInvoke content]
                          | None => []
                          end.
Proof.
  intros w'. subst w'. destruct (user_session w !! sid) as [agent|] eqn:Hagent.
  - rewrite (on_message_agent sdk sid content w agent Hagent). cbn [snd].
    destruct (invoke_frame sdk agent content w) as (He & Hg & Hn & Ht & Hs & Ho).
    cbn. rewrite He, Hg, Hn, Ht, Hs, Ho. split_and!; try done. by eexists.
  - rewrite (on_message_no_agent sdk sid content w Hagent). cbn.
    rewrite app_nil_r. split_and!; try done. by eexists.
Qed.

Lemma configured_environ (endpoint api_key : option string) (w w' : World) :
  environ w' = environ w →
  props.configured endpoint api_key w' = props.configured endpoint api_key w.
Proof.
  intros H. unfold props.configured, props.endpoint_of, props.api_key_of.
  by rewrite H.
Qed.

Lemma first_raise_never (sdk : SDK) (calls : list SdkCall) :
  (∀ c, sdk_raises sdk c = None) → props.first_raise sdk calls = None.
Proof. intros H. apply first_raise_None, Forall_forall. auto. Qed.

Lemma step_begins (sdk : SDK) (task sid : nat) (l : app_ui.Loop)
    (fr : app.Frame) (w' : World) :
  app_ui.waiting l !! task = None →
  app_ui.start_until_await sdk (app_ui.world l) = (Returned fr, w') →
  app_ui.step sdk (app_ui.StartBegins task sid) l
  = {| app_ui.waiting := <[task := (sid, fr)]> (app_ui.waiting l);
       app_ui.world := w' |}.
Proof. intros Hw Hs. unfold app_ui.step. by rewrite Hw, Hs. Qed.

Lemma step_resumes (sdk : SDK) (task sid : nat) (l : app_ui.Loop) (fr : app.Frame) :
  app_ui.waiting l !! task = Some (sid, fr) →
  app_ui.step sdk (app_ui.StartResumes task) l
  = {| app_ui.waiting := delete task (app_ui.waiting l);
       app_ui.world := snd (app_ui.start_after_await sdk sid fr (app_ui.world l)) |}.
Proof. intros Hw. unfold app_ui.step. by rewrite Hw. Qed.

(** A start that resumes when no call into the SDK raises: the agent it
    stores holds the plugin it finds in the module global. *)
Lemma start_after_await_ok (sdk : SDK) (sid : nat) (fr : app.Frame)
    (p : MCPStdioPlugin) (w : World) :
  (∀ c, sdk_raises sdk c = None) →
  kube_discovery_plugin w = Some p →
  app_ui.start_after_await sdk sid fr w
  = (Returned tt,
     send sid app_ui.welcome_msg
          (session_set sid (props.agent_from fr p)
                       (log (EvStarted (mcp_id (app.fr_entered fr))) w))).
Proof.
  intros Hok Hg. unfold app_ui.start_after_await, bind.
  by rewrite (after_await_cases sdk fr p w Hg), Hok, first_raise_never.
Qed.

Lemma until_await_ends (sdk : SDK) (w : World) :
  (∃ e, app_ui.start_until_await sdk w = (Raised e, w))
  ∨ app_ui.start_until_await sdk w
    = (Returned (props.frame_of None None None None w), props.entered w).
Proof.
  unfold app_ui.start_until_await.
  destruct (props.configured None None w) eqn:Hc.
  - rewrite (until_await_cases sdk _ _ _ _ w Hc).
    destruct (props.first_raise sdk _); eauto.
  - rewrite (until_await_unconfigured sdk _ _ _ _ w Hc). eauto.
Qed.

Lemma start_after_await_ends (sdk : SDK) (sid : nat) (fr : app.Frame) (w : World) :
  (∃ e w', app_ui.start_after_await sdk sid fr w = (Raised e, w')
           ∧ (w' = w ∨ w' = log (EvStarted (mcp_id (app.fr_entered fr))) w))
  ∨ (∃ p, kube_discovery_plugin w = Some p
          ∧ app_ui.start_after_await sdk sid fr w
            = (Returned tt,
               send sid app_ui.welcome_msg
                    (session_set sid (props.agent_from fr p)
                                 (log (EvStarted (mcp_id (app.fr_entered fr))) w)))).
Proof.
  unfold app_ui.start_after_await, bind.
  destruct (kube_discovery_plugin w) as [p|] eqn:Hg.
  - rewrite (after_await_cases sdk fr p w Hg).
    destruct (sdk_raises sdk (AEnter _)); [left; eauto|].
    destruct (props.first_raise sdk _); [left; eauto|right; eauto].
  - unfold app.create_after_await, app.aenter_awaited, bind, gets, raise.
    destruct (sdk_raises sdk (AEnter _)); [left; eauto|].
    cbn [log kube_discovery_plugin]. rewrite Hg. left; eauto.
Qed.

(** No step of the loop changes the environment. *)
Lemma step_environ (sdk : SDK) (st : app_ui.Step) (l : app_ui.Loop) :
  environ (app_ui.world (app_ui.step sdk st l)) = environ (app_ui.world l).
Proof.
  destruct st as [task sid|task|sid content]; cbn [app_ui.step].
  - destruct (app_ui.waiting l !! task); [done|].
    by destruct (until_await_ends sdk (app_ui.world l)) as [[e ->]| ->].
  - destruct (app_ui.waiting l !! task) as [[sid fr]|]; [|done]. cbn [app_ui.world].
    by destruct (start_after_await_ends sdk sid fr (app_ui.world l))
      as [(e & w' & -> & [->| ->])|(p & _ & ->)].
  - cbn [app_ui.world]. apply (on_message_world sdk sid content (app_ui.world l)).
Qed.

Lemma run_steps_cons (sdk : SDK) (st : app_ui.Step) (sts : list app_ui.Step)
    (l : app_ui.Loop) :
  app_ui.run_steps sdk (st :: sts) l = app_ui.run_steps sdk sts (app_ui.step sdk st l).
Proof. reflexivity. Qed.

Lemma run_steps_environ (sdk : SDK) (sts : list app_ui.Step) (l : app_ui.Loop) :
  environ (app_ui.world (app_ui.run_steps sdk sts l)) = environ (app_ui.world l).
Proof.
  revert l. induction sts as [|st sts IH]; intros l; [done|].
  by rewrite run_steps_cons, IH, step_environ.
Qed.

(** Storing an agent whose one adapter is newer than all that are stored *)
Lemma owned_store (sid : nat) (w : World) (a : ChatCompletionAgent)
    (p : MCPStdioPlugin) (msg : string) :
  props.adapters a = [p] →
  mcp_id p < next_id w →
  (∀ s a' p', user_session w !! s = Some a' → p' ∈ props.adapters a' →
              mcp_id p' < mcp_id p) →
  props.owned w →
  props.owned (send sid msg (session_set sid a w)).
Proof.
  intros Ha Hp Hold [Hlt Hne].
  assert (Hnew : ∀ q, q ∈ props.adapters a → q = p).
  { intros q. rewrite Ha. by intros ->%list_elem_of_singleton. }
  split; cbn.
  - intros s a' q. destruct (decide (sid = s)) as [<-|Hs].
    + rewrite lookup_insert_eq. intros [= <-] Hq. by rewrite (Hnew q Hq).
    + rewrite lookup_insert_ne by done. apply Hlt.
  - intros s1 s2 a1 a2 p1 p2 Hs.
    destruct (decide (sid = s1)) as [<-|H1], (decide (sid = s2)) as [<-|H2];
      [done|..].
    + rewrite lookup_insert_eq, lookup_insert_ne by done.
      intros [= <-] H2' Hp1 Hp2. rewrite (Hnew p1 Hp1).
      specialize (Hold s2 a2 p2 H2' Hp2). lia.
    + rewrite lookup_insert_eq, lookup_insert_ne by done.
      intros H1' [= <-] Hp1 Hp2. rewrite (Hnew p2 Hp2).
      specialize (Hold s1 a1 p1 H1' Hp1). lia.
    + rewrite !lookup_insert_ne by done. by apply Hne.
Qed.

(** A step of a loop in which no chat start begins while another waits *)
Lemma step_serial (sdk : SDK) (st : app_ui.Step) (rest : list app_ui.Step)
    (busy : option nat) (l : app_ui.Loop) :
  props.at_most_waiting busy l →
  vocab.serial busy (st :: rest) = true →
  ∃ busy', props.at_most_waiting busy' (app_ui.step sdk st l)
           ∧ vocab.serial busy' rest = true.
Proof.
  intros [Hown Hwait] Hserial.
  destruct st as [task sid|task|sid content]; cbn [vocab.serial] in Hserial.
  - destruct busy as [t|]; [done|]. exists (Some task). split; [|done].
    destruct Hwait as [Hw|(t & ? & ? & ? & _)]; [|done].
    cbn [app_ui.step]. rewrite Hw, lookup_empty.
    destruct (until_await_ends sdk (app_ui.world l)) as [[e ->]| ->].
    + split; [done|by left].
    + split; cbn [app_ui.world app_ui.waiting].
      * apply (owned_frame (app_ui.world l)); [done|cbn; lia|done].
      * right. exists task, sid, (props.frame_of None None None None (app_ui.world l)).
        rewrite insert_empty. split_and!; try done.
        intros s a p Ha Hp. destruct Hown as [Hlt _]. apply (Hlt s a p Ha Hp).
  - destruct Hwait as [Hw|(t & sid & fr & -> & Hw & Hpl & Hg & Hn & Hold)].
    + exists (if bool_decide (busy = Some task) then None else busy).
      split; [|by destruct (bool_decide _)].
      cbn [app_ui.step]. rewrite Hw, lookup_empty. split; [done|by left].
    + destruct (decide (task = t)) as [->|Hne].
      * rewrite bool_decide_eq_true_2 in Hserial by done.
        exists None. split; [|done].
        cbn [app_ui.step]. rewrite Hw, lookup_singleton_eq.
        cbn [app_ui.world app_ui.waiting]. rewrite delete_singleton_eq.
        split; [|by left].
        destruct (start_after_await_ends sdk sid fr (app_ui.world l))
          as [(e & w' & -> & [->| ->])|(p & Hp & ->)]; cbn [snd].
        -- done.
        -- by apply (owned_frame (app_ui.world l)).
        -- rewrite Hg in Hp. injection Hp as <-.
           apply (owned_store sid _ _ (app.fr_entered fr)).
           ++ unfold props.adapters, props.agent_from. cbn. by rewrite Hpl.
           ++ cbn. lia.
           ++ exact Hold.
           ++ by apply (owned_frame (app_ui.world l)).
      * rewrite bool_decide_eq_false_2 in Hserial by congruence.
        exists (Some t). split; [|done].
        cbn [app_ui.step]. rewrite Hw, lookup_singleton_ne by done.
        split; [done|]. right. exists t, sid, fr. by split_and!.
  - exists busy. split; [|done]. cbn [app_ui.step].
    destruct (on_message_world sdk sid content (app_ui.world l))
      as (Hs & Hg' & _ & Hn' & _ & _).
    split; cbn [app_ui.world app_ui.waiting].
    + by apply (owned_frame (app_ui.world l)); [|lia|].
    + destruct Hwait as [Hw|(t & sid' & fr & -> & Hw & Hpl & Hg & Hn & Hold)];
        [by left|right].
      exists t, sid', fr. rewrite Hs, Hg', Hn'. by split_and!.
Qed.

Lemma run_steps_serial (sdk : SDK) (sts : list app_ui.Step)
    (busy : option nat) (l : app_ui.Loop) :
  props.at_most_waiting busy l →
  vocab.serial busy sts = true →
  ∃ busy', props.at_most_waiting busy' (app_ui.run_steps sdk sts l).
Proof.
  revert busy l. induction sts as [|st sts IH]; intros busy l Hinv Hserial.
  { by exists busy. }
  destruct (step_serial sdk st sts busy l Hinv Hserial) as (busy' & Hinv' & Hserial').
  rewrite run_steps_cons. by apply (IH busy').
Qed.

(** Taking the events one by one is a schedule of that kind. *)
Lemma serial_one_by_one (evs : list app_ui.HostEvent) :
  vocab.serial None (app_ui.one_by_one evs) = true.
Proof.
  induction evs as [|[sid|sid content|sid] evs IH]; [done|..]; unfold app_ui.one_by_one;
    rewrite bind_cons; cbn [app vocab.serial];
    rewrite ?bool_decide_eq_true_2 by done; exact IH.
Qed.

(** ** The report file *)

Lemma locate_report (f : FileSystem) (dir : string) (d : list string) :
  props.dir_at f dir d →
  Os.locate f (Os.path_join dir "cluster_summary.md")
  = Os.At (d ++ ["cluster_summary.md"]).
Proof.
  intros [Hne Hwalk]. destruct (components_report dir Hne) as [Hc Hs].
  unfold Os.locate, Os.start in *. rewrite Hc, Hs, removelast_last, Hwalk.
  by rewrite last_snoc.
Qed.

Lemma dir_at_store (f : FileSystem) (dir content : string) (d t : list string) :
  Os.node_at f t ≠ Some Dir →
  props.dir_at f dir d → props.dir_at (Os.store t content f) dir d.
Proof.
  intros Hnd [Hne Hwalk]. split; [done|].
  change (Os.start (Os.store t content f) dir) with (Os.start f dir).
  by apply walk_store.
Qed.

(** Reading a file that was just stored gives what was stored. *)
Lemma read_stored (path content : string) (t : list string) (f : FileSystem) (w : World) :
  fs w = Os.store t content f →
  Os.locate f path = Os.At t → Os.node_at f t ≠ Some Dir →
  Os.nonempty path = true → Os.dir_form path = false →
  Os.ends_with_sep path = false →
  builtins.read_text path w = (Returned content, w).
Proof.
  intros Hfs Hloc Hnd Hne Hform Hsep. unfold builtins.read_text. cbn zeta.
  rewrite Hne, Hform, Hsep, Hfs. cbn [negb].
  rewrite (locate_store f t t path content Hnd Hloc), node_at_store by done.
  by rewrite decide_True.
Qed.

(** A file that took one text takes the next. *)
Lemma write_stored (path content content' : string) (t : list string)
    (f : FileSystem) (w : World) :
  fs w = Os.store t content f →
  Os.locate f path = Os.At t → Os.node_at f t ≠ Some Dir →
  Os.nonempty path = true → Os.dir_form path = false →
  Os.ends_with_sep path = false → fs_file_faults f !! t = None →
  Os.write_text path content' w
  = (Returned tt, set_fs (Os.store t content' (Os.store t content f)) w).
Proof.
  intros Hfs Hloc Hnd Hne Hform Hsep Hfault. unfold Os.write_text. cbn zeta.
  rewrite Hne, Hform, Hsep, Hfs. cbn [negb].
  rewrite (locate_store f t t path content Hnd Hloc), node_at_store by done.
  rewrite decide_True by done. cbn [Os.store fs_file_faults]. by rewrite Hfault.
Qed.

(** * The claims *)

(** C1, as stated, at a concrete input: with the endpoint and the key set
    in the environment but [npx] missing, the creation call does not
    succeed, so success is not equivalent to "both are non-empty". *)
Lemma create_succeeds_iff_configured_counterexample :
  ¬ ((∃ a w', app.create_kubernetes_discovery_agent
                examples.sdk_no_npx None None None None examples.world_configured
              = (Returned a, w'))
     ↔ props.configured None None examples.world_configured = true).
Proof.
  intros [_ H]. destruct H as (a & w' & H); [reflexivity|].
  rewrite (create_launch_failed examples.sdk_no_npx None None None None
             examples.world_configured (Py.SdkError "Failed to connect to MCP server"))
    in H; [discriminate|reflexivity..].
Qed.

(** C1 (amended): the creation call raises the configuration error
    (ValueError), leaving the world untouched -- no plugin built, none
    entered -- when the endpoint or the key is empty after falling back from
    the arguments to the environment.  Otherwise it goes on to its calls
    into Semantic Kernel, and it succeeds exactly when both are non-empty
    and none of these calls raises; the first of them that raises ends the
    creation call with its exception.  When that is a call before
    [__aenter__], such as the constructor of the completion service
    refusing its arguments, the world is untouched as well; when it is
    [__aenter__], the plugin was built and entered, and not started. *)
Theorem create_agent_outcome (sdk : SDK)
    (instructions deployment_name endpoint api_key : option string) (w : World) :
  let create :=
    app.create_kubernetes_discovery_agent sdk instructions deployment_name
                                          endpoint api_key w in
  let calls := props.sdk_calls instructions deployment_name endpoint api_key w in
  (props.configured endpoint api_key w = false →
   create = (Raised app.config_error, w))
  ∧ ((∃ a w', create = (Returned a, w'))
     ↔ props.configured endpoint api_key w = true
       ∧ Forall (fun c => sdk_raises sdk c = None) calls)
  ∧ (props.configured endpoint api_key w = true →
     (∀ e, props.first_raise sdk calls = Some e → fst create = Raised e)
     ∧ (∀ e, props.first_raise sdk
               (props.calls_before_start deployment_name endpoint api_key w) = Some e →
             create = (Raised e, w))
     ∧ (∀ e, props.first_raise sdk
               (props.calls_before_start deployment_name endpoint api_key w) = None →
             sdk_raises sdk (AEnter (props.new_plugin w)) = Some e →
             ∃ w', create = (Raised e, w')
                   ∧ trace w' = trace w ++ [EvInit (next_id w); EvEnter (next_id w)])).
Proof.
  intros create calls. subst create calls. split_and!.
  - apply create_unconfigured.
  - rewrite <- first_raise_None. split.
    + intros (a & w' & H). by destruct (create_returned_inv sdk _ _ _ _ _ _ _ H) as (? & ? & _).
    + intros [Hc Hn]. rewrite (create_started sdk _ _ _ _ w Hc Hn). eauto.
  - intros Hc. split_and!.
    + intros e He. by rewrite (create_outcome sdk _ _ _ _ w Hc), He.
    + intros e He. by rewrite (create_cases sdk _ _ _ _ w Hc), He.
    + intros e Hb He. eexists. split; [by apply create_launch_failed|].
      cbn. by rewrite <- app_assoc.
Qed.

Lemma create_agent_outcome_witness :
  app.create_kubernetes_discovery_agent examples.sdk_ok None None None None
                                        examples.world_unconfigured
  = (Raised app.config_error, examples.world_unconfigured).
Proof.
  destruct (create_agent_outcome examples.sdk_ok None None None None
                                 examples.world_unconfigured) as [H _].
  apply H. reflexivity.
Defined.

(** C2: [generate_cluster_summary(content, save_file=False)] returns
    [content] and leaves the whole world, the file system included, as it
    was. *)
Theorem generate_cluster_summary_inline (content : string) (w : World) :
  app.generate_cluster_summary content false w = (Returned content, w).
Proof. reflexivity. Qed.

(** C3, as stated, at a concrete input: the report directory is there but
    the report file cannot be opened for writing, and the call returns no
    confirmation. *)
Lemma generate_cluster_summary_saves_counterexample :
  ¬ ∃ confirmation w',
      app.generate_cluster_summary "# report" true
        (examples.boot ∅ examples.fs_read_only)
      = (Returned confirmation, w').
Proof. intros (confirmation & w' & H). vm_compute in H. discriminate. Qed.

(** C3 (amended): when [os.makedirs] and the write of the file raise
    nothing, [generate_cluster_summary(content, save_file=True)] returns
    the confirmation naming the path [os.path.join(REPORT_DIR,
    "cluster_summary.md")]; afterwards the report directory exists, the
    path names the entry [cluster_summary.md] of that directory, and the
    file holds the content.  A directory that exists already is no error
    and is left as it is.  A second call with other content succeeds as
    well, replaces the content of the file, and changes nothing else: no
    file or directory is added. *)
Theorem generate_cluster_summary_saves (content content' : string) (w w1 w2 : World) :
  let dir := app.REPORT_DIR (environ w) in
  let path := Os.path_join dir "cluster_summary.md" in
  let confirmation := "Cluster summary document generated: `" +:+ path +:+ "`" in
  Os.makedirs dir w = (Returned tt, w1) →
  Os.write_text path content w1 = (Returned tt, w2) →
  ∃ d w' w'',
    app.generate_cluster_summary content true w = (Returned confirmation, w')
    ∧ props.dir_at (fs w') dir d
    ∧ Os.locate (fs w') path = Os.At (d ++ ["cluster_summary.md"])
    ∧ builtins.read_text path w' = (Returned content, w')
    ∧ (∀ d0, props.dir_at (fs w) dir d0 → w1 = w)
    ∧ app.generate_cluster_summary content' true w' = (Returned confirmation, w'')
    ∧ builtins.read_text path w'' = (Returned content', w'')
    ∧ (∀ t, t ≠ d ++ ["cluster_summary.md"] →
            Os.node_at (fs w'') t = Os.node_at (fs w') t)
    ∧ dom (fs_nodes (fs w'')) = dom (fs_nodes (fs w')).
Proof.
  intros dir path confirmation Hmk Hwr.
  destruct (makedirs_spec dir w) as (f1 & Hs & _ & Hd). rewrite Hmk in Hs, Hd.
  cbn [fst snd] in Hs, Hd. destruct (Hd eq_refl) as [d Hdir]. clear Hd. subst w1.
  destruct (write_text_returns path content _ w2 Hwr)
    as (t & Hloc & Hnd & Hne & Hform & Hsep & Hfault & Hw2).
  cbn [fs set_fs] in Hloc, Hnd, Hfault, Hw2. rewrite set_fs_set_fs in Hw2. subst w2.
  assert (Ht : t = d ++ ["cluster_summary.md"]).
  { pose proof (locate_report f1 dir d Hdir) as Hl. fold path in Hl. congruence. }
  set (w' := print ("Successfully wrote content to " +:+ path)
                   (set_fs (Os.store t content f1) w)).
  assert (Hfs' : fs w' = Os.store t content f1) by done.
  assert (Hdir' : props.dir_at (fs w') dir d) by (rewrite Hfs'; by apply dir_at_store).
  assert (Hnd' : Os.node_at (fs w') t ≠ Some Dir).
  { rewrite Hfs', node_at_store, decide_True by done. discriminate. }
  exists d, w',
    (print ("Successfully wrote content to " +:+ path)
           (set_fs (Os.store t content' (Os.store t content f1)) w')).
  assert (Hfirst : app.generate_cluster_summary content true w
                   = (Returned confirmation, w')).
  { unfold app.generate_cluster_summary, bind, gets, ret. fold dir. rewrite Hmk.
    fold path. by rewrite (write_to_file_md_returns _ _ _ _ Hwr). }
  split_and!.
  - exact Hfirst.
  - exact Hdir'.
  - rewrite <- Ht. rewrite Hfs'. by apply locate_store.
  - by apply (read_stored path content t f1).
  - intros d0 Hd0. rewrite (makedirs_exists dir d0 w Hd0) in Hmk. congruence.
  - unfold app.generate_cluster_summary, bind, gets, ret.
    change (app.REPORT_DIR (environ w')) with dir.
    rewrite (makedirs_exists dir d w' Hdir'). fold path.
    by rewrite (write_to_file_md_returns _ _ _ _
                  (write_stored path content content' t f1 w' Hfs' Hloc Hnd Hne
                                Hform Hsep Hfault)).
  - apply (read_stored path content' t (Os.store t content f1)); try done.
    by apply locate_store.
  - intros t0 Ht0. cbn [print fs set_fs]. rewrite Hfs', <- Ht in *.
    rewrite (node_at_store (Os.store t content f1)), decide_False; [done|done|].
    rewrite node_at_store, decide_True by done. discriminate.
  - cbn [print fs set_fs]. rewrite Hfs'. cbn [Os.store fs_nodes].
    by rewrite !dom_insert_L, (assoc_L (∪)), union_idemp_L.
Qed.

Lemma generate_cluster_summary_saves_witness :
  ∃ w' w'',
    app.generate_cluster_summary "# v1" true examples.world_configured
    = (Returned "Cluster summary document generated: `./ClusterReports/cluster_summary.md`", w')
    ∧ app.generate_cluster_summary "# v2" true w'
      = (Returned "Cluster summary document generated: `./ClusterReports/cluster_summary.md`", w'')
    ∧ builtins.read_text "./ClusterReports/cluster_summary.md" w''
      = (Returned "# v2", w'').
Proof.
  destruct (generate_cluster_summary_saves "# v1" "# v2" examples.world_configured
              (snd (Os.makedirs "./ClusterReports/" examples.world_configured))
              (snd (Os.write_text "./ClusterReports/cluster_summary.md" "# v1"
                      (snd (Os.makedirs "./ClusterReports/" examples.world_configured)))))
    as (d & w' & w'' & H1 & _ & _ & _ & _ & H2 & H3 & _).
  - by vm_compute.
  - by vm_compute.
  - exists w', w''. split_and!; [exact H1|exact H2|exact H3].
Defined.

(** C4, as stated, at a concrete input: the session is started, the agent
    streams no fragment, and the reply sent is the "No response" notice, not
    the (empty) concatenation of the fragments. *)
Lemma reply_is_concatenation_counterexample :
  let sdk := examples.sdk_silent in
  let w := app_ui.run_host sdk [app_ui.ChatStart 0] examples.world_configured in
  ¬ (∀ agent, user_session w !! 0 = Some agent →
       outbox (snd (app_ui.on_message sdk 0 "list namespaces" w))
       = outbox w
         ++ [(0, props.joined (fragments (agent_invoke sdk agent "list namespaces"
                                                         (fs w))))]).
Proof.
  intros sdk w H.
  destruct (user_session w !! 0) as [agent|] eqn:Hagent; [|vm_compute in Hagent; discriminate].
  specialize (H agent eq_refl).
  rewrite (on_message_agent sdk 0 "list namespaces" w agent Hagent) in H.
  apply (f_equal (fun l => snd <$> last l)) in H.
  cbn [snd send outbox] in H. rewrite !last_snoc in H. discriminate.
Qed.

(** C4 (amended): the text [on_message] accumulates is the concatenation of
    the fragments' text in arrival order -- "Hello, world!" for "Hello, "
    then "world!".  When the stream ends without an exception, that text is
    the reply sent to the user if it is non-empty; if it is empty, the fixed
    "No response received from the agent." notice is sent instead. *)
Theorem on_message_replies_with_joined_text :
  (∀ responses, app_ui.accumulate responses = props.joined responses)
  ∧ app_ui.accumulate [Py.Str "Hello, "; Py.Str "world!"] = "Hello, world!"
  ∧ ∀ (sdk : SDK) (sid : nat) (content : string) (w : World)
      (agent : ChatCompletionAgent),
      user_session w !! sid = Some agent →
      raised (agent_invoke sdk agent content (fs w)) = None →
      let text := props.joined (fragments (agent_invoke sdk agent content (fs w))) in
      fst (app_ui.on_message sdk sid content w) = Returned tt
      ∧ outbox (snd (app_ui.on_message sdk sid content w))
        = outbox w
          ++ [(sid, if Py.truthy_str text then text
                    else "❌ No response received from the agent.")].
Proof.
  split_and!; [apply accumulate_joined|reflexivity|].
  intros sdk sid content w agent Hagent Hraised text.
  rewrite (on_message_agent sdk sid content w agent Hagent).
  split; [reflexivity|]. cbn [snd send outbox].
  destruct (invoke_frame sdk agent content w) as (_ & _ & _ & _ & _ & ->).
  unfold props.reply_of. rewrite Hraised, accumulate_joined. reflexivity.
Qed.

Lemma on_message_replies_with_joined_text_witness :
  let w := app_ui.run_host examples.sdk_ok [app_ui.ChatStart 0]
                           examples.world_configured in
  outbox (snd (app_ui.on_message examples.sdk_ok 0 "say hello" w))
  = outbox w ++ [(0, "Hello, world!")].
Proof.
  intros w.
  destruct on_message_replies_with_joined_text as (_ & _ & H).
  destruct (user_session w !! 0) as [agent|] eqn:Hagent;
    [|vm_compute in Hagent; discriminate].
  destruct (H examples.sdk_ok 0 "say hello" w agent Hagent eq_refl) as [_ Hout].
  exact Hout.
Defined.

(** C6: the session host never tears the adapter down.  Whatever the
    sequence of chat starts, messages and chat ends, the handlers add no
    [__aexit__] call to the trace; in the session that starts, asks for
    the namespaces and closes, the adapter is started once and exited
    never. *)
Theorem session_host_never_exits_adapter :
  (∀ (sdk : SDK) (evs : list app_ui.HostEvent) (w : World),
     List.filter props.is_exit (trace (app_ui.run_host sdk evs w))
     = List.filter props.is_exit (trace w))
  ∧ trace (app_ui.run_host examples.sdk_ok
             [app_ui.ChatStart 0; app_ui.UserMessage 0 "list namespaces";
              app_ui.ChatEnd 0]
             examples.world_configured)
    = [EvInit 0; EvEnter 0; EvStarted 0; EvInvoke "list namespaces"].
Proof.
  split; [|by vm_compute].
  intros sdk evs w. apply (run_host_frame sdk evs w).
Qed.

(** C7, as stated, at a concrete input: two sessions start one after the
    other, and the second start changes the module global
    [kube_discovery_plugin] that the first start had set. *)
Lemma no_shared_mutable_state_counterexample :
  let w1 := app_ui.run_host examples.sdk_ok [app_ui.ChatStart 1]
                            examples.world_configured in
  let w2 := app_ui.run_host examples.sdk_ok [app_ui.ChatStart 2] w1 in
  ¬ (kube_discovery_plugin w2 = kube_discovery_plugin w1).
Proof. intros w1 w2 H. vm_compute in H. discriminate. Qed.

(** C7 (amended): take a loop in which no chat start begins while another
    one waits for its adapter subprocess -- such as a host that takes its
    events one by one -- started from a process without sessions.  In every
    world it reaches, agents stored for two different sessions hold
    different adapter handles, and the environment is as at the start.
    Starting a session then leaves the agents of the other sessions in
    place; when it succeeds, the new agent holds a freshly built adapter
    handle, held by no other session, and the module global
    [kube_discovery_plugin], shared by all sessions, is overwritten with
    that handle. *)
Theorem sessions_hold_distinct_adapters
    (sdk : SDK) (sts : list app_ui.Step) (w0 : World) :
  user_session w0 = ∅ →
  vocab.serial None sts = true →
  let w := app_ui.world
             (app_ui.run_steps sdk sts {| app_ui.waiting := ∅; app_ui.world := w0 |}) in
  environ w = environ w0
  ∧ (∀ s1 s2 a1 a2 p1 p2,
       s1 ≠ s2 → user_session w !! s1 = Some a1 → user_session w !! s2 = Some a2 →
       p1 ∈ props.adapters a1 → p2 ∈ props.adapters a2 → mcp_id p1 ≠ mcp_id p2)
  ∧ (∀ evs, sts = app_ui.one_by_one evs → w = app_ui.run_host sdk evs w0)
  ∧ ∀ sid,
      let w' := snd (app_ui.start sdk sid w) in
      (∀ s, s ≠ sid → user_session w' !! s = user_session w !! s)
      ∧ (fst (app_ui.start sdk sid w) = Returned tt →
         ∃ a, user_session w' !! sid = Some a
              ∧ props.adapters a = [props.new_plugin w]
              ∧ kube_discovery_plugin w' = Some (props.new_plugin w)
              ∧ ∀ s a' p, s ≠ sid → user_session w !! s = Some a' →
                          p ∈ props.adapters a' → mcp_id p ≠ mcp_id (props.new_plugin w)).
Proof.
  intros Hempty Hserial w.
  assert (Hown : props.owned w).
  { destruct (run_steps_serial sdk sts None
                {| app_ui.waiting := ∅; app_ui.world := w0 |}) as (busy & Hinv & _);
      [|done|exact Hinv].
    split; [|by left]. split; cbn [app_ui.world].
    - intros sid a p. by rewrite Hempty, lookup_empty.
    - intros s1 s2 a1 a2 p1 p2 _. by rewrite Hempty, lookup_empty. }
  split_and!.
  - apply (run_steps_environ sdk sts).
  - apply Hown.
  - intros evs ->. subst w. by rewrite run_steps_one_by_one.
  - intros sid.
    destruct (start_cases sdk sid w)
      as [(e & w' & -> & [->|[->| ->]])|(_ & _ & ->)]; cbn [fst snd].
    + split; [done|discriminate].
    + split; [done|discriminate].
    + split; [done|discriminate].
    + split.
      * intros s Hs. cbn. by rewrite lookup_insert_ne.
      * intros _. eexists. cbn. rewrite lookup_insert_eq. split_and!; try done.
        intros s a' p Hs Ha' Hp. destruct Hown as [Hlt _].
        specialize (Hlt s a' p Ha' Hp). lia.
Qed.

(** Two sessions started in turn, a message being handled while the first
    start waits, hold the handles 0 and 1. *)
Lemma sessions_hold_distinct_adapters_witness :
  let w := app_ui.world (app_ui.run_steps examples.sdk_ok scenarios.starts_in_turn
                                          scenarios.loop_configured) in
  ∃ a1 a2 p1 p2,
    user_session w !! 1 = Some a1 ∧ user_session w !! 2 = Some a2
    ∧ props.adapters a1 = [p1] ∧ props.adapters a2 = [p2]
    ∧ mcp_id p1 ≠ mcp_id p2.
Proof.
  intros w.
  destruct (sessions_hold_distinct_adapters examples.sdk_ok scenarios.starts_in_turn
              examples.world_configured)
    as (_ & H & _); [reflexivity|reflexivity|].
  fold scenarios.loop_configured in H. fold w in H.
  eassert (H1 : user_session w !! 1 = Some _) by (vm_compute; reflexivity).
  eassert (H2 : user_session w !! 2 = Some _) by (vm_compute; reflexivity).
  eexists _, _, _, _. split_and!; [exact H1|exact H2|reflexivity|reflexivity|].
  apply (H 1 2 _ _ _ _ ltac:(discriminate) H1 H2); apply list_elem_of_singleton;
    reflexivity.
Defined.

(** C8: when the write to the report file fails with [e] (the directory
    having been made), [generate_cluster_summary(content, save_file=True)]
    does not return a confirmation: it prints the error and raises [e] to
    its caller, as the failure of that function call.  Should [e] then be
    what ends [agent.invoke], the message handler catches it and reports it
    to the user; it returns normally. *)
Theorem generate_cluster_summary_write_error
    (content : string) (w w1 w2 : World) (e : Py.exc) :
  let dir := app.REPORT_DIR (environ w) in
  let path := Os.path_join dir "cluster_summary.md" in
  Os.makedirs dir w = (Returned tt, w1) →
  Os.write_text path content w1 = (Raised e, w2) →
  app.generate_cluster_summary content true w
  = (Raised e,
     print ("Error writing to file " +:+ path +:+ ": " +:+ Py.str_exc e) w2)
  ∧ ∀ (sdk : SDK) (sid : nat) (msg : string) (wh : World)
      (agent : ChatCompletionAgent),
      user_session wh !! sid = Some agent →
      raised (agent_invoke sdk agent msg (fs wh)) = Some e →
      fst (app_ui.on_message sdk sid msg wh) = Returned tt
      ∧ outbox (snd (app_ui.on_message sdk sid msg wh))
        = outbox wh ++ [(sid, "❌ Error processing your request: " +:+ Py.str_exc e)].
Proof.
  intros dir path Hmk Hwr. split.
  - unfold app.generate_cluster_summary, bind, gets. fold dir. rewrite Hmk.
    fold path. by rewrite (write_to_file_md_raises path content w1 w2 e Hwr).
  - intros sdk sid msg wh agent Hagent He.
    destruct (on_message_never_raises sdk sid msg wh) as (Hret & _ & Hout).
    split; [exact Hret|]. by apply (Hout agent e).
Qed.

(** A read-only report file: the call raises the permission error. *)
Lemma generate_cluster_summary_write_error_witness :
  app.generate_cluster_summary "# report" true (examples.boot ∅ examples.fs_read_only)
  = (Raised (Py.OSError "[Errno 13] Permission denied: './ClusterReports/cluster_summary.md'"),
     print "Error writing to file ./ClusterReports/cluster_summary.md: [Errno 13] Permission denied: './ClusterReports/cluster_summary.md'"
           (examples.boot ∅ examples.fs_read_only)).
Proof.
  destruct (generate_cluster_summary_write_error "# report"
              (examples.boot ∅ examples.fs_read_only)
              (examples.boot ∅ examples.fs_read_only)
              (examples.boot ∅ examples.fs_read_only)
              (Py.OSError "[Errno 13] Permission denied: './ClusterReports/cluster_summary.md'"))
    as [H _]; [reflexivity|reflexivity|exact H].
Defined.

(** C9: with no agent stored for the session, [on_message] sends the fixed
    "Agent not initialized" message and returns: the agent is not invoked,
    nothing is raised, and the session store is as it was. *)
Theorem on_message_without_agent (sdk : SDK) (sid : nat) (content : string) (w : World) :
  user_session w !! sid = None →
  let w' := snd (app_ui.on_message sdk sid content w) in
  app_ui.on_message sdk sid content w
  = (Returned tt, send sid "❌ Agent not initialized. Please refresh the page." w)
  ∧ outbox w' = outbox w ++ [(sid, "❌ Agent not initialized. Please refresh the page.")]
  ∧ trace w' = trace w
  ∧ user_session w' = user_session w.
Proof.
  intros H w'. subst w'. by rewrite (on_message_no_agent sdk sid content w H).
Qed.

Lemma on_message_without_agent_witness :
  outbox (snd (app_ui.on_message examples.sdk_ok 7 "list namespaces"
                 examples.world_configured))
  = [(7, "❌ Agent not initialized. Please refresh the page.")].
Proof.
  apply (on_message_without_agent examples.sdk_ok 7 "list namespaces"
           examples.world_configured).
  reflexivity.
Defined.

(** C10, as stated, at a concrete input: the endpoint and the key are set
    in the environment and both arguments are empty strings, but [npx] is
    missing, and the creation call does not succeed. *)
Lemma empty_argument_is_absent_counterexample :
  props.configured None None examples.world_configured = true
  ∧ ¬ ∃ a w', app.create_kubernetes_discovery_agent examples.sdk_no_npx None None
                (Some "") (Some "") examples.world_configured
              = (Returned a, w').
Proof.
  split; [reflexivity|]. intros (a & w' & H). vm_compute in H. discriminate.
Qed.

(** C10 (amended): an empty-string argument behaves as an absent one: the
    two calls are the same call.  With both environment values non-empty,
    passing [""] for the endpoint and the key is the call with the
    configured values: it passes the configuration check, so that an
    exception that ends it is one raised by a call into the SDK; it
    succeeds exactly when none of these calls raises, and the agent it
    then returns has a completion service with the configured endpoint and
    key. *)
Theorem empty_argument_is_absent (sdk : SDK)
    (instructions deployment_name endpoint api_key : option string) (w : World) :
  let create := app.create_kubernetes_discovery_agent sdk in
  create instructions deployment_name (Some "") api_key w
  = create instructions deployment_name None api_key w
  ∧ create instructions deployment_name endpoint (Some "") w
    = create instructions deployment_name endpoint None w
  ∧ create (Some "") deployment_name endpoint api_key w
    = create None deployment_name endpoint api_key w
  ∧ create instructions (Some "") endpoint api_key w
    = create instructions None endpoint api_key w
  ∧ ∀ e k,
      environ w !! "AZURE_OPENAI_ENDPOINT" = Some e → e ≠ "" →
      environ w !! "AZURE_OPENAI_API_KEY" = Some k → k ≠ "" →
      let calls := props.sdk_calls instructions deployment_name (Some e) (Some k) w in
      create instructions deployment_name (Some "") (Some "") w
      = create instructions deployment_name (Some e) (Some k) w
      ∧ props.configured (Some "") (Some "") w = true
      ∧ (∀ ex w', create instructions deployment_name (Some "") (Some "") w
                  = (Raised ex, w') →
                  ∃ c, c ∈ calls ∧ sdk_raises sdk c = Some ex)
      ∧ ((∃ a w', create instructions deployment_name (Some "") (Some "") w
                  = (Returned a, w'))
         ↔ Forall (fun c => sdk_raises sdk c = None) calls)
      ∧ (∀ a w', create instructions deployment_name (Some "") (Some "") w
                 = (Returned a, w') →
                 svc_endpoint <$> services (agent_kernel a) = [Some e]
                 ∧ svc_api_key <$> services (agent_kernel a) = [Some k]).
Proof.
  intros create. subst create. split_and!; try reflexivity.
  intros e k He Hne Hk Hnk calls. subst calls.
  assert (Hc : props.configured (Some e) (Some k) w = true).
  { unfold props.configured, props.endpoint_of, props.api_key_of.
    rewrite !or_truthy by done. unfold Py.truthy, Py.truthy_str.
    by rewrite !bool_decide_eq_false_2. }
  assert (Heq : app.create_kubernetes_discovery_agent sdk instructions deployment_name
                  (Some "") (Some "") w
                = app.create_kubernetes_discovery_agent sdk instructions deployment_name
                    (Some e) (Some k) w).
  { unfold app.create_kubernetes_discovery_agent, app.create_until_await, bind, gets,
      Py.getenv.
    cbn beta iota. by rewrite He, Hk, !or_empty, !or_truthy. }
  rewrite Heq. split_and!.
  - done.
  - unfold props.configured, props.endpoint_of, props.api_key_of, Py.getenv.
    rewrite He, Hk, !or_empty. unfold Py.or_, Py.truthy, Py.truthy_str. cbn.
    by rewrite !bool_decide_eq_false_2.
  - intros ex w' H. apply (first_raise_Some sdk).
    pose proof (create_outcome sdk instructions deployment_name _ _ w Hc) as Hout.
    rewrite H in Hout. cbn [fst] in Hout.
    by destruct (props.first_raise sdk _); simplify_eq.
  - rewrite <- first_raise_None. split.
    + intros (a & w' & H). by destruct (create_returned_inv sdk _ _ _ _ _ _ _ H) as (? & ? & _).
    + intros Hn. rewrite (create_started sdk _ _ _ _ w Hc Hn). eauto.
  - intros a w' H. destruct (create_returned_inv sdk _ _ _ _ _ _ _ H) as (_ & _ & -> & _).
    cbn. unfold props.endpoint_of, props.api_key_of. by rewrite !or_truthy.
Qed.

Lemma empty_argument_is_absent_witness :
  ∃ a w', app.create_kubernetes_discovery_agent examples.sdk_ok None None
            (Some "") (Some "") examples.world_configured = (Returned a, w')
          ∧ svc_endpoint <$> services (agent_kernel a)
            = [Some "https://aks-agent.openai.azure.com/"]
          ∧ svc_api_key <$> services (agent_kernel a) = [Some "0123456789abcdef"].
Proof.
  destruct (empty_argument_is_absent examples.sdk_ok None None None None
              examples.world_configured) as (_ & _ & _ & _ & H).
  destruct (H "https://aks-agent.openai.azure.com/" "0123456789abcdef")
    as (_ & _ & _ & [_ Hok] & Hsvc); [reflexivity|discriminate|reflexivity|discriminate|].
  destruct Hok as (a & w' & Ha); [by repeat constructor|].
  exists a, w'. split; [exact Ha|]. exact (Hsvc a w' Ha).
Defined.

(** * Further properties of the code *)

(** ** Agent creation *)

Lemma truthy_nonempty (s : string) : s ≠ "" → Py.truthy (Some s) = true.
Proof.
  intros H. unfold Py.truthy, Py.truthy_str. by rewrite bool_decide_eq_false_2.
Qed.

Lemma configured_explicit (e k : string) (w : World) :
  e ≠ "" → k ≠ "" → props.configured (Some e) (Some k) w = true.
Proof.
  intros He Hk. unfold props.configured, props.endpoint_of, props.api_key_of.
  by rewrite !or_truthy, !truthy_nonempty.
Qed.

Lemma create_rejected (sdk : SDK)
    (instructions deployment_name endpoint api_key : option string)
    (w : World) (e : Py.exc) :
  props.configured endpoint api_key w = true →
  sdk_raises sdk NewKernel = None →
  sdk_raises sdk (NewAzureChatCompletion
                    (props.service_of deployment_name endpoint api_key w)) = Some e →
  app.create_kubernetes_discovery_agent sdk instructions deployment_name
                                        endpoint api_key w = (Raised e, w).
Proof.
  intros Hc Hk Hs. rewrite (create_cases sdk _ _ _ _ w Hc).
  unfold props.calls_before_start. by rewrite !first_raise_cons, Hk, Hs.
Qed.

(** X1: a non-empty endpoint and key passed as arguments are used whatever
    the environment holds: the call passes the configuration check and
    asks for a completion service with exactly the two arguments.  What
    the constructor of that service raises for them ends the call; an agent
    that is returned has that service.  The call succeeds exactly when none
    of its calls into the SDK raises. *)
Theorem explicit_arguments_override_environment (sdk : SDK)
    (instructions deployment_name : option string) (e k : string) (w : World) :
  e ≠ "" → k ≠ "" →
  let create :=
    app.create_kubernetes_discovery_agent sdk instructions deployment_name
                                          (Some e) (Some k) w in
  let service := props.service_of deployment_name (Some e) (Some k) w in
  props.configured (Some e) (Some k) w = true
  ∧ svc_endpoint service = Some e
  ∧ svc_api_key service = Some k
  ∧ (∀ ex, sdk_raises sdk NewKernel = None →
           sdk_raises sdk (NewAzureChatCompletion service) = Some ex →
           create = (Raised ex, w))
  ∧ (∀ a w', create = (Returned a, w') →
             services (agent_kernel a) = [service])
  ∧ ((∃ a w', create = (Returned a, w'))
     ↔ Forall (fun c => sdk_raises sdk c = None)
              (props.sdk_calls instructions deployment_name (Some e) (Some k) w)).
Proof.
  intros He Hk create service. subst create service.
  pose proof (configured_explicit e k w He Hk) as Hc. split_and!.
  - exact Hc.
  - cbn. unfold props.endpoint_of. by rewrite or_truthy.
  - cbn. unfold props.api_key_of. by rewrite or_truthy.
  - intros ex Hkernel Hsvc. by apply create_rejected.
  - intros a w' H. by destruct (create_returned_inv sdk _ _ _ _ _ _ _ H) as (_ & _ & -> & _).
  - rewrite <- first_raise_None. split.
    + intros (a & w' & H). by destruct (create_returned_inv sdk _ _ _ _ _ _ _ H) as (? & ? & _).
    + intros Hn. rewrite (create_started sdk _ _ _ _ w Hc Hn). eauto.
Qed.

Lemma explicit_arguments_override_environment_witness :
  ∃ a w', app.create_kubernetes_discovery_agent examples.sdk_ok None None
            (Some "https://other.openai.azure.com/") (Some "k3y")
            examples.world_unconfigured = (Returned a, w')
          ∧ svc_endpoint <$> services (agent_kernel a)
            = [Some "https://other.openai.azure.com/"]
          ∧ svc_api_key <$> services (agent_kernel a) = [Some "k3y"].
Proof.
  destruct (explicit_arguments_override_environment examples.sdk_ok None None
              "https://other.openai.azure.com/" "k3y" examples.world_unconfigured)
    as (_ & _ & _ & _ & Hsvc & [_ Hok]); [discriminate|discriminate|].
  destruct Hok as (a & w' & Ha); [by repeat constructor|].
  exists a, w'. split; [exact Ha|]. by rewrite (Hsvc a w' Ha).
Defined.

(** X2: the deployment name the completion service is asked for is the
    argument when that is non-empty; otherwise the value of
    AZURE_OPENAI_DEPLOYMENT_NAME when the variable is set -- also when it is
    set to the empty string -- and "gpt-4o-standard" only when it is unset.
    The API version is the value of AZURE_OPENAI_API_VERSION when set, else
    "2024-02-01".  An agent that is returned has exactly this service; when
    the constructor of the service raises for these arguments, the call
    ends with its exception, and no plugin is built. *)
Theorem deployment_name_resolution (sdk : SDK)
    (instructions deployment_name endpoint api_key : option string)
    (w : World) (name : string) :
  let create :=
    app.create_kubernetes_discovery_agent sdk instructions deployment_name
                                          endpoint api_key w in
  let absent := deployment_name = None ∨ deployment_name = Some "" in
  let service :=
    {| service_id := "default"; svc_deployment_name := Some name;
       svc_endpoint := props.endpoint_of endpoint w;
       svc_api_key := props.api_key_of api_key w;
       svc_api_version :=
         Some (default "2024-02-01" (environ w !! "AZURE_OPENAI_API_VERSION")) |} in
  (deployment_name = Some name ∧ name ≠ "")
  ∨ (absent ∧ environ w !! "AZURE_OPENAI_DEPLOYMENT_NAME" = Some name)
  ∨ (absent ∧ environ w !! "AZURE_OPENAI_DEPLOYMENT_NAME" = None
     ∧ name = "gpt-4o-standard") →
  (∀ a w', create = (Returned a, w') → services (agent_kernel a) = [service])
  ∧ (∀ ex, props.configured endpoint api_key w = true →
           sdk_raises sdk NewKernel = None →
           sdk_raises sdk (NewAzureChatCompletion service) = Some ex →
           create = (Raised ex, w)).
Proof.
  intros create absent service Hname. subst create absent.
  assert (Hsvc : props.service_of deployment_name endpoint api_key w = service).
  { subst service. unfold props.service_of, Py.getenv_default. f_equal.
    destruct Hname as [[-> Hne]|[[[->| ->] ->]|[[->| ->] [-> ->]]]];
      try reflexivity. by rewrite or_truthy. }
  split.
  - intros a w' H. destruct (create_returned_inv sdk _ _ _ _ _ _ _ H) as (_ & _ & -> & _).
    cbn. by rewrite Hsvc.
  - intros ex Hc Hk Hs. apply create_rejected; [done..|]. by rewrite Hsvc.
Qed.

(** AZURE_OPENAI_DEPLOYMENT_NAME set to the empty string, with an SDK whose
    constructor wants a deployment name: the call ends there. *)
Lemma deployment_name_resolution_witness :
  let w := examples.boot (<["AZURE_OPENAI_DEPLOYMENT_NAME" := ""]> examples.env_configured)
                         examples.fs_empty in
  ∃ e, sdk_raises examples.sdk_strict
         (NewAzureChatCompletion (props.service_of None None None w)) = Some e
       ∧ svc_deployment_name (props.service_of None None None w) = Some ""
       ∧ app.create_kubernetes_discovery_agent examples.sdk_strict None None None None w
         = (Raised e, w).
Proof.
  intros w.
  destruct (deployment_name_resolution examples.sdk_strict None None None None w "")
    as [_ H]; [right; left; split; [by left|reflexivity]|].
  eexists. split; [reflexivity|]. split; [reflexivity|].
  apply H; reflexivity.
Defined.

(** X3: the adapter a created agent holds is the plugin object the module
    global refers to, and it is the one that was built, entered and started
    last; the agent has it registered as "kubernetes_discovery_plugin",
    before the report plugin "cluster_report_plugin". *)
Theorem created_agent_holds_started_adapter (sdk : SDK)
    (instructions deployment_name endpoint api_key : option string)
    (w w' : World) (a : ChatCompletionAgent) :
  app.create_kubernetes_discovery_agent sdk instructions deployment_name
                                        endpoint api_key w = (Returned a, w') →
  ∃ p, plugins (agent_kernel a)
       = [("kubernetes_discovery_plugin", KubePlugin p);
          ("cluster_report_plugin", ClusterReportPlugin)]
       ∧ kube_discovery_plugin w' = Some p
       ∧ mcp_id p = next_id w
       ∧ next_id w' = S (next_id w)
       ∧ trace w' = trace w ++ [EvInit (mcp_id p); EvEnter (mcp_id p);
                                EvStarted (mcp_id p)]
       ∧ (mcp_command p, mcp_args p) = ("npx", ["mcp-server-kubernetes"]).
Proof.
  intros H. destruct (create_returned_inv sdk _ _ _ _ _ _ _ H) as (_ & _ & -> & ->).
  exists (props.new_plugin w). cbn.
  split_and!; try reflexivity. by rewrite <- !app_assoc.
Qed.

Lemma created_agent_holds_started_adapter_witness :
  ∃ a w' p,
    app.create_kubernetes_discovery_agent examples.sdk_ok None None None None
      examples.world_configured = (Returned a, w')
    ∧ kube_discovery_plugin w' = Some p
    ∧ trace w' = [EvInit 0; EvEnter 0; EvStarted 0].
Proof.
  eassert (H : app.create_kubernetes_discovery_agent examples.sdk_ok None None None None
                 examples.world_configured = (Returned _, _))
    by (vm_compute; reflexivity).
  destruct (created_agent_holds_started_adapter _ _ _ _ _ _ _ _ H)
    as (p & _ & Hg & Hid & _ & Ht & _).
  eexists _, _, p. split; [exact H|]. split; [exact Hg|].
  rewrite Ht, Hid. reflexivity.
Defined.

(** X4: a failed adapter start is not undone.  When the configuration is
    present, the calls into the SDK before it go through and [__aenter__]
    raises, the creation call raises that exception, yet the module global
    already refers to the plugin that never started (the previous value is
    lost) and the plugin has been built and entered. *)
Theorem failed_start_leaves_global_set (sdk : SDK)
    (instructions deployment_name endpoint api_key : option string)
    (w : World) (e : Py.exc) :
  props.configured endpoint api_key w = true →
  Forall (fun c => sdk_raises sdk c = None)
         (props.calls_before_start deployment_name endpoint api_key w) →
  sdk_raises sdk (AEnter (props.new_plugin w)) = Some e →
  let r := app.create_kubernetes_discovery_agent sdk instructions deployment_name
                                                 endpoint api_key w in
  fst r = Raised e
  ∧ kube_discovery_plugin (snd r) = Some (props.new_plugin w)
  ∧ trace (snd r) = trace w ++ [EvInit (next_id w); EvEnter (next_id w)]
  ∧ next_id (snd r) = S (next_id w)
  ∧ user_session (snd r) = user_session w.
Proof.
  intros Hc Hb%first_raise_None Hs r. subst r.
  rewrite (create_launch_failed sdk _ _ _ _ w e Hc Hb Hs).
  cbn. split_and!; try reflexivity. by rewrite <- app_assoc.
Qed.

Lemma failed_start_leaves_global_set_witness :
  kube_discovery_plugin
    (snd (app.create_kubernetes_discovery_agent examples.sdk_no_npx None None None None
            examples.world_configured))
  = Some (props.new_plugin examples.world_configured).
Proof.
  apply (failed_start_leaves_global_set examples.sdk_no_npx None None None None
           examples.world_configured (Py.SdkError "Failed to connect to MCP server"));
    [reflexivity|by repeat constructor|reflexivity].
Defined.

(** X5: whatever its outcome, the creation call touches neither the file
    system, nor standard output, nor the session store, nor the outbox, nor
    the environment; and it never calls [__aexit__] or [invoke]. *)
Theorem create_frame (sdk : SDK)
    (instructions deployment_name endpoint api_key : option string) (w : World) :
  let w' := snd (app.create_kubernetes_discovery_agent sdk instructions deployment_name
                                                       endpoint api_key w) in
  environ w' = environ w ∧ fs w' = fs w ∧ stdout w' = stdout w
  ∧ user_session w' = user_session w ∧ outbox w' = outbox w
  ∧ ∃ evs, trace w' = trace w ++ evs
           ∧ Forall (fun ev => ∃ h, ev = EvInit h ∨ ev = EvEnter h ∨ ev = EvStarted h) evs.
Proof.
  intros w'. subst w'.
  destruct (create_ends sdk instructions deployment_name endpoint api_key w)
    as [(e & w' & -> & [->|[->| ->]])|(_ & _ & ->)]; cbn;
    (split_and!; try reflexivity).
  - exists []. split; [by rewrite app_nil_r|constructor].
  - exists [EvInit (next_id w); EvEnter (next_id w)].
    split; [by rewrite <- app_assoc|]. repeat constructor; eauto.
  - exists [EvInit (next_id w); EvEnter (next_id w); EvStarted (next_id w)].
    split; [by rewrite <- !app_assoc|]. repeat constructor; eauto.
  - exists [EvInit (next_id w); EvEnter (next_id w); EvStarted (next_id w)].
    split; [by rewrite <- !app_assoc|]. repeat constructor; eauto.
Qed.

(** ** The report sink *)

(** Every way a call with [save_file=True] can end: [os.makedirs] raised;
    the write raised before the file was touched; or a file -- empty when
    the write raised later -- stands where the report path points. *)
Lemma generate_save_cases (content : string) (w : World) :
  ∃ f1, props.grown (fs w) f1
        ∧ ((∃ e, Os.makedirs (app.REPORT_DIR (environ w)) w = (Raised e, set_fs f1 w)
                 ∧ app.generate_cluster_summary content true w = (Raised e, set_fs f1 w))
           ∨ (∃ e line, app.generate_cluster_summary content true w
                        = (Raised e, print line (set_fs f1 w)))
           ∨ (∃ t c r line,
                Os.locate f1 (vocab.report_path w) = Os.At t
                ∧ Os.node_at f1 t ≠ Some Dir
                ∧ app.generate_cluster_summary content true w
                  = (r, print line (set_fs (Os.store t c f1) w)))).
Proof.
  unfold app.generate_cluster_summary, bind, gets, vocab.report_path.
  set (dir := app.REPORT_DIR (environ w)).
  set (path := Os.path_join dir "cluster_summary.md").
  destruct (makedirs_spec dir w) as (f1 & Hs & Hg & _).
  exists f1. split; [exact Hg|].
  destruct (Os.makedirs dir w) as [[[]|e] w1]; cbn [snd] in Hs; subst w1;
    [|left; eauto].
  unfold util.write_to_file_md, try_except, bind, modify, ret, raise.
  destruct (write_text_cases path content (set_fs f1 w))
    as [[e ->]|(t & Hloc & Hnd & _ & _ & _ & [[e ->]|[_ ->]])].
  - right; left. eauto.
  - right; right. exists t, "". eexists _, _. split_and!; [done..|].
    by rewrite set_fs_set_fs.
  - right; right. exists t, content. eexists _, _. split_and!; [done..|].
    by rewrite set_fs_set_fs.
Qed.

(** X6: writing the report changes nothing but the report and directories
    that were missing.  Whatever its arguments and its outcome, after
    [generate_cluster_summary] every location of the file system holds what
    it held before, or a directory where nothing was, or -- at the location
    the report path names, where no directory was -- a file.  The call
    prints at most one line, and touches neither the environment, the
    module global, the sessions, the outbox nor the trace. *)
Theorem generate_cluster_summary_frame (content : string) (save_file : bool) (w : World) :
  let w' := snd (app.generate_cluster_summary content save_file w) in
  (∀ t, Os.node_at (fs w') t = Os.node_at (fs w) t
        ∨ (Os.node_at (fs w) t = None ∧ Os.node_at (fs w') t = Some Dir)
        ∨ (Os.locate (fs w') (vocab.report_path w) = Os.At t
           ∧ Os.node_at (fs w) t ≠ Some Dir
           ∧ ∃ c, Os.node_at (fs w') t = Some (File c)))
  ∧ (∃ lines, stdout w' = stdout w ++ lines ∧ length lines ≤ 1)
  ∧ environ w' = environ w ∧ kube_discovery_plugin w' = kube_discovery_plugin w
  ∧ next_id w' = next_id w ∧ trace w' = trace w
  ∧ user_session w' = user_session w ∧ outbox w' = outbox w.
Proof.
  intros w'. subst w'. destruct save_file.
  2:{ cbn. repeat apply conj; auto. exists []. split; [by rewrite app_nil_r|cbn; lia]. }
  destruct (generate_save_cases content w)
    as (f1 & (_ & _ & _ & Hg)
        & [(e & _ & ->)|[(e & line & ->)|(t & c & r & line & Hloc & Hnd & ->)]]);
    cbn [snd print set_fs fs stdout environ kube_discovery_plugin next_id trace
         user_session outbox].
  - repeat apply conj; try done.
    + intros t. destruct (Hg t); auto.
    + exists []. split; [by rewrite app_nil_r|cbn; lia].
  - repeat apply conj; try done.
    + intros t. destruct (Hg t); auto.
    + eexists [_]. split; [reflexivity|cbn; lia].
  - repeat apply conj; try done.
    + intros t0. rewrite node_at_store by done.
      destruct (decide (t0 = t)) as [->|_]; [|destruct (Hg t0); auto].
      right; right. split_and!; [by apply locate_store| |by eexists].
      destruct (Hg t) as [<-|[-> _]]; done.
    + eexists [_]. split; [reflexivity|cbn; lia].
Qed.

Lemma steps_snoc (path : string) :
  Os.dir_form path = false →
  ∃ done_ name upto,
    Os.steps path = done_ ++ [(name, upto)]
    ∧ done_.*1 = removelast (Os.components path)
    ∧ last (Os.components path) = Some name
    ∧ name ≠ "." ∧ name ≠ "..".
Proof.
  unfold Os.dir_form. rewrite <- steps_names.
  destruct (Os.steps path) as [|[name upto] done_ _] using rev_ind; [done|].
  rewrite fmap_app. cbn [fmap list_fmap fst]. rewrite last_snoc, removelast_last.
  intros [H1%bool_decide_eq_false H2%bool_decide_eq_false]%orb_false_elim.
  exists done_, name, upto. by split_and!.
Qed.

(** A regular file where the directory should be *)
Lemma makedirs_file_in_the_way (dir content : string) (t : list string) (w : World) :
  dir ≠ "" → Os.dir_form dir = false →
  Os.locate (fs w) dir = Os.At t →
  Os.node_at (fs w) t = Some (File content) →
  Os.makedirs dir w = (Raised (Os.EEXIST dir), w).
Proof.
  intros Hne Hform Hloc Hnode. unfold Os.makedirs, Os.nonempty.
  rewrite bool_decide_eq_false_2 by done. cbn [negb].
  destruct (steps_snoc dir Hform) as (done_ & name & upto & -> & Hd & Hl & H1 & H2).
  unfold Os.locate in Hloc. rewrite Hl in Hloc.
  destruct (Os.walk (fs w) _ _) as [d| |] eqn:Hwalk; [|done..].
  injection Hloc as <-.
  rewrite (makedirs_from_walk dir done_ _ _ d w) by (by rewrite Hd).
  cbn [Os.makedirs_from]. rewrite !bool_decide_eq_false_2 by done.
  by rewrite Hnode.
Qed.

(** X7: when REPORT_DIR cannot be made, the report is not written and
    nothing is printed: [generate_cluster_summary(content, True)] raises
    the error of [os.makedirs] and leaves the world as [os.makedirs] left
    it -- with the directories it had made before it failed, and nothing
    else changed.  [os.makedirs] raises, and makes nothing, when REPORT_DIR
    is set to the empty string, and when a regular file stands where the
    directory should be. *)
Theorem unusable_report_dir_raises (content : string) (w : World) :
  let dir := app.REPORT_DIR (environ w) in
  (∀ e w1, Os.makedirs dir w = (Raised e, w1) →
           app.generate_cluster_summary content true w = (Raised e, w1)
           ∧ w1 = set_fs (fs w1) w
           ∧ props.grown (fs w) (fs w1))
  ∧ (environ w !! "REPORT_DIR" = Some "" →
     Os.makedirs dir w
     = (Raised (Py.OSError "[Errno 2] No such file or directory: ''"), w))
  ∧ (∀ t c, dir ≠ "" → Os.dir_form dir = false →
            Os.locate (fs w) dir = Os.At t →
            Os.node_at (fs w) t = Some (File c) →
            Os.makedirs dir w
            = (Raised (Py.OSError ("[Errno 17] File exists: '" +:+ dir +:+ "'")), w)).
Proof.
  intros dir. split_and!.
  - intros e w1 Hmk.
    destruct (makedirs_spec dir w) as (f1 & Hs & Hg & _). rewrite Hmk in Hs.
    cbn [snd] in Hs. subst w1. split_and!; [|done..].
    unfold app.generate_cluster_summary, bind, gets. fold dir. by rewrite Hmk.
  - intros H. subst dir. unfold app.REPORT_DIR. rewrite H. reflexivity.
  - intros t c Hne Hform Hloc Hnode. by apply (makedirs_file_in_the_way dir c t).
Qed.

(** The default report directory with a regular file [ClusterReports] in
    the working directory *)
Lemma unusable_report_dir_raises_witness :
  app.generate_cluster_summary "# report" true scenarios.world_file_in_the_way
  = (Raised (Py.OSError "[Errno 17] File exists: './ClusterReports/'"),
     scenarios.world_file_in_the_way).
Proof.
  destruct (unusable_report_dir_raises "# report" scenarios.world_file_in_the_way)
    as (H & _ & Hfile).
  apply H. apply (Hfile ["app"; "ClusterReports"] "notes"); [discriminate|reflexivity..].
Defined.

(** [REPORT_DIR=] in the environment: nothing to make, nothing made *)
Lemma makedirs_empty_report_dir :
  app.generate_cluster_summary "# report" true scenarios.world_empty_report_dir
  = (Raised (Py.OSError "[Errno 2] No such file or directory: ''"),
     scenarios.world_empty_report_dir).
Proof. reflexivity. Qed.

(** [REPORT_DIR=out/reports] on a medium that refuses the second
    directory: [out] is made, and stays. *)
Lemma makedirs_half_made :
  ∃ e w1, app.generate_cluster_summary "# report" true scenarios.world_half_made
          = (Raised e, w1)
          ∧ Os.node_at (fs w1) ["app"; "out"] = Some Dir
          ∧ Os.node_at (fs w1) ["app"; "out"; "reports"] = None
          ∧ stdout w1 = [].
Proof. eexists _, _. split_and!; by vm_compute. Qed.

(** X8: [write_to_file_md] neither swallows nor changes the outcome of the
    write: it returns when the write returns and raises the same exception
    when the write raises, leaves the file system as the write left it, and
    prints exactly one line -- the success line or the error line with the
    exception's text. *)
Theorem write_to_file_md_reports_and_reraises (file_path content : string) (w : World) :
  let r := util.write_to_file_md file_path content w in
  let u := Os.write_text file_path content w in
  fst r = fst u
  ∧ fs (snd r) = fs (snd u)
  ∧ stdout (snd r)
    = stdout w
      ++ [match fst u with
          | Returned _ => "Successfully wrote content to " +:+ file_path
          | Raised e => "Error writing to file " +:+ file_path +:+ ": " +:+ Py.str_exc e
          end].
Proof.
  intros r u. subst r u.
  unfold util.write_to_file_md, try_except, bind, modify, raise.
  destruct (write_text_cases file_path content w)
    as [[e ->]|(t & _ & _ & _ & _ & _ & [[e ->]|[_ ->]])];
    cbn; by split_and!.
Qed.

Lemma path_join_report (a : string) :
  Os.path_join a "cluster_summary.md"
  = if bool_decide (a = "") || Os.ends_with_sep a
    then a +:+ "cluster_summary.md" else a +:+ "/" +:+ "cluster_summary.md".
Proof. reflexivity. Qed.

Lemma ends_with_sep_snoc (d : string) : Os.ends_with_sep (d +:+ "/") = true.
Proof.
  induction d as [|c d IH]; [reflexivity|].
  rewrite append_cons. cbn [Os.ends_with_sep].
  destruct (d +:+ "/") eqn:E; [by destruct d|]. exact IH.
Qed.

(** X9: a trailing slash on REPORT_DIR does not change the report path: the
    report file for a non-empty REPORT_DIR [d] that does not end in "/" is
    the report file for [d/], namely [d/cluster_summary.md]. *)
Theorem report_path_trailing_slash (d : string) (w1 w2 : World) :
  d ≠ "" → Os.ends_with_sep d = false →
  environ w1 !! "REPORT_DIR" = Some d →
  environ w2 !! "REPORT_DIR" = Some (d +:+ "/") →
  vocab.report_path w1 = d +:+ "/cluster_summary.md"
  ∧ vocab.report_path w2 = vocab.report_path w1.
Proof.
  intros Hne Hsep H1 H2. unfold vocab.report_path, app.REPORT_DIR.
  rewrite H1, H2. cbn [default from_option]. unfold id. rewrite !path_join_report.
  rewrite ends_with_sep_snoc, Hsep, orb_true_r, orb_false_r.
  rewrite bool_decide_eq_false_2 by done.
  split; [reflexivity|]. by rewrite append_assoc.
Qed.

Lemma report_path_trailing_slash_witness :
  vocab.report_path (examples.boot (<["REPORT_DIR" := "out/"]> ∅) examples.fs_empty)
  = vocab.report_path (examples.boot (<["REPORT_DIR" := "out"]> ∅) examples.fs_empty).
Proof.
  apply (report_path_trailing_slash "out"); [discriminate|reflexivity..].
Defined.

(** ** The session host *)

(** X10: handling a message changes nothing of the process but what the
    agent's run does to the file system and standard output: the session
    store, the module global, the environment and the object counter are as
    before, exactly one message is sent, to the session the message came
    from, and the trace gains at most the one [invoke] call, carrying the
    user's text unchanged. *)
Theorem on_message_frame (sdk : SDK) (sid : nat) (content : string) (w : World) :
  let w' := snd (app_ui.on_message sdk sid content w) in
  user_session w' = user_session w
  ∧ kube_discovery_plugin w' = kube_discovery_plugin w
  ∧ environ w' = environ w
  ∧ next_id w' = next_id w
  ∧ (∃ text, outbox w' = outbox w ++ [(sid, text)])
  ∧ trace w' = trace w ++ match user_session w !! sid with
                          | Some _ => [EvInvoke content]
                          | None => []
                          end.
Proof. apply on_message_world. Qed.

(** X11: when the creation call fails at the start of a chat, the handler
    raises, stores no agent and sends no welcome; the first message of that
    session is then answered with the "Agent not initialized" notice, and
    the agent is never invoked. *)
Theorem failed_start_then_message (sdk : SDK) (sid : nat) (content : string)
    (w : World) (e : Py.exc) :
  user_session w !! sid = None →
  fst (app_ui.start sdk sid w) = Raised e →
  let w1 := snd (app_ui.start sdk sid w) in
  let w2 := app_ui.run_host sdk [app_ui.ChatStart sid; app_ui.UserMessage sid content] w in
  user_session w1 !! sid = None
  ∧ outbox w1 = outbox w
  ∧ outbox w2 = outbox w ++ [(sid, "❌ Agent not initialized. Please refresh the page.")]
  ∧ trace w2 = trace w1.
Proof.
  intros Hnone Hfail w1 w2. subst w1 w2.
  rewrite !run_host_cons. cbn [app_ui.run_host fold_left app_ui.dispatch].
  destruct (start_cases sdk sid w)
    as [(e' & w' & Hs & Hw')|(_ & _ & Hs)];
    rewrite Hs in Hfail |- *; cbn [fst snd] in *; [|discriminate].
  assert (Hsess : user_session w' = user_session w)
    by (by destruct Hw' as [->|[->| ->]]).
  assert (Hout : outbox w' = outbox w) by (by destruct Hw' as [->|[->| ->]]).
  assert (Hnone' : user_session w' !! sid = None) by (by rewrite Hsess).
  rewrite (on_message_no_agent sdk sid content w' Hnone'). cbn.
  by rewrite Hout.
Qed.

Lemma failed_start_then_message_witness :
  outbox (app_ui.run_host examples.sdk_no_npx
            [app_ui.ChatStart 3; app_ui.UserMessage 3 "list pods"]
            examples.world_configured)
  = [(3, "❌ Agent not initialized. Please refresh the page.")].
Proof.
  apply (failed_start_then_message examples.sdk_no_npx 3 "list pods"
           examples.world_configured (Py.SdkError "Failed to connect to MCP server"));
    reflexivity.
Defined.

(** X12: when the creation call succeeds at the start of a chat, the
    session receives the welcome text and then, for its first message, one
    reply: the outcome of invoking the agent just stored with the user's
    text, on the file system as it was. *)
Theorem started_session_answers (sdk : SDK) (sid : nat) (content : string) (w : World) :
  fst (app_ui.start sdk sid w) = Returned tt →
  let w2 := app_ui.run_host sdk [app_ui.ChatStart sid; app_ui.UserMessage sid content] w in
  ∃ a, user_session w2 !! sid = Some a
       ∧ props.adapters a = [props.new_plugin w]
       ∧ outbox w2
         = outbox w
           ++ [(sid, app_ui.welcome_msg);
               (sid, props.reply_of (agent_invoke sdk a content (fs w)))]
       ∧ trace w2
         = trace w ++ [EvInit (next_id w); EvEnter (next_id w);
                       EvStarted (next_id w); EvInvoke content].
Proof.
  intros Hok w2. subst w2.
  rewrite !run_host_cons. cbn [app_ui.run_host fold_left app_ui.dispatch].
  destruct (start_cases sdk sid w)
    as [(e' & w' & Hs & Hw')|(_ & _ & Hs)];
    rewrite Hs in Hok |- *; cbn [fst snd] in *; [discriminate|].
  exists (props.agent_of None None None None w).
  set (w1 := send sid app_ui.welcome_msg _).
  assert (Hagent : user_session w1 !! sid = Some (props.agent_of None None None None w))
    by (subst w1; cbn; apply lookup_insert_eq).
  rewrite (on_message_agent sdk sid content w1 _ Hagent). cbn [snd].
  destruct (invoke_frame sdk (props.agent_of None None None None w) content w1)
    as (_ & _ & _ & Ht & Hu & Ho).
  cbn [send user_session outbox trace]. rewrite Hu, Ho, Ht.
  split_and!; [exact Hagent|reflexivity|..];
    subst w1; cbn; by rewrite <- ?app_assoc.
Qed.

Lemma started_session_answers_witness :
  outbox (app_ui.run_host examples.sdk_ok
            [app_ui.ChatStart 3; app_ui.UserMessage 3 "say hello"]
            examples.world_configured)
  = [(3, app_ui.welcome_msg); (3, "Hello, world!")].
Proof.
  destruct (started_session_answers examples.sdk_ok 3 "say hello"
              examples.world_configured) as (a & _ & _ & H & _); [reflexivity|].
  exact H.
Defined.

(** X13: adapter subprocesses are never reused.  With the configuration
    present and an SDK none of whose calls raises, every chat start -- also
    a second one in the same session -- builds and starts one more adapter:
    after a run of the host, the number of started adapters and the object
    counter have both grown by the number of chat starts in the run. *)
Theorem one_adapter_per_chat_start (sdk : SDK) (evs : list app_ui.HostEvent) (w : World) :
  (∀ c, sdk_raises sdk c = None) →
  props.configured None None w = true →
  let w' := app_ui.run_host sdk evs w in
  length (List.filter vocab.is_started (trace w'))
  = length (List.filter vocab.is_started (trace w))
    + length (List.filter vocab.is_chat_start evs)
  ∧ next_id w' = next_id w + length (List.filter vocab.is_chat_start evs).
Proof.
  intros Hstart. revert w. induction evs as [|ev evs IH]; intros w Hc.
  { cbn. lia. }
  cbn zeta. rewrite run_host_cons.
  assert (Hc' : props.configured None None (app_ui.dispatch sdk ev w) = true).
  { rewrite <- Hc. apply configured_environ. apply (dispatch_frame sdk ev w). }
  destruct (IH _ Hc') as [-> ->]. clear IH Hc'.
  destruct ev as [sid|sid content|sid]; cbn [app_ui.dispatch List.filter vocab.is_chat_start].
  - unfold app_ui.start, bind.
    rewrite (create_started sdk None None None None w Hc (first_raise_never sdk _ Hstart)).
    cbn [snd modify send session_set log trace next_id props.started props.entered
         set_global bump_id].
    rewrite !List.filter_app, !length_app. cbn. lia.
  - destruct (on_message_world sdk sid content w) as (_ & _ & _ & -> & _ & ->).
    rewrite List.filter_app, length_app.
    destruct (user_session w !! sid); cbn; lia.
  - lia.
Qed.

Lemma one_adapter_per_chat_start_witness :
  length (List.filter vocab.is_started
            (trace (app_ui.run_host examples.sdk_ok
                      [app_ui.ChatStart 1; app_ui.UserMessage 1 "hi"; app_ui.ChatStart 1;
                       app_ui.ChatEnd 1; app_ui.ChatStart 2]
                      examples.world_configured)))
  = 3.
Proof.
  apply (one_adapter_per_chat_start examples.sdk_ok
           [app_ui.ChatStart 1; app_ui.UserMessage 1 "hi"; app_ui.ChatStart 1;
            app_ui.ChatEnd 1; app_ui.ChatStart 2]
           examples.world_configured); reflexivity.
Defined.

Lemma dispatch_outbox (sdk : SDK) (ev : app_ui.HostEvent) (w : World) :
  ∃ sent, outbox (app_ui.dispatch sdk ev w) = outbox w ++ sent
          ∧ length sent ≤ 1
          ∧ ∀ m, m ∈ sent → m.1 = vocab.session_of ev.
Proof.
  destruct ev as [sid|sid content|sid]; cbn [app_ui.dispatch vocab.session_of].
  - destruct (start_cases sdk sid w)
      as [(e & w' & -> & Hw')|(_ & _ & ->)]; cbn [snd].
    + exists []. rewrite app_nil_r. split_and!; [|cbn; lia|by intros m ?%elem_of_nil].
      by destruct Hw' as [->|[->| ->]].
    + eexists [_]. cbn. split_and!; [done|lia|].
      by intros m ->%list_elem_of_singleton.
  - destruct (on_message_world sdk sid content w) as (_ & _ & _ & _ & [text ->] & _).
    exists [(sid, text)]. split_and!; [done|cbn; lia|].
    by intros m ->%list_elem_of_singleton.
  - exists []. rewrite app_nil_r. split_and!; [done|cbn; lia|]. by intros m ?%elem_of_nil.
Qed.

(** X14: the host only ever adds to the outbox, at most one message per
    event, and every message it adds is addressed to the session of one of
    the events handled: a session gets no message on behalf of another, and
    messages already sent are never altered. *)
Theorem messages_go_to_the_session_of_their_event
    (sdk : SDK) (evs : list app_ui.HostEvent) (w : World) :
  ∃ sent, outbox (app_ui.run_host sdk evs w) = outbox w ++ sent
          ∧ length sent ≤ length evs
          ∧ ∀ m, m ∈ sent → ∃ ev, ev ∈ evs ∧ vocab.session_of ev = m.1.
Proof.
  revert w. induction evs as [|ev evs IH]; intros w.
  { exists []. rewrite app_nil_r. split_and!; [done|done|]. by intros m ?%elem_of_nil. }
  rewrite run_host_cons.
  destruct (dispatch_outbox sdk ev w) as (s1 & H1 & L1 & A1).
  destruct (IH (app_ui.dispatch sdk ev w)) as (s2 & H2 & L2 & A2).
  exists (s1 ++ s2). rewrite H2, H1, <- app_assoc. split_and!; [done| |].
  - rewrite length_app. cbn. lia.
  - intros m [Hm|Hm]%elem_of_app.
    + exists ev. split; [apply list_elem_of_here|]. by rewrite (A1 m Hm).
    + destruct (A2 m Hm) as (ev' & Hev & Hs). exists ev'. split; [|done].
      by apply list_elem_of_further.
Qed.

Lemma joined_app (l1 l2 : list Py.val) :
  props.joined (l1 ++ l2) = props.joined l1 +:+ props.joined l2.
Proof.
  unfold props.joined. induction l1 as [|r l1 IH]; [reflexivity|].
  cbn [app fmap list_fmap foldr] in *. by rewrite IH, append_assoc.
Qed.

(** X15: accumulation is compositional: the text accumulated over a stream
    split in two is the text of the first part followed by the text of the
    second; fragments whose text is empty can be dropped anywhere. *)
Theorem accumulate_app (l1 l2 : list Py.val) :
  app_ui.accumulate (l1 ++ l2) = app_ui.accumulate l1 +:+ app_ui.accumulate l2
  ∧ ∀ r, app_ui.fragment_text r = "" →
         app_ui.accumulate (l1 ++ r :: l2) = app_ui.accumulate (l1 ++ l2).
Proof.
  rewrite !accumulate_joined. split; [apply joined_app|].
  intros r Hr. rewrite !accumulate_joined, !joined_app.
  change (props.joined (r :: l2)) with (app_ui.fragment_text r +:+ props.joined l2).
  by rewrite Hr.
Qed.

(** X16: a streamed item without text adds nothing to the reply.  An item
    whose message has the empty text contributes the empty text; a stream
    made of such items only, ending without an exception, is answered with
    the "No response received from the agent." notice. *)
Theorem textless_stream_gets_notice (frags : list Py.val) :
  (∀ frag c, Py.getattr frag "content" = Some c →
             Py.getattr c "content" = Some (Py.Str "") →
             app_ui.fragment_text frag = "")
  ∧ (Forall (fun frag => app_ui.fragment_text frag = "") frags →
     app_ui.accumulate frags = ""
     ∧ ∀ (sdk : SDK) (sid : nat) (content : string) (w : World)
         (agent : ChatCompletionAgent),
         user_session w !! sid = Some agent →
         raised (agent_invoke sdk agent content (fs w)) = None →
         fragments (agent_invoke sdk agent content (fs w)) = frags →
         outbox (snd (app_ui.on_message sdk sid content w))
         = outbox w ++ [(sid, "❌ No response received from the agent.")]).
Proof.
  split.
  { intros frag c Hc Hcc. unfold app_ui.fragment_text. by rewrite Hc, Hcc. }
  intros Hall.
  assert (Hacc : app_ui.accumulate frags = "").
  { rewrite accumulate_joined. unfold props.joined.
    induction Hall as [|frag frags Hfrag _ IH]; [done|].
    cbn [fmap list_fmap foldr]. by rewrite Hfrag, IH. }
  split; [exact Hacc|].
  intros sdk sid content w agent Hagent Hraised Hfrags.
  rewrite (on_message_agent sdk sid content w agent Hagent). cbn [snd send outbox].
  destruct (invoke_frame sdk agent content w) as (_ & _ & _ & _ & _ & ->).
  unfold props.reply_of. by rewrite Hraised, Hfrags, Hacc.
Qed.

Lemma textless_stream_gets_notice_witness :
  let w := app_ui.run_host scenarios.sdk_textless [app_ui.ChatStart 0]
                           examples.world_configured in
  outbox (snd (app_ui.on_message scenarios.sdk_textless 0 "list namespaces" w))
  = outbox w ++ [(0, "❌ No response received from the agent.")].
Proof.
  intros w.
  eassert (Hagent : user_session w !! 0 = Some _) by (vm_compute; reflexivity).
  destruct (textless_stream_gets_notice [examples.item ""; examples.item ""])
    as [_ H].
  destruct H as [_ H]; [by repeat constructor|].
  apply (H scenarios.sdk_textless 0 "list namespaces" w _ Hagent); reflexivity.
Defined.

(** X24: chat starts that overlap end up with one adapter between them.
    When a second chat starts while the first waits for its subprocess,
    and both resume, each session stores an agent of its own, but both
    agents hold the plugin the second start built -- the one the module
    global refers to when line 84 reads it.  Both subprocesses are
    started; the first one is held by no agent. *)
Theorem overlapping_starts_share_adapter (sdk : SDK) (t1 t2 s1 s2 : nat) (w : World) :
  (∀ c, sdk_raises sdk c = None) →
  props.configured None None w = true →
  t1 ≠ t2 → s1 ≠ s2 →
  let l := app_ui.run_steps sdk
             [app_ui.StartBegins t1 s1; app_ui.StartBegins t2 s2;
              app_ui.StartResumes t1; app_ui.StartResumes t2]
             {| app_ui.waiting := ∅; app_ui.world := w |} in
  let second := props.new_plugin (props.entered w) in
  ∃ a1 a2,
    user_session (app_ui.world l) !! s1 = Some a1
    ∧ user_session (app_ui.world l) !! s2 = Some a2
    ∧ props.adapters a1 = [second] ∧ props.adapters a2 = [second]
    ∧ mcp_id second = S (next_id w)
    ∧ kube_discovery_plugin (app_ui.world l) = Some second
    ∧ trace (app_ui.world l)
      = trace w ++ [EvInit (next_id w); EvEnter (next_id w);
                    EvInit (S (next_id w)); EvEnter (S (next_id w));
                    EvStarted (next_id w); EvStarted (S (next_id w))].
Proof.
  intros Hok Hc Ht Hs l second. subst l second.
  assert (Hc' : props.configured None None (props.entered w) = true) by exact Hc.
  unfold app_ui.run_steps. cbn [fold_left].
  rewrite (step_begins sdk t1 s1 _ (props.frame_of None None None None w)
                       (props.entered w)); cycle 1.
  { apply lookup_empty. }
  { unfold app_ui.start_until_await. cbn [app_ui.world].
    by rewrite (until_await_cases sdk None None None None w Hc), first_raise_never. }
  rewrite (step_begins sdk t2 s2 _
             (props.frame_of None None None None (props.entered w))
             (props.entered (props.entered w))); cycle 1.
  { cbn [app_ui.waiting]. by rewrite lookup_insert_ne. }
  { unfold app_ui.start_until_await. cbn [app_ui.world].
    by rewrite (until_await_cases sdk None None None None _ Hc'), first_raise_never. }
  rewrite (step_resumes sdk t1 s1 _ (props.frame_of None None None None w)); cycle 1.
  { cbn [app_ui.waiting]. rewrite lookup_insert_ne by done. apply lookup_insert_eq. }
  cbn [app_ui.waiting app_ui.world].
  rewrite (start_after_await_ok sdk s1 _ (props.new_plugin (props.entered w)))
    by done.
  rewrite (step_resumes sdk t2 s2 _
             (props.frame_of None None None None (props.entered w))); cycle 1.
  { cbn [app_ui.waiting]. rewrite lookup_delete_ne by done. apply lookup_insert_eq. }
  cbn [app_ui.waiting app_ui.world snd].
  rewrite (start_after_await_ok sdk s2 _ (props.new_plugin (props.entered w)))
    by done.
  cbn [snd send session_set user_session].
  eexists _, _. split_and!.
  - rewrite lookup_insert_ne by done. apply lookup_insert_eq.
  - apply lookup_insert_eq.
  - reflexivity.
  - reflexivity.
  - reflexivity.
  - reflexivity.
  - cbn. by rewrite <- !app_assoc.
Qed.

(** The schedule of the example is not one in which the starts take
    turns. *)
Lemma overlapping_starts_not_serial :
  vocab.serial None scenarios.overlapping_starts = false.
Proof. reflexivity. Qed.

Lemma overlapping_starts_share_adapter_witness :
  let w := app_ui.world (app_ui.run_steps examples.sdk_ok scenarios.overlapping_starts
                                          scenarios.loop_configured) in
  ∃ a1 a2 p,
    user_session w !! 1 = Some a1 ∧ user_session w !! 2 = Some a2
    ∧ props.adapters a1 = [p] ∧ props.adapters a2 = [p] ∧ mcp_id p = 1.
Proof.
  intros w.
  destruct (overlapping_starts_share_adapter examples.sdk_ok 1 2 1 2
              examples.world_configured)
    as (a1 & a2 & H1 & H2 & Hp1 & Hp2 & Hid & _);
    [reflexivity|reflexivity|discriminate|discriminate|].
  exists a1, a2, (props.new_plugin (props.entered examples.world_configured)).
  split_and!; [exact H1|exact H2|exact Hp1|exact Hp2|exact Hid].
Defined.

(** ** The test of the main application *)

Lemma create_after_print (sdk : SDK) (line : string) (w : World) :
  fst (app.create_kubernetes_discovery_agent sdk None None None None (print line w))
  = fst (app.create_kubernetes_discovery_agent sdk None None None None w).
Proof.
  destruct (props.configured None None w) eqn:Hc.
  - assert (Hc' : props.configured None None (print line w) = true) by exact Hc.
    by rewrite (create_outcome sdk _ _ _ _ w Hc), (create_outcome sdk _ _ _ _ _ Hc').
  - assert (Hc' : props.configured None None (print line w) = false) by exact Hc.
    by rewrite (create_unconfigured sdk _ _ _ _ w Hc),
         (create_unconfigured sdk _ _ _ _ _ Hc').
Qed.

Lemma create_keeps_fs (sdk : SDK)
    (instructions deployment_name endpoint api_key : option string) (w : World) :
  fs (snd (app.create_kubernetes_discovery_agent sdk instructions deployment_name
                                                 endpoint api_key w)) = fs w.
Proof.
  by destruct (create_ends sdk instructions deployment_name endpoint api_key w)
    as [(e & w' & -> & [->|[->| ->]])|(_ & _ & ->)].
Qed.

(** X17: the test never raises, and it passes exactly when the agent is
    created, the agent's run on the test message ends without an exception,
    and the text accumulated from the run is non-empty. *)
Theorem test_main_app_verdict (sdk : SDK) (w : World) :
  fst (test_main_app.test_main_app sdk w)
  = Returned
      match fst (app.create_kubernetes_discovery_agent sdk None None None None w) with
      | Returned agent =>
          let run := agent_invoke sdk agent vocab.test_message (fs w) in
          match raised run with
          | None => Py.truthy_str (app_ui.accumulate (fragments run))
          | Some _ => false
          end
      | Raised _ => false
      end.
Proof.
  unfold test_main_app.test_main_app, bind, modify, try_finally, try_except.
  cbn beta iota.
  set (w0 := print _ (print _ w)).
  rewrite <- (create_after_print sdk "🚀 Starting Main App Test" w).
  rewrite <- (create_after_print sdk
                "🔍 Testing Kubernetes Discovery Agent Creation..." (print _ w)).
  fold w0.
  pose proof (create_keeps_fs sdk None None None None w0) as Hfs.
  destruct (app.create_kubernetes_discovery_agent sdk None None None None w0)
    as [[agent|e] w1]; cbn [fst snd] in *; [|reflexivity].
  match goal with |- context [app_ui.invoke sdk agent ?m ?wi] =>
    pose proof (invoke_outcome sdk agent m wi) as Hout;
    destruct (app_ui.invoke sdk agent m wi) as [r w2]
  end.
  cbn [fst print fs] in Hout. rewrite Hfs in Hout. subst r.
  change (fs w0) with (fs w). unfold vocab.test_message.
  destruct (raised _); [reflexivity|]. cbn beta iota.
  by destruct (Py.truthy_str _).
Qed.

Lemma test_main_app_verdict_witness :
  fst (test_main_app.test_main_app scenarios.sdk_breaks examples.world_configured)
  = Returned false.
Proof.
  rewrite (test_main_app_verdict scenarios.sdk_breaks examples.world_configured).
  reflexivity.
Defined.

(** X18: when the calls into the SDK before it go through and the adapter
    fails to start, the test reports failure and its [finally] block still
    calls [__aexit__] -- on the plugin that was entered but never
    started. *)
Theorem test_main_app_exits_unstarted_plugin (sdk : SDK) (w : World) (e : Py.exc) :
  props.configured None None w = true →
  Forall (fun c => sdk_raises sdk c = None)
         (props.calls_before_start None None None w) →
  sdk_raises sdk (AEnter (props.new_plugin w)) = Some e →
  let r := test_main_app.test_main_app sdk w in
  fst r = Returned false
  ∧ trace (snd r)
    = trace w ++ [EvInit (next_id w); EvEnter (next_id w); EvExit (next_id w)]
  ∧ stdout (snd r)
    = stdout w ++ ["🚀 Starting Main App Test";
                   "🔍 Testing Kubernetes Discovery Agent Creation...";
                   "❌ Error: " +:+ Py.str_exc e].
Proof.
  intros Hc Hb%first_raise_None Hs r. subst r.
  unfold test_main_app.test_main_app, bind, modify, try_finally, try_except.
  cbn beta iota.
  set (w0 := print _ (print _ w)).
  assert (Hc0 : props.configured None None w0 = true) by exact Hc.
  assert (Hb0 : props.first_raise sdk (props.calls_before_start None None None w0)
                = None) by exact Hb.
  assert (Hs0 : sdk_raises sdk (AEnter (props.new_plugin w0)) = Some e) by exact Hs.
  rewrite (create_launch_failed sdk None None None None w0 e Hc0 Hb0 Hs0).
  cbn. split_and!; [reflexivity|by rewrite <- !app_assoc|by rewrite <- !app_assoc].
Qed.

Lemma test_main_app_exits_unstarted_plugin_witness :
  trace (snd (test_main_app.test_main_app examples.sdk_no_npx examples.world_configured))
  = [EvInit 0; EvEnter 0; EvExit 0].
Proof.
  apply (test_main_app_exits_unstarted_plugin examples.sdk_no_npx
           examples.world_configured (Py.SdkError "Failed to connect to MCP server"));
    [reflexivity|by repeat constructor|reflexivity].
Defined.

(** X19: without the configuration the test reports failure with the
    text of the configuration error, builds no plugin, and its [finally]
    block calls [__aexit__] on whatever plugin an earlier creation call of
    the process left in the module global -- on none in a fresh process. *)
Theorem test_main_app_unconfigured (sdk : SDK) (w : World) :
  props.configured None None w = false →
  let r := test_main_app.test_main_app sdk w in
  fst r = Returned false
  ∧ trace (snd r)
    = trace w ++ match kube_discovery_plugin w with
                 | Some p => [EvExit (mcp_id p)]
                 | None => []
                 end
  ∧ next_id (snd r) = next_id w
  ∧ stdout (snd r)
    = stdout w ++ ["🚀 Starting Main App Test";
                   "🔍 Testing Kubernetes Discovery Agent Creation...";
                   "❌ Error: " +:+ Py.str_exc app.config_error].
Proof.
  intros Hc r. subst r.
  unfold test_main_app.test_main_app, bind, modify, try_finally, try_except.
  cbn beta iota.
  set (w0 := print _ (print _ w)).
  assert (Hc0 : props.configured None None w0 = false) by exact Hc.
  rewrite (create_unconfigured sdk None None None None w0 Hc0).
  cbn. unfold test_main_app.cleanup. cbn.
  destruct (kube_discovery_plugin w); cbn;
    (split_and!; [reflexivity|by rewrite ?app_nil_r|reflexivity|by rewrite <- !app_assoc]).
Qed.

Lemma test_main_app_unconfigured_witness :
  fst (test_main_app.test_main_app examples.sdk_ok examples.world_unconfigured)
  = Returned false
  ∧ trace (snd (test_main_app.test_main_app examples.sdk_ok examples.world_unconfigured))
    = [].
Proof.
  destruct (test_main_app_unconfigured examples.sdk_ok examples.world_unconfigured)
    as (H1 & H2 & _); [reflexivity|].
  split; [exact H1|exact H2].
Defined.

(** ** The test suite runner *)

Lemma stdout_prints (lines : list string) (w : World) :
  stdout (test_all.prints lines w) = stdout w ++ lines.
Proof.
  unfold test_all.prints. revert w.
  induction lines as [|line lines IH]; intros w; cbn [fold_left].
  - by rewrite app_nil_r.
  - rewrite IH. cbn. by rewrite <- app_assoc.
Qed.

Lemma fs_prints (lines : list string) (w : World) :
  fs (test_all.prints lines w) = fs w.
Proof. apply (prints_frame lines w). Qed.

Lemma module_name_sk :
  builtins.replace ".py" ""
    (builtins.replace "\" "." (builtins.replace "/" "." "test/test_sk_explicit_settings.py"))
  = "test.test_sk_explicit_settings".
Proof. by vm_compute. Qed.

Lemma module_name_main_app :
  builtins.replace ".py" ""
    (builtins.replace "\" "." (builtins.replace "/" "." "test/test_main_app.py"))
  = "test.test_main_app".
Proof. by vm_compute. Qed.

Lemma module_name_openai :
  builtins.replace ".py" ""
    (builtins.replace "\" "." (builtins.replace "/" "." "test/test_openai_connection.py"))
  = "test.test_openai_connection".
Proof. by vm_compute. Qed.

Lemma read_text_frame (path : string) (w : World) :
  snd (builtins.read_text path w) = w.
Proof.
  unfold builtins.read_text. cbn zeta.
  destruct (negb _); [done|].
  destruct (Os.dir_form path); [by destruct (Os.walk (fs w) _ _)|].
  destruct (Os.locate (fs w) path) as [t| |]; [|done..].
  destruct (Os.node_at (fs w) t) as [[|c]|]; [done| |done].
  by destruct (Os.ends_with_sep path).
Qed.

Lemma read_text_fs (path : string) (w w' : World) :
  fs w' = fs w → fst (builtins.read_text path w') = fst (builtins.read_text path w).
Proof.
  intros H. unfold builtins.read_text. cbn zeta. rewrite H.
  destruct (negb _); [done|].
  destruct (Os.dir_form path); [by destruct (Os.walk (fs w) _ _)|].
  destruct (Os.locate (fs w) path) as [t| |]; [|done..].
  destruct (Os.node_at (fs w) t) as [[|c]|]; [done| |done].
  by destruct (Os.ends_with_sep path).
Qed.

Lemma run_test_file_cases (py : Interp) (test_file : string) (w : World) :
  let imported :=
    import_module py
      (builtins.replace ".py" ""
         (builtins.replace "\" "." (builtins.replace "/" "." test_file))) in
  test_all.run_test_file py test_file w
  = match exec_raised imported with
    | None => (Returned true, test_all.prints (exec_printed imported) w)
    | Some e =>
        (Returned false,
         print ("Error running " +:+ test_file +:+ ": " +:+ Py.str_exc e)
               (test_all.prints (exec_printed imported) w))
    end.
Proof.
  intros imported. subst imported.
  unfold test_all.run_test_file, try_except, bind, test_all.exec, modify, ret.
  by destruct (exec_raised _).
Qed.

(** X20: [run_test_file] never raises and reports whether the import of
    the module raised, nothing more: it returns [True] exactly when the
    import raises nothing -- whatever the test in that module would find --
    and on failure prints one line with the file name and the exception's
    text, after whatever the import printed. *)
Theorem run_test_file_reports_import (py : Interp) (test_file : string) (w : World) :
  let imported :=
    import_module py
      (builtins.replace ".py" ""
         (builtins.replace "\" "." (builtins.replace "/" "." test_file))) in
  let r := test_all.run_test_file py test_file w in
  fst r = Returned (bool_decide (exec_raised imported = None))
  ∧ stdout (snd r)
    = stdout w ++ exec_printed imported
      ++ match exec_raised imported with
         | None => []
         | Some e => ["Error running " +:+ test_file +:+ ": " +:+ Py.str_exc e]
         end
  ∧ fs (snd r) = fs w ∧ trace (snd r) = trace w.
Proof.
  intros imported r. subst r. rewrite run_test_file_cases. fold imported.
  destruct (exec_raised imported); cbn [fst snd print stdout fs trace];
    rewrite ?stdout_prints, ?fs_prints, ?app_nil_r, <- ?app_assoc;
    (split_and!; [done|done|done|]); apply (prints_frame (exec_printed imported) w).
Qed.

Ltac find_line :=
  repeat first
    [ apply list_elem_of_singleton; reflexivity
    | apply elem_of_app; right; apply list_elem_of_singleton; reflexivity
    | apply elem_of_app; left ].

Ltac eval_bool_decide :=
  repeat match goal with
         | |- context [bool_decide ?P] =>
             let v := eval vm_compute in (bool_decide P) in
             change (bool_decide P) with v
         end.

Ltac push_prints :=
  repeat first
    [ progress cbn [stdout fs print fst snd]
    | rewrite stdout_prints
    | rewrite fs_prints ].

Lemma pretty_total : pretty (0 + 1 + 1 + 1 + 1) = "4".
Proof. by vm_compute. Qed.

Lemma run_all_tests_cases (py : Interp) (w : World) :
  let r := test_all.run_all_tests py w in
  fst r = Returned (bool_decide (vocab.checks_passed py w = 4))
  ∧ ("✅ Tests Passed: " +:+ pretty (vocab.checks_passed py w) +:+ "/4")
    ∈ stdout (snd r)
  ∧ fs (snd r) = fs w.
Proof.
  intros r. subst r.
  unfold test_all.run_all_tests, bind, modify, try_except, ret.
  cbn beta iota. rewrite pretty_total.
  unfold vocab.checks_passed, vocab.rest_api_ok, vocab.import_ok.
  match goal with |- context [builtins.read_text ?p (print ?line ?w2)] =>
    pose proof (read_text_frame p (print line w2)) as Hsnd;
    pose proof (read_text_fs p w (print line w2) eq_refl) as Hfst;
    destruct (builtins.read_text p (print line w2)) as [res wr]
  end.
  cbn [fst snd] in Hsnd, Hfst. subst wr res.
  destruct (fst (builtins.read_text "test/test_rest_api.py" w)) as [source|e0].
  - unfold test_all.exec.
    destruct (exec_raised (exec_source py source)) eqn:H1;
      cbn beta iota;
      rewrite !run_test_file_cases, module_name_sk; cbn zeta;
      destruct (exec_raised (import_module py "test.test_sk_explicit_settings")) eqn:H2;
      cbn beta iota;
      rewrite !run_test_file_cases, module_name_main_app; cbn zeta;
      destruct (exec_raised (import_module py "test.test_main_app")) eqn:H3;
      cbn beta iota;
      rewrite !run_test_file_cases, module_name_openai; cbn zeta;
      destruct (exec_raised (import_module py "test.test_openai_connection")) eqn:H4;
      cbn beta iota; eval_bool_decide;
      cbn [List.filter id length Nat.add Nat.sub]; eval_bool_decide; cbn beta iota;
      (split_and!; [reflexivity|push_prints; find_line|by push_prints]).
  - cbn beta iota;
      rewrite !run_test_file_cases, module_name_sk; cbn zeta;
      destruct (exec_raised (import_module py "test.test_sk_explicit_settings")) eqn:H2;
      cbn beta iota;
      rewrite !run_test_file_cases, module_name_main_app; cbn zeta;
      destruct (exec_raised (import_module py "test.test_main_app")) eqn:H3;
      cbn beta iota;
      rewrite !run_test_file_cases, module_name_openai; cbn zeta;
      destruct (exec_raised (import_module py "test.test_openai_connection")) eqn:H4;
      cbn beta iota; eval_bool_decide;
      cbn [List.filter id length Nat.add Nat.sub]; eval_bool_decide; cbn beta iota;
      (split_and!; [reflexivity|push_prints; find_line|by push_prints]).
Qed.

(** X21: [run_all_tests] never raises.  It returns [True] exactly when all
    four checks pass -- the REST script is read and run without an
    exception, and each of the three test modules is imported without an
    exception -- and the summary line it prints gives the number of checks
    that passed, out of 4. *)
Theorem run_all_tests_verdict (py : Interp) (w : World) :
  let r := test_all.run_all_tests py w in
  let passed := vocab.checks_passed py w in
  fst r = Returned (bool_decide (passed = 4))
  ∧ ("✅ Tests Passed: " +:+ pretty passed +:+ "/4") ∈ stdout (snd r)
  ∧ passed ≤ 4
  ∧ (passed = 4 ↔
     vocab.rest_api_ok py w = true
     ∧ vocab.import_ok py "test.test_sk_explicit_settings" = true
     ∧ vocab.import_ok py "test.test_main_app" = true
     ∧ vocab.import_ok py "test.test_openai_connection" = true).
Proof.
  intros r passed. subst r passed.
  destruct (run_all_tests_cases py w) as (Hr & Hline & _).
  split_and!; [exact Hr|exact Hline|..]; unfold vocab.checks_passed;
    destruct (vocab.rest_api_ok py w),
      (vocab.import_ok py "test.test_sk_explicit_settings"),
      (vocab.import_ok py "test.test_main_app"),
      (vocab.import_ok py "test.test_openai_connection"); cbn; try lia;
    (split; [intros; try lia; by split_and!|intros (? & ? & ? & ?); done]).
Qed.

(** The suite in a checkout where every script runs, and in one where a
    module fails to import *)
Lemma run_all_tests_checkout :
  fst (test_all.run_all_tests scenarios.py_ok scenarios.world_checkout) = Returned true
  ∧ fst (test_all.run_all_tests scenarios.py_broken_import scenarios.world_checkout)
    = Returned false.
Proof. split; by vm_compute. Qed.

Lemma print_environment_status_frame (w : World) :
  fst (test_all.print_environment_status w) = Returned tt
  ∧ fs (snd (test_all.print_environment_status w)) = fs w.
Proof.
  unfold test_all.print_environment_status, bind, gets, modify. cbn beta iota.
  by destruct (Py.truthy_str _ && negb _).
Qed.

(** X22: run as a program, the suite exits with status 0 exactly when all
    four checks pass, and with status 1 otherwise. *)
Theorem main_exit_status (py : Interp) (w : World) :
  fst (test_all.main py w)
  = Returned (if bool_decide (vocab.checks_passed py w = 4) then 0 else 1).
Proof.
  unfold test_all.main, bind.
  destruct (print_environment_status_frame w) as [Hret Hfs].
  destruct (test_all.print_environment_status w) as [r w1]. cbn [fst snd] in *.
  subst r.
  destruct (run_all_tests_cases py w1) as (Hr & _ & _).
  destruct (test_all.run_all_tests py w1) as [r w2]. cbn [fst] in Hr. subst r.
  replace (vocab.checks_passed py w1) with (vocab.checks_passed py w)
    by (unfold vocab.checks_passed, vocab.rest_api_ok;
        by rewrite (read_text_fs _ w w1 Hfs)).
  by destruct (bool_decide _).
Qed.

(** ** Masking the API key *)

Lemma join_app (l1 l2 : list string) :
  builtins.join (l1 ++ l2) = builtins.join l1 +:+ builtins.join l2.
Proof.
  unfold builtins.join. induction l1 as [|s l1 IH]; [reflexivity|].
  cbn [app foldr]. by rewrite IH, append_assoc.
Qed.

Lemma chars_nil (s : string) : builtins.chars s = [] → s = "".
Proof.
  destruct s as [|c s]; [done|]. cbn [builtins.chars].
  destruct (builtins.chars s) as [|ch rest]; [done|].
  by destruct (builtins.starts_with_continuation ch).
Qed.

(** The code points of a text, put together again, are the text. *)
Lemma join_chars (s : string) : builtins.join (builtins.chars s) = s.
Proof.
  induction s as [|c s IH]; [reflexivity|]. cbn [builtins.chars].
  destruct (builtins.chars s) as [|ch rest] eqn:E.
  - by rewrite (chars_nil s E).
  - unfold builtins.join in *. cbn [foldr] in IH.
    destruct (builtins.starts_with_continuation ch); cbn [foldr].
    + by rewrite append_cons, IH.
    + by rewrite append_cons, IH.
Qed.

(** X23: [print_environment_status] never prints a key of more than four
    characters in full.  For a key that is set, non-empty and not the text
    "Not set", the last line printed is "API Key: ", ten asterisks, three
    dots and the last four characters of the key -- the whole key when it
    has four characters or fewer; everything before those characters is
    left out. *)
Theorem api_key_is_masked (w : World) (key : string) :
  environ w !! "AZURE_OPENAI_API_KEY" = Some key →
  key ≠ "" → key ≠ "Not set" →
  let shown := builtins.slice_last 4 key in
  last (stdout (snd (test_all.print_environment_status w)))
  = Some ("API Key: **********..." +:+ shown)
  ∧ (∃ hidden visible,
       builtins.chars key = hidden ++ visible
       ∧ length hidden = builtins.len key - 4
       ∧ length visible = builtins.len key `min` 4
       ∧ shown = builtins.join visible
       ∧ key = builtins.join hidden +:+ shown)
  ∧ (builtins.len key ≤ 4 → shown = key).
Proof.
  intros Hkey Hne Hns shown. subst shown. split_and!.
  - unfold test_all.print_environment_status, bind, gets, modify. cbn beta iota.
    rewrite Hkey. cbn [default from_option]. unfold id, Py.truthy_str.
    rewrite !bool_decide_eq_false_2 by done. cbn [negb andb].
    cbn [snd stdout print]. by rewrite last_snoc.
  - unfold builtins.slice_last, builtins.len.
    exists (take (length (builtins.chars key) - 4) (builtins.chars key)),
           (drop (length (builtins.chars key) - 4) (builtins.chars key)).
    split_and!.
    + by rewrite take_drop.
    + rewrite length_take. lia.
    + rewrite length_drop. lia.
    + reflexivity.
    + by rewrite <- join_app, take_drop, join_chars.
  - intros Hlen. unfold builtins.slice_last, builtins.len in *.
    replace (length (builtins.chars key) - 4) with 0 by lia.
    by rewrite drop_0, join_chars.
Qed.

Lemma api_key_is_masked_witness :
  last (stdout (snd (test_all.print_environment_status examples.world_configured)))
  = Some "API Key: **********...cdef".
Proof.
  apply (api_key_is_masked examples.world_configured "0123456789abcdef");
    [reflexivity|discriminate|discriminate].
Defined.
